(** * ValutaTrade Hub: the rate cache, the update cycle and the rate resolver

    A shallow embedding of
      - [valutatrade_hub/core/utils.py]          (validation, [calculate_rate], [is_rate_fresh]),
      - [valutatrade_hub/core/currencies.py]     (the currency registry),
      - [valutatrade_hub/core/usecases.py]       ([RatesService.get_rate]),
      - [valutatrade_hub/infra/database.py]      (the rates of [DatabaseManager]),
      - [valutatrade_hub/parser_service/storage.py] ([RatesStorage]),
      - [valutatrade_hub/parser_service/updater.py] ([RatesUpdater]),
      - [valutatrade_hub/parser_service/config.py]  (the CoinGecko ids),
      - [valutatrade_hub/cli/interface.py]       (the report of [update-rates]),
    followed by the properties of these functions.

    Conventions of the embedding.
      - A decoded JSON document is a value of [json]; a Python [dict] is an
        association list in insertion order with first-match lookup.  JSON
        numbers are IEEE binary64 floats (the type every writer of this
        repository stores).  Python integers inside documents are not
        modelled, and with them the [OverflowError] of a division by an
        integer too large for a float: the properties that name a number speak
        of floats.
      - A Python exception is a value of [exn]; a call that may raise returns a
        [result].
      - Strings are byte strings (UTF-8 for the messages); [upper], [lower]
        and [strip] act on the ASCII characters, on which they agree with
        Python's: codes with other letters are not modelled.
      - The file system is a finite map from paths to text files that can be
        opened and decoded as UTF-8; the clock, the outcomes of the API clients
        and the outcomes of the operating system calls are explicit inputs. *)

From Stdlib Require Import ZArith String Ascii.
From Stdlib Require Import Floats.PrimFloat Floats.SpecFloat Floats.FloatOps.
From Stdlib Require Uint63.
From stdpp Require Import base option list gmap strings pretty.

Set Warnings "-inexact-float,-register-all".
Set Default Proof Using "Type".

(** ** Exceptions and results *)

Inductive exn :=
| ValidationError (msg : string)
| CurrencyNotFoundError (code : string)
| ApiRequestError (reason : string)
| TypeError
| AttributeError
| ZeroDivisionError
| OverflowError
| OSError (msg : string).

Inductive result (A : Type) :=
| Ok (a : A)
| Raise (e : exn).
Arguments Ok {A} a.
Arguments Raise {A} e.

Definition result_bind {A B} (f : A → result B) (r : result A) : result B :=
  match r with
  | Ok a => f a
  | Raise e => Raise e
  end.

#[global] Instance result_ret : MRet result := @Ok.
#[global] Instance result_mbind : MBind result := @result_bind.

(** ** Decoded JSON documents and the Python operations used on them *)

Inductive json :=
| JNull
| JBool (b : bool)
| JNum (f : float)
| JStr (s : string)
| JArr (l : list json)
| JObj (d : list (string * json)).

Abbreviation dict := (list (string * json)).

(** [k in d] and [d.get(k)] on the items of a dict. *)
Fixpoint dict_get {A} (k : string) (d : list (string * A)) : option A :=
  match d with
  | [] => None
  | (k', v) :: d' => if String.eqb k' k then Some v else dict_get k d'
  end.

(** [d[k] = v]: an existing key keeps its position, a new key goes last. *)
Fixpoint dict_set {A} (k : string) (v : A) (d : list (string * A)) : list (string * A) :=
  match d with
  | [] => [(k, v)]
  | (k', v') :: d' => if String.eqb k' k then (k', v) :: d' else (k', v') :: dict_set k v d'
  end.

(** [d.update(other)]. *)
Definition dict_update {A} (d other : list (string * A)) : list (string * A) :=
  foldl (λ acc kv, dict_set kv.1 kv.2 acc) d other.

Definition is_zero (f : float) : bool := PrimFloat.eqb f 0%float.

(** [bool(v)]. *)
Definition truthy (v : json) : bool :=
  match v with
  | JNull => false
  | JBool b => b
  | JNum f => negb (is_zero f)
  | JStr s => negb (String.eqb s "")
  | JArr l => match l with [] => false | _ => true end
  | JObj d => match d with [] => false | _ => true end
  end.

(** [isinstance(v, dict)]. *)
Definition is_dict (v : json) : bool :=
  match v with JObj _ => true | _ => false end.

(** [v.get(k, fallback)]; only a dict has the method. *)
Definition py_get (v : json) (k : string) (fallback : json) : result json :=
  match v with
  | JObj d => Ok (default fallback (dict_get k d))
  | _ => Raise AttributeError
  end.

(** The number a value stands for in arithmetic ([bool] is a number in Python). *)
Definition as_number (v : json) : option float :=
  match v with
  | JNum f => Some f
  | JBool b => Some (if b then 1%float else 0%float)
  | _ => None
  end.

(** [a / b]: true division raises on a zero divisor and on operands that are
    not numbers. *)
Definition py_truediv (a b : json) : result json :=
  match as_number a, as_number b with
  | Some x, Some y =>
      if is_zero y then Raise ZeroDivisionError else Ok (JNum (x / y)%float)
  | _, _ => Raise TypeError
  end.

(** [v != 0]. *)
Definition py_ne_zero (v : json) : bool :=
  match as_number v with
  | Some x => negb (is_zero x)
  | None => true
  end.

(** [a == b] on decoded documents: numbers compare by value, dicts regardless
    of the order of their items. *)
Fixpoint py_eq (a b : json) {struct a} : bool :=
  match a, b with
  | JNull, JNull => true
  | JStr s, JStr t => String.eqb s t
  | JArr l1, JArr l2 =>
      (fix go (l1 l2 : list json) : bool :=
         match l1, l2 with
         | [], [] => true
         | x :: l1', y :: l2' => py_eq x y && go l1' l2'
         | _, _ => false
         end) l1 l2
  | JObj d1, JObj d2 =>
      Nat.eqb (length d1) (length d2) &&
      (fix go (d : list (string * json)) : bool :=
         match d with
         | [] => true
         | (k, v) :: d' =>
             match dict_get k d2 with
             | Some v' => py_eq v v'
             | None => false
             end && go d'
         end) d1
  | (JNum _ | JBool _), (JNum _ | JBool _) =>
      match as_number a, as_number b with
      | Some x, Some y => PrimFloat.eqb x y
      | _, _ => false
      end
  | _, _ => false
  end.

(** ** Strings *)

Definition is_lower_az (c : ascii) : bool :=
  (97 <=? nat_of_ascii c) && (nat_of_ascii c <=? 122).
Definition is_upper_AZ (c : ascii) : bool :=
  (65 <=? nat_of_ascii c) && (nat_of_ascii c <=? 90).

Definition upper_char (c : ascii) : ascii :=
  if is_lower_az c then ascii_of_nat (nat_of_ascii c - 32) else c.
Definition lower_char (c : ascii) : ascii :=
  if is_upper_AZ c then ascii_of_nat (nat_of_ascii c + 32) else c.

Fixpoint string_map (f : ascii → ascii) (s : string) : string :=
  match s with
  | EmptyString => EmptyString
  | String c s' => String (f c) (string_map f s')
  end.

Definition upper : string → string := string_map upper_char.
Definition lower : string → string := string_map lower_char.

(** The ASCII characters [str.strip()] removes. *)
Definition is_space (c : ascii) : bool :=
  let n := nat_of_ascii c in
  (9 <=? n) && (n <=? 13) || (28 <=? n) && (n <=? 32).

Fixpoint lstrip (s : string) : string :=
  match s with
  | EmptyString => EmptyString
  | String c s' => if is_space c then lstrip s' else s
  end.
Fixpoint rstrip (s : string) : string :=
  match s with
  | EmptyString => EmptyString
  | String c s' =>
      match rstrip s' with
      | EmptyString => if is_space c then EmptyString else String c EmptyString
      | r => String c r
      end
  end.
Definition strip (s : string) : string := rstrip (lstrip s).

(** [s.replace(c, by)] for a pattern of one character. *)
Fixpoint replace_char (c : ascii) (by_ : string) (s : string) : string :=
  match s with
  | EmptyString => EmptyString
  | String c' s' =>
      (if Ascii.eqb c' c then by_ else String c' EmptyString) +:+ replace_char c by_ s'
  end.

(** [s.split(sep)] for a separator of one character. *)
Fixpoint split_go (sep : ascii) (cur : string) (s : string) : list string :=
  match s with
  | EmptyString => [String.rev cur]
  | String c s' =>
      if Ascii.eqb c sep then String.rev cur :: split_go sep EmptyString s'
      else split_go sep (String c cur) s'
  end.
Definition split (sep : ascii) (s : string) : list string :=
  split_go sep EmptyString s.

Fixpoint string_forallb (p : ascii → bool) (s : string) : bool :=
  match s with
  | EmptyString => true
  | String c s' => p c && string_forallb p s'
  end.

(** ** Time

    A [datetime] is its wall-clock reading in microseconds and, for an aware
    value, its UTC offset in microseconds.  [datetime.now()] and
    [datetime.utcnow()] return naive values, given here by their reading. *)

Record datetime := {
  wall_us : Z;
  utcoffset : option Z
}.

Definition naive (us : Z) : datetime := {| wall_us := us; utcoffset := None |}.

(** The two calls into Python's [datetime] library whose text format the
    repository relies on.  [fromisoformat] gives [None] where Python raises
    [ValueError]; [isoformat] renders a naive value. *)
Class DatetimeLib := {
  fromisoformat : string → option datetime;
  isoformat : Z → string
}.

(** [a - b], a [timedelta] in microseconds: Python refuses to subtract a naive
    and an aware value. *)
Definition datetime_sub (a b : datetime) : result Z :=
  match utcoffset a, utcoffset b with
  | None, None => Ok (wall_us a - wall_us b)%Z
  | Some oa, Some ob => Ok ((wall_us a - oa) - (wall_us b - ob))%Z
  | _, _ => Raise TypeError
  end.

(** [float(n)], exact for an integer of magnitude below [2^53]. *)
Definition float_of_Z (n : Z) : float :=
  if (0 <=? n)%Z then PrimFloat.of_uint63 (Uint63.of_Z n)
  else (- PrimFloat.of_uint63 (Uint63.of_Z (- n)))%float.

(** [int(x)] for a finite float: truncation towards zero (Python raises on an
    infinity and on NaN, which [total_seconds] does not produce). *)
Definition int_of_float (x : float) : Z :=
  match Prim2SF x with
  | S754_finite negative m e =>
      let magnitude :=
        if (0 <=? e)%Z then (Z.pos m * 2 ^ e)%Z else (Z.pos m / 2 ^ (- e))%Z in
      if negative then (- magnitude)%Z else magnitude
  | _ => 0%Z
  end.

(** [delta.total_seconds()] as a machine float, for the arithmetic of
    [run_update]: the microseconds divided by [10^6], rounded to binary64
    (one rounding for a duration below [2^53] microseconds). *)
Definition total_seconds (delta : Z) : float :=
  (float_of_Z delta / 1000000)%float.

(** An integer as the dividend or the divisor of a division: a float of
    exponent zero whose mantissa is the whole integer. *)
Definition SF_of_Z (n : Z) : spec_float :=
  match n with
  | Z0 => S754_zero false
  | Zpos p => S754_finite false p 0
  | Zneg p => S754_finite true p 0
  end.

(** [n / d] on two Python integers: the exact quotient rounded once to
    binary64, to nearest with ties to even.  The rounding is the one of the
    Standard Library's specification of IEEE division, which takes mantissas
    of any length.  (Python raises [OverflowError] where the result is an
    infinity here; no [timedelta] is that long.) *)
Definition int_truediv (n d : Z) : spec_float :=
  SFdiv prec emax (SF_of_Z n) (SF_of_Z d).

(** [x < n] for a float [x] and an integer [n]: Python compares the two by
    value, without converting the integer. *)
Definition float_lt_int (x : spec_float) (n : Z) : bool :=
  match x with
  | S754_zero _ => (0 <? n)%Z
  | S754_infinity negative => negative
  | S754_nan => false
  | S754_finite negative m e =>
      let mantissa := if negative then Z.neg m else Z.pos m in
      if (0 <=? e)%Z then (mantissa * 2 ^ e <? n)%Z
      else (mantissa <? n * 2 ^ (- e))%Z
  end.

(** [delta.total_seconds() < ttl_seconds] for an integer [ttl_seconds]:
    [total_seconds] divides the microseconds of the [timedelta] by [10**6] as
    integers, and the float it returns is compared with the integer. *)
Definition total_seconds_lt (delta ttl_seconds : Z) : bool :=
  float_lt_int (int_truediv delta 1000000) ttl_seconds.

(** ** core/utils.py *)

Definition matches_code (code : string) : bool :=
  (2 <=? String.length code) && (String.length code <=? 5) &&
  string_forallb is_upper_AZ code.

Definition validate_currency_code (code : string) : result string :=
  if String.eqb code "" || String.eqb (strip code) "" then
    Raise (ValidationError "Код валюты не может быть пустым")
  else
    let code := strip (upper code) in
    if negb (matches_code code) then
      Raise (ValidationError
        ("Код валюты должен содержать 2-5 букв (A-Z), получено: '" +:+ code +:+ "'"))
    else Ok code.

Section utils.
Context {lib : DatetimeLib}.

Definition parse_datetime (value : json) : option datetime :=
  match value with
  | JNull => None
  | JStr s => fromisoformat (replace_char "Z" "+00:00" s)
  | _ => None
  end.

Definition is_rate_fresh (now : Z) (updated_at : json) (ttl_seconds : Z) : result bool :=
  match updated_at with
  | JNull => Ok false
  | JStr _ =>
      match parse_datetime updated_at with
      | None => Ok false
      | Some dt =>
          age ← datetime_sub (naive now) dt;
          Ok (total_seconds_lt age ttl_seconds)
      end
  | _ => Raise TypeError
  end.
End utils.

(** [rate_data.get("rate") if isinstance(rate_data, dict) else rate_data]. *)
Definition rate_of (rate_data : json) : json :=
  match rate_data with
  | JObj d => default JNull (dict_get "rate" d)
  | _ => rate_data
  end.

Definition pair_key (from_code to_code : string) : string :=
  from_code +:+ "_" +:+ to_code.

Definition calculate_rate (from_code to_code : string) (rates : dict) : result json :=
  let from_code := upper from_code in
  let to_code := upper to_code in
  if String.eqb from_code to_code then Ok (JNum 1)
  else
    match dict_get (pair_key from_code to_code) rates with
    | Some rate_data => Ok (rate_of rate_data)
    | None =>
        let via_usd :=
          if negb (String.eqb from_code "USD") && negb (String.eqb to_code "USD") then
            let from_rate :=
              from_option rate_of JNull (dict_get (pair_key from_code "USD") rates) in
            let to_rate :=
              from_option rate_of JNull (dict_get (pair_key to_code "USD") rates) in
            if truthy from_rate && truthy to_rate && py_ne_zero to_rate then
              py_truediv from_rate to_rate
            else Ok JNull
          else Ok JNull in
        match dict_get (pair_key to_code from_code) rates with
        | Some rate_data =>
            let rate := rate_of rate_data in
            if truthy rate && py_ne_zero rate then py_truediv (JNum 1) rate
            else via_usd
        | None => via_usd
        end
    end.

(** ** core/currencies.py *)

Definition _init_currency_registry : list string :=
  [ "USD"; "EUR"; "GBP"; "RUB"; "JPY"; "CNY"; "CHF"; "CAD"; "AUD";
    "BTC"; "ETH"; "SOL"; "XRP"; "ADA"; "DOGE"; "LTC" ].

Definition get_currency (registry : list string) (code : string) : result string :=
  let code := strip (upper code) in
  if existsb (String.eqb code) registry then Ok code
  else Raise (CurrencyNotFoundError code).

(** ** infra/settings.py: the settings the modelled code reads *)

Record settings := {
  rates_ttl_seconds : option Z;
  default_base_currency : string;
  rates_file : string;
  exchange_rates_file : string
}.

(** ** The file system

    A file holds UTF-8 text: either text that [json.load] decodes, identified
    with the decoded document, or text that it rejects with
    [JSONDecodeError].  A path that cannot be opened for another reason than
    its absence, and a file that is not UTF-8 text, are not files of the
    model: on them [open] and [json.load] raise [OSError] and
    [UnicodeDecodeError], which [_read_json] does not catch. *)

Inductive file :=
| Json (doc : json)
| Garbage (text : string).

Abbreviation filesystem := (gmap string file).

(** [_read_json] of both [DatabaseManager] and [RatesStorage]: the handler of
    [FileNotFoundError] and [JSONDecodeError] makes a missing file, and a file
    whose text is not JSON, read as [None]. *)
Definition _read_json (fs : filesystem) (filepath : string) : json :=
  match fs !! filepath with
  | Some (Json doc) => doc
  | Some (Garbage _) => JNull
  | None => JNull
  end.

Definition empty_cache : json :=
  JObj [("pairs", JObj []); ("last_refresh", JNull)].

(** ** infra/database.py *)

Definition get_rates (st : settings) (fs : filesystem) : json :=
  match _read_json fs (rates_file st) with
  | JNull => empty_cache
  | data => data
  end.

(** ** core/usecases.py: [RatesService.get_rate]

    The [log_action] decorator logs and re-raises; it does not change the
    result and is left out. *)

Record rate_result := {
  res_from_code : string;
  res_to_code : string;
  res_rate : json;
  res_reverse_rate : json;
  res_updated_at : json;
  res_source : option json;
  res_fresh : bool
}.

Definition unavailable (from_code to_code : string) : exn :=
  ApiRequestError
    ("Курс " +:+ from_code +:+ "→" +:+ to_code +:+ " недоступен. Повторите попытку позже.").

(** [1.0 / rate if rate else None]. *)
Definition inverse_or_none (rate : json) : result json :=
  if truthy rate then py_truediv (JNum 1) rate else Ok JNull.

(** [info.get(k) if isinstance(info, dict) else fallback]. *)
Definition field_of (info : json) (k : string) (fallback : json) : json :=
  match info with
  | JObj d => default JNull (dict_get k d)
  | _ => fallback
  end.

Section usecases.
Context {lib : DatetimeLib}.

Definition get_rate (registry : list string) (st : settings) (now : Z)
    (fs : filesystem) (from_code to_code : string) : result rate_result :=
  from_code ← validate_currency_code from_code;
  to_code ← validate_currency_code to_code;
  _ ← get_currency registry from_code;
  _ ← get_currency registry to_code;
  if String.eqb from_code to_code then
    Ok {| res_from_code := from_code; res_to_code := to_code;
          res_rate := JNum 1; res_reverse_rate := JNum 1;
          res_updated_at := JStr (isoformat now);
          res_source := None; res_fresh := true |}
  else
    let rates_data := get_rates st fs in
    pairs ← py_get rates_data "pairs" rates_data;
    rate_info ← py_get pairs (pair_key from_code to_code) JNull;
    if truthy rate_info then
      let rate := rate_of rate_info in
      let updated_at := field_of rate_info "updated_at" JNull in
      let source := field_of rate_info "source" (JStr "cache") in
      let ttl := default 300%Z (rates_ttl_seconds st) in
      fresh ← is_rate_fresh now updated_at ttl;
      reverse_rate ← inverse_or_none rate;
      Ok {| res_from_code := from_code; res_to_code := to_code;
            res_rate := rate; res_reverse_rate := reverse_rate;
            res_updated_at := updated_at;
            res_source := Some source; res_fresh := fresh |}
    else
      reverse_info ← py_get pairs (pair_key to_code from_code) JNull;
      let via_calculate :=
        rate ← match pairs with
               | JObj d => calculate_rate from_code to_code d
               | _ => Raise AttributeError
               end;
        if truthy rate then
          reverse_rate ← inverse_or_none rate;
          last_refresh ← py_get rates_data "last_refresh" JNull;
          Ok {| res_from_code := from_code; res_to_code := to_code;
                res_rate := rate; res_reverse_rate := reverse_rate;
                res_updated_at := last_refresh;
                res_source := Some (JStr "calculated"); res_fresh := true |}
        else Raise (unavailable from_code to_code) in
      if truthy reverse_info then
        let reverse_rate := rate_of reverse_info in
        if truthy reverse_rate && py_ne_zero reverse_rate then
          rate ← py_truediv (JNum 1) reverse_rate;
          let updated_at := field_of reverse_info "updated_at" JNull in
          let ttl := default 300%Z (rates_ttl_seconds st) in
          fresh ← is_rate_fresh now updated_at ttl;
          Ok {| res_from_code := from_code; res_to_code := to_code;
                res_rate := rate; res_reverse_rate := reverse_rate;
                res_updated_at := updated_at;
                res_source := Some (field_of reverse_info "source" (JStr "cache"));
                res_fresh := fresh |}
        else via_calculate
      else via_calculate.
End usecases.

(** ** The world of the parser service

    The state threaded through [RatesStorage]: the files, and the outcomes of
    the operating-system calls that the coming calls of [_write_json] will
    make, in call order. *)

Inductive write_outcome :=
| MkstempRaises (e : exn)
| StagingRaises (temp_path : string) (partial : string) (e : exn)
| ReplaceRaises (temp_path : string) (e : exn)
| Written (temp_path : string).

Record world := {
  files : filesystem;
  os : nat → write_outcome
}.

Definition M (A : Type) : Type := world → result A * world.

#[global] Instance M_ret : MRet M := λ A a w, (Ok a, w).
#[global] Instance M_bind : MBind M := λ A B f m w,
  match m w with
  | (Ok a, w') => f a w'
  | (Raise e, w') => (Raise e, w')
  end.

Definition lift {A} (r : result A) : M A := λ w, (r, w).

(** Reading does not change the world: the readers are functions of the files. *)
Definition read {A} (reader : filesystem → A) : M A := λ w, (Ok (reader (files w)), w).

(** ** parser_service/storage.py *)

(** [if os.path.exists(temp_path): os.unlink(temp_path)]. *)
Definition unlink_if_exists (temp_path : string) (fs : filesystem) : filesystem :=
  if decide (is_Some (fs !! temp_path)) then delete temp_path fs else fs.

(** [_write_json]: [mkstemp] creates the temporary file, [json.dump] stages the
    document in it, [os.replace] renames it over [filepath]; the handler
    removes the temporary file and re-raises. *)
Definition _write_json (filepath : string) (data : json) : M unit := λ w,
  let rest := λ n, os w (S n) in
  match os w 0 with
  | MkstempRaises e => (Raise e, {| files := files w; os := rest |})
  | StagingRaises temp_path partial e =>
      let staged := <[temp_path := Garbage partial]> (files w) in
      (Raise e, {| files := unlink_if_exists temp_path staged; os := rest |})
  | ReplaceRaises temp_path e =>
      let staged := <[temp_path := Json data]> (files w) in
      (Raise e, {| files := unlink_if_exists temp_path staged; os := rest |})
  | Written temp_path =>
      let staged := <[temp_path := Json data]> (files w) in
      (Ok (), {| files := <[filepath := Json data]> (delete temp_path staged); os := rest |})
  end.

Definition get_rates_cache (st : settings) (fs : filesystem) : json :=
  match _read_json fs (rates_file st) with
  | JNull => empty_cache
  | data => data
  end.

(** [container[k] = v]; only a dict takes a string key. *)
Definition py_setitem (container : json) (k : string) (v : json) : result json :=
  match container with
  | JObj d => Ok (JObj (dict_set k v d))
  | _ => Raise TypeError
  end.

Definition cache_entry (rate : float) (current_time source : string) : json :=
  JObj [("rate", JNum rate); ("updated_at", JStr current_time); ("source", JStr source)].

Fixpoint store_rates (rates : list (string * float)) (current_time source : string)
    (pairs : json) : result json :=
  match rates with
  | [] => Ok pairs
  | (pair_, rate) :: rates' =>
      pairs ← py_setitem pairs pair_ (cache_entry rate current_time source);
      store_rates rates' current_time source pairs
  end.

Section storage.
Context {lib : DatetimeLib}.

Definition save_rates_cache (st : settings) (now : Z)
    (rates : list (string * float)) (source : string) : M unit :=
  let current_time := isoformat now in
  cache ← read (get_rates_cache st);
  pairs ← lift (py_get cache "pairs" (JObj []));
  pairs ← lift (store_rates rates current_time source pairs);
  cache ← lift (py_setitem cache "pairs" pairs);
  cache ← lift (py_setitem cache "last_refresh" (JStr current_time));
  cache ← lift (py_setitem cache "source" (JStr source));
  _write_json (rates_file st) cache.

Definition get_history (st : settings) (fs : filesystem) : list json :=
  match _read_json fs (exchange_rates_file st) with
  | JArr history => history
  | _ => []
  end.

(** The duplicate scan of [add_history_record]: [true] at the first record
    whose id equals [record_id]. *)
Fixpoint id_exists (record_id : json) (history : list json) : result bool :=
  match history with
  | [] => Ok false
  | existing :: rest =>
      existing_id ← py_get existing "id" JNull;
      if py_eq existing_id record_id then Ok true
      else id_exists record_id rest
  end.

Definition add_history_record (st : settings) (record : dict) : M unit :=
  history ← read (get_history st);
  let record_id := default JNull (dict_get "id" record) in
  found ← lift (if truthy record_id then id_exists record_id history else Ok false);
  if (found : bool) then mret ()
  else _write_json (exchange_rates_file st) (JArr (history ++ [JObj record])).

Definition history_record (pair_ from_code to_code : string) (rate : float)
    (timestamp source : string) (meta : json) : dict :=
  let record :=
    [ ("id", JStr (pair_ +:+ "_" +:+ timestamp));
      ("from_currency", JStr from_code);
      ("to_currency", JStr to_code);
      ("rate", JNum rate);
      ("timestamp", JStr timestamp);
      ("source", JStr source) ] in
  if truthy meta then dict_set "meta" meta record else record.

Fixpoint append_rates (st : settings) (rates : list (string * float))
    (timestamp source : string) (meta : json) : M unit :=
  match rates with
  | [] => mret ()
  | (pair_, rate) :: rates' =>
      match split "_" pair_ with
      | [from_code; to_code] =>
          _ ← add_history_record st
                (history_record pair_ from_code to_code rate timestamp source meta);
          append_rates st rates' timestamp source meta
      | _ => append_rates st rates' timestamp source meta
      end
  end.

Definition save_rates_to_history (st : settings) (utcnow : Z)
    (rates : list (string * float)) (source : string) (meta : json) : M unit :=
  let timestamp := isoformat utcnow +:+ "Z" in
  append_rates st rates timestamp source meta.
End storage.

(** ** parser_service/api_clients.py: what one cycle sees of a client

    [fetch_rates] is called once per cycle; its outcome is either the returned
    dict, an [ApiRequestError] or another [Exception] (given by its [str]). *)

Inductive fetch_outcome :=
| Fetched (rates : list (string * float))
| RaisesApiRequestError (reason : string)
| RaisesException (text : string).

Record client := {
  source_name : string;
  fetch_rates : fetch_outcome
}.

(** [str(e)] of an [ApiRequestError], see core/exceptions.py. *)
Definition api_error_message (reason : string) : string :=
  "Ошибка при обращении к внешнему API: " +:+ reason.

(** ** parser_service/updater.py *)

Inductive source_report :=
| StatusOK (rates_count : nat) (rates : list string)
| StatusERROR (error : string).

(** The dict [run_update] returns; [success] is [True], [False] or the string
    ["partial"]. *)
Record update_result := {
  success : json;
  sources : list (string * source_report);
  total_rates : nat;
  errors : list string;
  started_at : string;
  completed_at : string;
  duration_ms : Z
}.

(** The clock readings of one cycle, in the order [run_update] takes them. *)
Record clock := {
  start_time : Z;
  cache_time : Z;
  history_utcnow : Z;
  end_time : Z
}.

(** [name.lower().replace("-", "").replace(" ", "")]. *)
Definition normalize_source (name : string) : string :=
  replace_char " " "" (replace_char "-" "" (lower name)).

(** The filter at the head of the loop body: [false] is [continue]. *)
Definition selected (sources : option (list string)) (c : client) : bool :=
  match sources with
  | None | Some [] => true
  | Some names =>
      existsb (String.eqb (normalize_source (source_name c))) (map normalize_source names)
  end.

(** The local state of the loop over the clients. *)
Record poll := {
  all_rates : list (string * float);
  poll_sources : list (string * source_report);
  poll_errors : list string;
  poll_success : bool
}.

Definition poll_client (sources : option (list string)) (acc : poll) (c : client) : poll :=
  if negb (selected sources c) then acc
  else
    match fetch_rates c with
    | Fetched rates =>
        {| all_rates := dict_update (all_rates acc) rates;
           poll_sources :=
             dict_set (source_name c) (StatusOK (length rates) rates.*1) (poll_sources acc);
           poll_errors := poll_errors acc;
           poll_success := poll_success acc |}
    | RaisesApiRequestError reason =>
        let error_msg := api_error_message reason in
        {| all_rates := all_rates acc;
           poll_sources := dict_set (source_name c) (StatusERROR error_msg) (poll_sources acc);
           poll_errors := poll_errors acc ++ [source_name c +:+ ": " +:+ error_msg];
           poll_success := false |}
    | RaisesException text =>
        let error_msg := "Неожиданная ошибка: " +:+ text in
        {| all_rates := all_rates acc;
           poll_sources := dict_set (source_name c) (StatusERROR error_msg) (poll_sources acc);
           poll_errors := poll_errors acc ++ [source_name c +:+ ": " +:+ error_msg];
           poll_success := false |}
    end.

Definition poll_clients (sources : option (list string)) (clients : list client) : poll :=
  foldl (poll_client sources)
    {| all_rates := []; poll_sources := []; poll_errors := []; poll_success := true |}
    clients.

Definition is_nil {A} (l : list A) : bool :=
  match l with [] => true | _ => false end.

Section updater.
Context {lib : DatetimeLib}.

(** The finalisation of [run_update]: the returned dict, given the outcome of
    the loop and the count set by the persist step. *)
Definition report (clk : clock) (polled : poll) (total : nat) : update_result :=
  {| success :=
       if negb (is_nil (all_rates polled)) && negb (is_nil (poll_errors polled))
       then JStr "partial" else JBool (poll_success polled);
     sources := poll_sources polled;
     total_rates := total;
     errors := poll_errors polled;
     started_at := isoformat (start_time clk);
     completed_at := isoformat (end_time clk);
     duration_ms := int_of_float (total_seconds (end_time clk - start_time clk) * 1000) |}.

(** [RatesUpdater.run_update]. *)
Definition run_update (st : settings) (clk : clock) (clients : list client)
    (sources : option (list string)) : M update_result :=
  let polled := poll_clients sources clients in
  total ←
    (if negb (is_nil (all_rates polled)) then
       _ ← save_rates_cache st (cache_time clk) (all_rates polled) "ParserService";
       _ ← save_rates_to_history st (history_utcnow clk) (all_rates polled)
             "ParserService" JNull;
       mret (length (all_rates polled))
     else mret 0);
  mret (report clk polled total).
End updater.

(** ** A datetime library for running the model

    [Iso.parse] and [Iso.print] implement [fromisoformat] and [isoformat] on
    the fixed-width texts that [isoformat] itself emits
    ([YYYY-MM-DDTHH:MM:SS], an optional [.ffffff] and an optional [+HH:MM]
    offset), counting microseconds from 1970-01-01T00:00:00.  The properties
    below hold for every [DatetimeLib]; this one evaluates them on concrete
    documents. *)

Module Iso.
Open Scope Z_scope.

Definition digit (c : ascii) : option Z :=
  let n := nat_of_ascii c in
  if ((48 <=? n) && (n <=? 57))%nat then Some (Z.of_nat (n - 48)) else None.

Fixpoint number (n : nat) (acc : Z) (s : string) : option (Z * string) :=
  match n, s with
  | O, _ => Some (acc, s)
  | S n', String c s' => d ← digit c; number n' (acc * 10 + d) s'
  | S _, EmptyString => None
  end.

Definition expect (c : ascii) (s : string) : option string :=
  match s with
  | String c' s' => if Ascii.eqb c' c then Some s' else None
  | EmptyString => None
  end.

Definition is_leap (y : Z) : bool :=
  (y mod 4 =? 0) && (negb (y mod 100 =? 0) || (y mod 400 =? 0)).

Definition days_in_month (y m : Z) : Z :=
  if m =? 2 then (if is_leap y then 29 else 28)
  else if (m =? 4) || (m =? 6) || (m =? 9) || (m =? 11) then 30 else 31.

(** Days from 1970-01-01 to the given civil date. *)
Definition days_from_civil (y m d : Z) : Z :=
  let y := if m <=? 2 then y - 1 else y in
  let era := y / 400 in
  let yoe := y - era * 400 in
  let doy := (153 * ((m + 9) mod 12) + 2) / 5 + d - 1 in
  let doe := yoe * 365 + yoe / 4 - yoe / 100 + doy in
  era * 146097 + doe - 719468.

Definition civil_from_days (z : Z) : Z * Z * Z :=
  let z := z + 719468 in
  let era := z / 146097 in
  let doe := z - era * 146097 in
  let yoe := (doe - doe / 1460 + doe / 36524 - doe / 146096) / 365 in
  let doy := doe - (365 * yoe + yoe / 4 - yoe / 100) in
  let mp := (5 * doy + 2) / 153 in
  let d := doy - (153 * mp + 2) / 5 + 1 in
  let m := if mp <? 10 then mp + 3 else mp - 9 in
  (if m <=? 2 then yoe + era * 400 + 1 else yoe + era * 400, m, d).

Definition parse_fraction (s : string) : option (Z * string) :=
  match s with
  | String "." s' => number 6 0 s'
  | _ => Some (0, s)
  end.

Definition parse_offset (s : string) : option (option Z) :=
  match s with
  | EmptyString => Some None
  | String sign s' =>
      sgn ← (if Ascii.eqb sign "+" then Some 1
             else if Ascii.eqb sign "-" then Some (-1) else None);
      '(h, s1) ← number 2 0 s';
      s2 ← expect ":" s1;
      '(m, s3) ← number 2 0 s2;
      if String.eqb s3 "" && (h <? 24) && (m <? 60)
      then Some (Some (sgn * (h * 3600 + m * 60) * 1000000)) else None
  end.

Definition parse (s : string) : option datetime :=
  '(y, s) ← number 4 0 s;
  s ← expect "-" s;
  '(mo, s) ← number 2 0 s;
  s ← expect "-" s;
  '(d, s) ← number 2 0 s;
  s ← expect "T" s;
  '(h, s) ← number 2 0 s;
  s ← expect ":" s;
  '(mi, s) ← number 2 0 s;
  s ← expect ":" s;
  '(sec, s) ← number 2 0 s;
  '(us, s) ← parse_fraction s;
  off ← parse_offset s;
  if (1 <=? y) && (1 <=? mo) && (mo <=? 12) && (1 <=? d) && (d <=? days_in_month y mo)
     && (h <? 24) && (mi <? 60) && (sec <? 60)
  then Some {| wall_us :=
                 (days_from_civil y mo d * 86400 + h * 3600 + mi * 60 + sec) * 1000000 + us;
               utcoffset := off |}
  else None.

Definition digit_char (d : Z) : ascii := ascii_of_nat (48 + Z.to_nat d).

Fixpoint padded (width : nat) (n : Z) (acc : string) : string :=
  match width with
  | O => acc
  | S w => padded w (n / 10) (String (digit_char (n mod 10)) acc)
  end.

Definition print (us : Z) : string :=
  let days := us / 86400000000 in
  let rest := us mod 86400000000 in
  let '(y, m, d) := civil_from_days days in
  let secs := rest / 1000000 in
  let frac := rest mod 1000000 in
  padded 4 y "" +:+ "-" +:+ padded 2 m "" +:+ "-" +:+ padded 2 d "" +:+ "T" +:+
  padded 2 (secs / 3600) "" +:+ ":" +:+ padded 2 (secs / 60 mod 60) "" +:+ ":" +:+
  padded 2 (secs mod 60) "" +:+
  (if frac =? 0 then "" else "." +:+ padded 6 frac "").

Definition lib : DatetimeLib := {| fromisoformat := parse; isoformat := print |}.
End Iso.

(** ** Vocabulary of the properties *)

(** The pair table [get_rate] reads from the cache file: the value under
    ["pairs"], or the document itself when it has no such key. *)
Definition cached_pairs (st : settings) (fs : filesystem) (pairs : dict) : Prop :=
  py_get (get_rates st fs) "pairs" (get_rates st fs) = Ok (JObj pairs).

(** [rate and rate != 0]: the test both resolvers apply before dividing. *)
Definition usable (rate : json) : bool := truthy rate && py_ne_zero rate.

(** The entry stored under a pair key carries a usable rate. *)
Definition usable_pair (key : string) (pairs : dict) : bool :=
  from_option (λ rate_data, usable (rate_of rate_data)) false (dict_get key pairs).

(** The three-way rule of the specification for the status of a cycle, given
    whether every selected client succeeded and how many rates the cycle
    produced. *)
Inductive cycle_status := CycleSuccess | CyclePartial | CycleFailure.

Definition spec_status (all_succeeded : bool) (produced : nat) : cycle_status :=
  match produced with
  | O => CycleFailure
  | S _ => if all_succeeded then CycleSuccess else CyclePartial
  end.

(** How [run_update] writes a status: [True], ["partial"], [False]. *)
Definition status_value (s : cycle_status) : json :=
  match s with
  | CycleSuccess => JBool true
  | CyclePartial => JStr "partial"
  | CycleFailure => JBool false
  end.

(** [fetch_rates] raised. *)
Definition failed (c : client) : bool :=
  match fetch_rates c with
  | Fetched _ => false
  | _ => true
  end.

(** [fetch_rates] returned at least one rate. *)
Definition produced_rates (c : client) : bool :=
  match fetch_rates c with
  | Fetched (_ :: _) => true
  | _ => false
  end.

Definition any_failed (sources : option (list string)) (clients : list client) : bool :=
  existsb (λ c, selected sources c && failed c) clients.

Definition any_rate (sources : option (list string)) (clients : list client) : bool :=
  existsb (λ c, selected sources c && produced_rates c) clients.

(** Every coming call of the operating system succeeds. *)
Definition os_cooperates (w : world) : Prop :=
  ∀ n, ∃ temp_path, os w n = Written temp_path.

(** ** The claims that do not hold as the specification states them *)

(** C4 as stated: triangulation goes through the configured base currency and
    asks only for a non-zero [TO_PIVOT] rate. *)
Definition triangulation_as_claimed {lib : DatetimeLib} (registry : list string)
    (st : settings) (now : Z) (fs : filesystem) (from_code to_code : string) : Prop :=
  ∀ F T pairs from_data to_data from_rate to_rate,
    validate_currency_code from_code = Ok F →
    validate_currency_code to_code = Ok T →
    F ∈ registry → T ∈ registry →
    cached_pairs st fs pairs →
    F ≠ default_base_currency st → T ≠ default_base_currency st →
    dict_get (pair_key F T) pairs = None →
    usable_pair (pair_key T F) pairs = false →
    dict_get (pair_key F (default_base_currency st)) pairs = Some from_data →
    rate_of from_data = JNum from_rate →
    dict_get (pair_key T (default_base_currency st)) pairs = Some to_data →
    rate_of to_data = JNum to_rate →
    is_zero to_rate = false →
    ∃ res, get_rate registry st now fs from_code to_code = Ok res ∧
           res_rate res = JNum (from_rate / to_rate) ∧ res_fresh res = true.

(** C9 as stated: every resolved rate whose [updated_at] parses is reported
    fresh exactly when it is younger than the TTL. *)
Definition freshness_as_claimed {lib : DatetimeLib} (registry : list string)
    (st : settings) (now : Z) (fs : filesystem) (from_code to_code : string) : Prop :=
  ∀ res s dt,
    get_rate registry st now fs from_code to_code = Ok res →
    res_updated_at res = JStr s →
    parse_datetime (JStr s) = Some dt →
    (res_fresh res = true ↔
     (now - wall_us dt < default 300 (rates_ttl_seconds st) * 1000000)%Z).




(** C7 as stated: a record whose id equals the id of a stored record leaves
    the history as it was. *)
Definition reingestion_as_claimed (st : settings) (record : dict)
    (w : world) : Prop :=
  ∀ existing existing_id,
    existing ∈ get_history st (files w) →
    py_get existing "id" JNull = Ok existing_id →
    py_eq existing_id (default JNull (dict_get "id" record)) = true →
    get_history st (files (add_history_record st record w).2) = get_history st (files w).

(** The status [run_update] reports, from which selected clients failed and
    whether any of them produced a rate. *)
Definition reported_status (sources : option (list string)) (clients : list client)
    : cycle_status :=
  if any_failed sources clients then
    if any_rate sources clients then CyclePartial else CycleFailure
  else CycleSuccess.

(** C1 as stated: the status of a cycle that returns is the one of the
    three-way rule. *)
Definition status_as_claimed {lib : DatetimeLib} (st : settings) (clk : clock)
    (clients : list client) (sources : option (list string)) (w : world) : Prop :=
  ∀ res w',
    run_update st clk clients sources w = (Ok res, w') →
    success res =
      status_value (spec_status (negb (any_failed sources clients))
                      (length (all_rates (poll_clients sources clients)))).

(** No record of the history carries a truthy id that an earlier record
    carries: the scan of [add_history_record] over the records before it finds
    none. *)
Definition distinct_ids (history : list json) : Prop :=
  ∀ n record,
    history !! n = Some (JObj record) →
    truthy (default JNull (dict_get "id" record)) = true →
    id_exists (default JNull (dict_get "id" record)) (take n history) = Ok false.

(** The records of a history are dicts. *)
Definition dict_records (history : list json) : Prop :=
  Forall (λ record, is_dict record = true) history.

(** The cache document is a dict whose ["pairs"], if present, is a dict, and
    the records of the history are dicts. *)
Definition stores_well_formed (st : settings) (fs : filesystem) : Prop :=
  (∃ cache, get_rates_cache st fs = JObj cache ∧
            is_dict (default (JObj []) (dict_get "pairs" cache)) = true) ∧
  dict_records (get_history st fs).

(** ** Sample settings, documents and clients *)

Definition st_default : settings :=
  {| rates_ttl_seconds := Some 300%Z;
     default_base_currency := "USD";
     rates_file := "data/rates.json";
     exchange_rates_file := "data/exchange_rates.json" |}.

Definition st_eur_base : settings :=
  {| rates_ttl_seconds := Some 300%Z;
     default_base_currency := "EUR";
     rates_file := "data/rates.json";
     exchange_rates_file := "data/exchange_rates.json" |}.

(** A TTL of [2^35] seconds, some 1089 years. *)
Definition st_long_ttl : settings :=
  {| rates_ttl_seconds := Some (2 ^ 35)%Z;
     default_base_currency := "USD";
     rates_file := "data/rates.json";
     exchange_rates_file := "data/exchange_rates.json" |}.

Definition cache_doc (pairs : dict) (last_refresh : string) : json :=
  JObj [("pairs", JObj pairs); ("last_refresh", JStr last_refresh);
        ("source", JStr "ParserService")].

Definition rates_fs (doc : json) : filesystem := {[ "data/rates.json" := Json doc ]}.

(** 2024-01-01T00:00:00 in microseconds. *)
Definition t0 : Z := 1704067200000000%Z.
Definition seconds (n : Z) : Z := (n * 1000000)%Z.

Definition only_eur_usd : json :=
  cache_doc [("EUR_USD", cache_entry 1.08 "2024-01-01T00:00:00" "ParserService")]
    "2024-01-01T00:00:00".

Definition crypto_in_usd : json :=
  cache_doc [("BTC_USD", cache_entry 59337.21 "2024-01-01T00:00:00" "ParserService");
             ("ETH_USD", cache_entry 3720 "2024-01-01T00:00:00" "ParserService")]
    "2024-01-01T00:00:00".

Definition crypto_in_eur : json :=
  cache_doc [("BTC_EUR", cache_entry 55000 "2024-01-01T00:00:00" "ParserService");
             ("ETH_EUR", cache_entry 3400 "2024-01-01T00:00:00" "ParserService")]
    "2024-01-01T00:00:00".

Definition zero_leg : json :=
  cache_doc [("XRP_USD", cache_entry 0 "2024-01-01T00:00:00" "ParserService");
             ("ETH_USD", cache_entry 3720 "2024-01-01T00:00:00" "ParserService")]
    "2024-01-01T00:00:00".

Definition zero_eur_usd : json :=
  cache_doc [("EUR_USD", cache_entry 0 "2024-01-01T00:00:00" "ParserService")]
    "2024-01-01T00:00:00".

(** The same pair with a UTC timestamp in the [Z] notation. *)
Definition zulu_eur_usd : json :=
  cache_doc [("EUR_USD", cache_entry 1.08 "2024-01-01T00:00:00Z" "ParserService")]
    "2024-01-01T00:00:00Z".



Definition all_written : nat → write_outcome := λ n, Written "data/tmpk3v9x1.tmp".

Definition disk_full : nat → write_outcome :=
  λ n, StagingRaises "data/tmpk3v9x1.tmp" "{" (OSError "No space left on device").

Definition anonymous_record : dict :=
  [("from_currency", JStr "EUR"); ("to_currency", JStr "USD"); ("rate", JNum 1.08)].

Definition empty_id_record : dict :=
  [("id", JStr ""); ("from_currency", JStr "EUR"); ("to_currency", JStr "USD");
   ("rate", JNum 1.08)].

Definition eur_record : dict :=
  [("id", JStr "EUR_USD_2024-01-01T00:00:00Z"); ("from_currency", JStr "EUR");
   ("to_currency", JStr "USD"); ("rate", JNum 1.08);
   ("timestamp", JStr "2024-01-01T00:00:00Z"); ("source", JStr "ParserService")].

Definition history_fs (history : list json) : filesystem :=
  {[ "data/exchange_rates.json" := Json (JArr history) ]}.

Definition both_fs (doc : json) (history : list json) : filesystem :=
  <[ "data/rates.json" := Json doc ]> (history_fs history).

Definition coingecko_mock : client :=
  {| source_name := "CoinGecko";
     fetch_rates := Fetched [("BTC_USD", 59337.21%float); ("ETH_USD", 3720%float);
                             ("SOL_USD", 145.12%float); ("XRP_USD", 0.52%float);
                             ("ADA_USD", 0.45%float)] |}.

Definition exchangerate_down : client :=
  {| source_name := "ExchangeRate-API";
     fetch_rates := RaisesApiRequestError "Таймаут при запросе к ExchangeRate-API" |}.

Definition coingecko_down : client :=
  {| source_name := "CoinGecko";
     fetch_rates := RaisesApiRequestError "Ошибка соединения с CoinGecko" |}.

Definition sample_clock : clock :=
  {| start_time := t0; cache_time := (t0 + 1500000)%Z;
     history_utcnow := (t0 + 1600000)%Z; end_time := (t0 + 2000000)%Z |}.

Definition world_of (fs : filesystem) (outcomes : nat → write_outcome) : world :=
  {| files := fs; os := outcomes |}.

(** ** Further functions of the modelled files *)

(** *** Python containers *)

Fixpoint is_substring (k s : string) : bool :=
  String.prefix k s ||
  match s with
  | EmptyString => false
  | String _ s' => is_substring k s'
  end.

(** [k in container]: a key of a dict, an element of a list, a substring of a
    string. *)
Definition py_contains (container : json) (k : string) : result bool :=
  match container with
  | JObj d => Ok (bool_decide (is_Some (dict_get k d)))
  | JArr l => Ok (existsb (λ x, py_eq x (JStr k)) l)
  | JStr s => Ok (is_substring k s)
  | _ => Raise TypeError
  end.

(** The idiom [if k in container: ... container[k]]: the value under [k], or
    [None] when the test is false; a list or a string that passes the test
    cannot be indexed by a string. *)
Definition lookup_if_in (container : json) (k : string) : result (option json) :=
  match container with
  | JObj d => Ok (dict_get k d)
  | _ =>
      found ← py_contains container k;
      if (found : bool) then Raise TypeError else Ok None
  end.

(** [len(v)]. *)
Definition py_len (v : json) : result nat :=
  match v with
  | JObj d => Ok (length d)
  | JArr l => Ok (length l)
  | JStr s => Ok (String.length s)
  | _ => Raise TypeError
  end.

(** [v > bound] for a string [bound]: only a string compares with a string. *)
Definition py_gt_str (v : json) (bound : string) : result bool :=
  match v with
  | JStr s => Ok (String.ltb bound s)
  | _ => Raise TypeError
  end.

(** *** core/utils.py *)


(** *** core/currencies.py *)

Definition is_currency_supported (registry : list string) (code : string) : bool :=
  existsb (String.eqb (strip (upper code))) registry.

(** *** infra/database.py *)

(** [DatabaseManager.get_rate]; [None] is [JNull]. *)
Definition db_get_rate (st : settings) (fs : filesystem) (from_code to_code : string)
    : result json :=
  let rates := get_rates st fs in
  let pair_ := pair_key (upper from_code) (upper to_code) in
  pairs ← py_get rates "pairs" rates;
  direct ← lookup_if_in pairs pair_;
  match direct with
  | Some rate_data => Ok rate_data
  | None =>
      let reverse_pair := pair_key (upper to_code) (upper from_code) in
      reverse ← lookup_if_in pairs reverse_pair;
      match reverse with
      | Some (JObj reverse_data) =>
          let rate := default JNull (dict_get "rate" reverse_data) in
          if truthy rate then
            inverse ← py_truediv (JNum 1) rate;
            Ok (JObj [("rate", inverse);
                      ("updated_at", default JNull (dict_get "updated_at" reverse_data));
                      ("source", default JNull (dict_get "source" reverse_data))])
          else Ok JNull
      | _ => Ok JNull
      end
  end.

(** [DatabaseManager.save_rates]. *)
Definition save_rates (st : settings) (rates : json) : M unit :=
  _write_json (rates_file st) rates.

Section database.
Context {lib : DatetimeLib}.

(** [DatabaseManager.update_rate]; it reads the clock twice.  A document that
    is not a dict either fails the test ["pairs" not in rates] or, wrapped,
    the assignment into it: both raise [TypeError]. *)
Definition update_rate (st : settings) (now_entry now_refresh : Z)
    (from_code to_code : string) (rate : float) (source : string) : M unit :=
  rates ← read (get_rates st);
  let pair_ := pair_key (upper from_code) (upper to_code) in
  rates ← lift (match rates with
                | JObj d =>
                    match dict_get "pairs" d with
                    | Some _ => Ok d
                    | None => Ok [("pairs", rates); ("last_refresh", JNull)]
                    end
                | _ => Raise TypeError
                end);
  pairs ← lift (py_setitem (default JNull (dict_get "pairs" rates)) pair_
                  (cache_entry rate (isoformat now_entry) source));
  let rates := dict_set "pairs" pairs rates in
  let rates := dict_set "last_refresh" (JStr (isoformat now_refresh)) rates in
  save_rates st (JObj rates).
End database.

(** *** The ranges of [datetime] and [timedelta] *)

(** [datetime.min] and [datetime.max], 0001-01-01T00:00:00 and
    9999-12-31T23:59:59.999999, in microseconds from 1970-01-01T00:00:00. *)
Definition datetime_min : Z := (-62135596800000000)%Z.
Definition datetime_max : Z := 253402300799999999%Z.

(** [timedelta(days=days)] in microseconds: the constructor takes at most
    999999999 days either way. *)
Definition timedelta_of_days (days : Z) : result Z :=
  if (Z.abs days <=? 999999999)%Z then Ok (days * 86400000000)%Z
  else Raise OverflowError.

(** [dt - delta] for a naive [dt]: the difference has to be a [datetime]. *)
Definition datetime_minus (dt delta : Z) : result Z :=
  let difference := (dt - delta)%Z in
  if (datetime_min <=? difference)%Z && (difference <=? datetime_max)%Z
  then Ok difference else Raise OverflowError.

(** *** parser_service/storage.py *)

(** [RatesStorage._ensure_files] on the two paths it builds from [data_path];
    the file system of the model has no directories, and the [mkdir] that
    precedes the two tests is left out. *)
Definition _ensure_files (rates_path history_path : string) : M unit :=
  fs ← read id;
  _ ← (if bool_decide (is_Some (fs !! rates_path)) then mret ()
       else _write_json rates_path empty_cache);
  fs ← read id;
  if bool_decide (is_Some (fs !! history_path)) then mret ()
  else _write_json history_path (JArr []).

(** [RatesStorage.get_rate_from_cache]; [None] is [JNull]. *)
Definition get_rate_from_cache (st : settings) (fs : filesystem)
    (from_code to_code : string) : result json :=
  let cache := get_rates_cache st fs in
  pairs ← py_get cache "pairs" (JObj []);
  let pair_ := pair_key (upper from_code) (upper to_code) in
  direct ← lookup_if_in pairs pair_;
  match direct with
  | Some rate_data => Ok rate_data
  | None =>
      let reverse_pair := pair_key (upper to_code) (upper from_code) in
      reverse ← lookup_if_in pairs reverse_pair;
      match reverse with
      | Some reverse_data =>
          rate ← py_get reverse_data "rate" JNull;
          if truthy rate then
            inverse ← py_truediv (JNum 1) rate;
            updated_at ← py_get reverse_data "updated_at" JNull;
            source ← py_get reverse_data "source" JNull;
            Ok (JObj [("rate", inverse); ("updated_at", updated_at);
                      ("source", source); ("calculated", JBool true)])
          else Ok JNull
      | None => Ok JNull
      end
  end.

(** The comprehension of [clear_old_history]: the records whose timestamp is
    greater than the cutoff, in order. *)
Fixpoint newer_than (cutoff : string) (history : list json) : result (list json) :=
  match history with
  | [] => Ok []
  | r :: rest =>
      timestamp ← py_get r "timestamp" (JStr "");
      keep ← py_gt_str timestamp cutoff;
      kept ← newer_than cutoff rest;
      Ok (if (keep : bool) then r :: kept else kept)
  end.

Section storage_more.
Context {lib : DatetimeLib}.

(** [RatesStorage.update_single_rate]. *)
Definition update_single_rate (st : settings) (now : Z) (from_code to_code : string)
    (rate : float) (source : string) : M unit :=
  save_rates_cache st now [(pair_key (upper from_code) (upper to_code), rate)] source.

(** [RatesStorage.clear_old_history]: the history is read first, then the
    cutoff [utcnow() - timedelta(days=days)] is built and printed. *)
Definition clear_old_history (st : settings) (utcnow : Z) (days : Z) : M unit :=
  history ← read (get_history st);
  delta ← lift (timedelta_of_days days);
  cutoff_time ← lift (datetime_minus utcnow delta);
  let cutoff := isoformat cutoff_time in
  filtered ← lift (newer_than cutoff history);
  if (0 <? length history - length filtered)%nat
  then _write_json (exchange_rates_file st) (JArr filtered)
  else mret ().
End storage_more.

(** *** parser_service/updater.py *)

Record update_info := {
  info_last_refresh : json;
  info_source : json;
  pairs_count : nat
}.

(** [RatesUpdater.get_last_update_info]. *)
Definition get_last_update_info (st : settings) (fs : filesystem) : result update_info :=
  let cache := get_rates_cache st fs in
  last_refresh ← py_get cache "last_refresh" JNull;
  source ← py_get cache "source" JNull;
  pairs ← py_get cache "pairs" (JObj []);
  count ← py_len pairs;
  Ok {| info_last_refresh := last_refresh; info_source := source; pairs_count := count |}.

Section updater_more.
Context {lib : DatetimeLib}.


End updater_more.

(** *** parser_service/config.py

    [CRYPTO_ID_MAP] is a field of the configuration: the two lookups take the
    map they read. *)

Definition CRYPTO_ID_MAP : list (string * string) :=
  [ ("BTC", "bitcoin"); ("ETH", "ethereum"); ("SOL", "solana"); ("XRP", "ripple");
    ("ADA", "cardano"); ("DOGE", "dogecoin"); ("LTC", "litecoin") ].

Definition get_crypto_id (crypto_id_map : list (string * string)) (code : string)
    : option string :=
  dict_get (upper code) crypto_id_map.

Fixpoint get_crypto_code (crypto_id_map : list (string * string)) (coingecko_id : string)
    : option string :=
  match crypto_id_map with
  | [] => None
  | (code, cg_id) :: rest =>
      if String.eqb cg_id coingecko_id then Some code
      else get_crypto_code rest coingecko_id
  end.

(** *** cli/interface.py: what [_cmd_update_rates] prints after the cycle

    The lines that follow the return of [run_update], in order: one per
    source, the count of written rates, and the verdict. *)

Definition source_line (entry : string * source_report) : string :=
  match entry.2 with
  | StatusOK count _ =>
      "INFO: Fetching from " +:+ entry.1 +:+ "... OK (" +:+ pretty count +:+ " rates)"
  | StatusERROR error =>
      "ERROR: Failed to fetch from " +:+ entry.1 +:+ ": " +:+ error
  end.

Definition verdict_line (result : update_result) : string :=
  if truthy (success result) then
    "Update successful. Total rates updated: " +:+ pretty (total_rates result) +:+
    ". Last refresh: " +:+ String.substring 0 19 (completed_at result)
  else if py_eq (success result) (JStr "partial") then
    "Update completed with errors. Check logs/parser.log for details."
  else "Update failed. Check logs/parser.log for details.".

Definition _cmd_update_rates_lines (result : update_result) : list string :=
  map source_line (sources result) ++
  (if 0 <? total_rates result
   then ["INFO: Writing " +:+ pretty (total_rates result) +:+ " rates to data/rates.json..."]
   else []) ++
  [verdict_line result].

(** ** Vocabulary of the further properties *)

(** The temporary file an outcome of the operating system names. *)
Definition temp_path_of (outcome : write_outcome) : option string :=
  match outcome with
  | MkstempRaises _ => None
  | StagingRaises temp_path _ _ | ReplaceRaises temp_path _ | Written temp_path =>
      Some temp_path
  end.

(** What [mkstemp] promises for the coming call: a name no file carries. *)
Definition fresh_temp (w : world) : Prop :=
  ∀ temp_path, temp_path_of (os w 0) = Some temp_path → files w !! temp_path = None.

(** The same for every coming call, with names that are none of the paths the
    calls write to. *)
Definition fresh_temps (targets : list string) (w : world) : Prop :=
  ∀ n temp_path, temp_path_of (os w n) = Some temp_path →
    files w !! temp_path = None ∧ temp_path ∉ targets.


(** A rate that takes part in arithmetic without a [TypeError]: a number, a
    bool or [None]. *)
Definition is_numeric (v : json) : bool :=
  match v with
  | JNull | JBool _ | JNum _ => true
  | _ => false
  end.

Definition numeric_rates (rates : dict) : Prop :=
  Forall (λ entry, is_numeric (rate_of entry.2) = true) rates.

(** The line [run_update] adds to [errors] for a client that raised. *)
Definition error_line (c : client) : option string :=
  match fetch_rates c with
  | Fetched _ => None
  | RaisesApiRequestError reason =>
      Some (source_name c +:+ ": " +:+ api_error_message reason)
  | RaisesException text =>
      Some (source_name c +:+ ": " +:+ "Неожиданная ошибка: " +:+ text)
  end.

(** The record of the history carries the id. *)
Definition has_id (record_id : string) (record : json) : Prop :=
  ∃ d, record = JObj d ∧ dict_get "id" d = Some (JStr record_id).

(** ** Further sample documents *)

(** A cache in the flat format, without the ["pairs"] level. *)
Definition legacy_flat : json := JObj [("EUR_USD", JNum 1.08)].

Definition aged_history : list json :=
  [ JObj [("id", JStr "EUR_USD_2023-11-01T00:00:00Z"); ("timestamp", JStr "2023-11-01T00:00:00Z")];
    JObj eur_record;
    JObj anonymous_record ].

Definition exchangerate_mock : client :=
  {| source_name := "ExchangeRate-API";
     fetch_rates := Fetched [("EUR_USD", 1.0786%float); ("GBP_USD", 1.265%float)] |}.

Definition kraken_mock : client :=
  {| source_name := "Kraken"; fetch_rates := Fetched [("BTC_USD", 59000%float)] |}.

(** Every coming rename is refused. *)
Definition replace_refused : nat → write_outcome :=
  λ n, ReplaceRaises "data/tmpk3v9x1.tmp" (OSError "Permission denied").

(** A cache whose direct pair carries a bare zero beside a usable reverse
    pair. *)
Definition zero_beside_reverse : json :=
  cache_doc [("EUR_USD", JNum 0);
             ("USD_EUR", cache_entry 0.9 "2024-01-01T00:00:00" "ParserService")]
    "2024-01-01T00:00:00".

(** A cache whose pair carries a bare number. *)
Definition bare_eur_usd : json :=
  cache_doc [("EUR_USD", JNum 1.08)] "2024-01-01T00:00:00".

(** The test of [clear_old_history] on a record whose timestamp is a string
    or absent: the timestamp is greater than the cutoff. *)
Definition timestamp_after (cutoff : string) (record : json) : bool :=
  match record with
  | JObj d =>
      match dict_get "timestamp" d with
      | Some (JStr s) => String.ltb cutoff s
      | _ => false
      end
  | _ => false
  end.

(** The records of a history are dicts whose timestamp, when present, is a
    string. *)
Definition well_stamped (history : list json) : Prop :=
  Forall (λ record, ∃ d s, record = JObj d ∧
                           default (JStr "") (dict_get "timestamp" d) = JStr s) history.

(** The cutoff of [clear_old_history] for [days] is a [datetime]. *)
Definition cutoff_in_range (utcnow days : Z) : Prop :=
  (Z.abs days ≤ 999999999 ∧
   datetime_min ≤ utcnow - days * 86400000000 ≤ datetime_max)%Z.

(** A shift record locates the quotient [N / D]: its mantissa is the integer
    part, and its round and sticky bits place the remainder against one
    half. *)
Definition located (mrs : shr_record) (N D : Z) : Prop :=
  (0 ≤ shr_m mrs ∧ 0 < D ∧
   match shr_r mrs, shr_s mrs with
   | false, false => N = shr_m mrs * D
   | false, true => shr_m mrs * D < N ∧ 2 * N < (2 * shr_m mrs + 1) * D
   | true, false => 2 * N = (2 * shr_m mrs + 1) * D
   | true, true => (2 * shr_m mrs + 1) * D < 2 * N ∧ N < (shr_m mrs + 1) * D
   end)%Z.

(** The division of [n] by [10^6] rounds to [W / 2^73], a float of mantissa
    [m_r], with [2^j / 2^73] half a unit in its last place. *)
Definition rounds_to (n m_r j W : Z) : Prop :=
  (0 ≤ j ∧ 2 ^ 52 ≤ m_r ≤ 2 ^ 53 ∧ W = 2 * m_r * 2 ^ j ∧
   (W - 2 ^ j) * 1000000 ≤ n * 2 ^ 73 ≤ (W + 2 ^ j) * 1000000 ∧
   2 ^ 53 * 2 ^ j * 1000000 ≤ n * 2 ^ 73 < 2 ^ 54 * 2 ^ j * 1000000)%Z.

(** Every rate whose key splits in two has a record with its id in the
    history, found by the duplicate scan. *)
Definition covered (timestamp : string) (rates : list (string * float))
    (history : list json) : Prop :=
  Forall (λ entry, ∀ from_code to_code, split "_" entry.1 = [from_code; to_code] →
            id_exists (JStr (entry.1 +:+ "_" +:+ timestamp)) history = Ok true) rates.

(** Replaces a power of two by a positive number, for linear arithmetic. *)
Ltac hide_pow e :=
  let H := fresh "Hpw" in
  let x := fresh "pw" in
  let Heq := fresh in
  assert (0 < 2 ^ e)%Z as H by (apply Z.pow_pos_nonneg; lia);
  remember (2 ^ e)%Z as x eqn:Heq; clear Heq.

(** * Properties *)

(** ** The datetime library used on the samples *)

Example iso_print_sample :
  Iso.print 1704067501000000 = "2024-01-01T00:05:01" ∧
  Iso.print 1709210096789012 = "2024-02-29T12:34:56.789012".
Proof. split; vm_compute; reflexivity. Qed.

Example iso_parse_sample :
  Iso.parse "2024-01-01T00:05:01" = Some (naive 1704067501000000) ∧
  Iso.parse "2024-02-29T12:34:56.789012" = Some (naive 1709210096789012) ∧
  Iso.parse "2024-01-01T00:00:00+00:00" =
    Some {| wall_us := 1704067200000000; utcoffset := Some 0%Z |} ∧
  Iso.parse "2023-02-29T00:00:00" = None ∧
  Iso.parse "yesterday" = None.
Proof. repeat split; vm_compute; reflexivity. Qed.

(** [int((end - start).total_seconds() * 1000)] on 1.001 seconds is 1000: the
    product [1.001 * 1000] rounds below 1001. *)
Example duration_ms_sample :
  int_of_float (total_seconds 1001000 * 1000) = 1000%Z ∧
  int_of_float (total_seconds 2000000 * 1000) = 2000%Z ∧
  int_of_float (total_seconds (-1500000) * 1000) = (-1500)%Z.
Proof. repeat split; vm_compute; reflexivity. Qed.

(** The quotient of the integers is the float the machine division gives
    where the microseconds are exact as a float; 1089 years less a
    microsecond are rounded up to [2^35] seconds, while 272 years less a
    microsecond stay below [2^33]. *)
Example total_seconds_sample :
  int_truediv 301000000 1000000 = Prim2SF (total_seconds 301000000) ∧
  int_truediv 1001 1000000 = Prim2SF (total_seconds 1001) ∧
  int_truediv (-1500001) 1000000 = Prim2SF (total_seconds (-1500001)) ∧
  total_seconds_lt (2 ^ 35 * 1000000 - 1) (2 ^ 35) = false ∧
  total_seconds_lt (2 ^ 33 * 1000000 - 1) (2 ^ 33) = true.
Proof. repeat split; vm_compute; reflexivity. Qed.

(** The ends of the range of [datetime]. *)
Example datetime_range_sample :
  Iso.print datetime_min = "0001-01-01T00:00:00" ∧
  Iso.print datetime_max = "9999-12-31T23:59:59.999999" ∧
  timedelta_of_days 1000000000 = Raise OverflowError ∧
  datetime_minus 1704067200000000 (800000 * 86400000000) = Raise OverflowError.
Proof. repeat split; vm_compute; reflexivity. Qed.

(** ** The rounding of [total_seconds]

    [SFdiv] shifts the dividend until the quotient has at least 53 bits,
    divides, records where the remainder lies, shifts the quotient down to 53
    bits and rounds it to nearest.  The lemmas follow these steps for the
    divisor [10^6] and conclude that the float returned is within half a unit
    in the last place of the exact quotient, which settles on which side of
    an integer TTL it lies. *)

Section rounding.
Local Open Scope Z_scope.

(** [digits2_pos] counts the binary digits. *)
Lemma digits2_pos_bounds p :
  2 ^ (Z.pos (digits2_pos p) - 1) ≤ Z.pos p < 2 ^ Z.pos (digits2_pos p).
Proof.
  induction p as [p IH|p IH|]; simpl digits2_pos.
  - rewrite Pos2Z.inj_succ, (Pos2Z.inj_xI p).
    replace (Z.succ (Z.pos (digits2_pos p)) - 1)
      with (Z.succ (Z.pos (digits2_pos p) - 1)) by lia.
    rewrite !Z.pow_succ_r by lia.
    hide_pow (Z.pos (digits2_pos p) - 1). hide_pow (Z.pos (digits2_pos p)). lia.
  - rewrite Pos2Z.inj_succ, (Pos2Z.inj_xO p).
    replace (Z.succ (Z.pos (digits2_pos p)) - 1)
      with (Z.succ (Z.pos (digits2_pos p) - 1)) by lia.
    rewrite !Z.pow_succ_r by lia.
    hide_pow (Z.pos (digits2_pos p) - 1). hide_pow (Z.pos (digits2_pos p)). lia.
  - change (1 ≤ 1 < 2). lia.
Qed.

Lemma located_floor mrs N D :
  located mrs N D → shr_m mrs * D ≤ N < (shr_m mrs + 1) * D.
Proof.
  intros (Hm & HD & H). destruct (shr_r mrs), (shr_s mrs); nia.
Qed.

(** One shift to the right halves the unit. *)
Lemma shr_1_located mrs N D : located mrs N D → located (shr_1 mrs) N (2 * D).
Proof.
  destruct mrs as [m r s]. intros (Hm & HD & H). simpl in Hm, H.
  destruct m as [|[p|p|]|]; try lia; destruct r, s; simpl;
    rewrite ?(Pos2Z.inj_xI p), ?(Pos2Z.inj_xO p) in *; unfold located; simpl; nia.
Qed.

Lemma iter_pos_shr_1_located p : ∀ mrs N D,
  located mrs N D → located (SpecFloat.iter_pos shr_1 p mrs) N (D * 2 ^ Z.pos p).
Proof.
  induction p as [p IH|p IH|]; intros mrs N D H; simpl SpecFloat.iter_pos.
  - apply shr_1_located, IH, IH in H.
    replace (D * 2 ^ Z.pos p~1) with (2 * D * 2 ^ Z.pos p * 2 ^ Z.pos p); [done|].
    rewrite (Pos2Z.inj_xI p).
    replace (2 * Z.pos p + 1) with (Z.pos p + Z.pos p + 1) by lia.
    rewrite !Z.pow_add_r by lia. hide_pow (Z.pos p). lia.
  - apply IH, IH in H.
    replace (D * 2 ^ Z.pos p~0) with (D * 2 ^ Z.pos p * 2 ^ Z.pos p); [done|].
    rewrite (Pos2Z.inj_xO p). replace (2 * Z.pos p) with (Z.pos p + Z.pos p) by lia.
    rewrite Z.pow_add_r by lia. lia.
  - apply shr_1_located in H. by replace (D * 2 ^ 1) with (2 * D) by lia.
Qed.

Lemma pow2_lt_inv a b : 0 ≤ b → 2 ^ a < 2 ^ b → a < b.
Proof.
  intros Hb H. destruct (Z_lt_le_dec a b) as [|Hle]; [done|].
  pose proof (Z.pow_le_mono_r 2 b a). lia.
Qed.

Lemma Zdigits2_53 m : 2 ^ 52 ≤ m < 2 ^ 53 → Zdigits2 m = 53.
Proof.
  intros H. destruct m as [|p|p]; [by destruct H| |by destruct H].
  simpl. pose proof (digits2_pos_bounds p) as Hb.
  assert (52 < Z.pos (digits2_pos p)) by (apply pow2_lt_inv; lia).
  assert (Z.pos (digits2_pos p) - 1 < 53) by (apply pow2_lt_inv; lia).
  lia.
Qed.

(** The rounding of a located quotient of at least 53 bits: [k] bits are
    shifted out, the mantissa [m_r] kept is within one half of the shifted
    quotient, and a mantissa that reaches [2^53] is renormalised. *)
Lemma binary_round_aux_spec sx mx ex lx N D :
  located (shr_record_of_loc mx lx) N D → 2 ^ 52 ≤ mx → -1074 ≤ ex →
  ∃ (m_r k E : Z) (m : positive),
    0 ≤ k ∧
    (2 * m_r - 1) * (D * 2 ^ k) ≤ 2 * N ≤ (2 * m_r + 1) * (D * 2 ^ k) ∧
    2 ^ 52 * (D * 2 ^ k) ≤ N < 2 ^ 53 * (D * 2 ^ k) ∧
    ((E = ex + k ∧ Z.pos m = m_r ∧ 2 ^ 52 ≤ m_r < 2 ^ 53) ∨
     (E = ex + k + 1 ∧ Z.pos m = 2 ^ 52 ∧ m_r = 2 ^ 53)) ∧
    binary_round_aux prec emax sx mx ex lx =
      if E <=? 971 then S754_finite sx m E else S754_infinity sx.
Proof.
  intros Hloc Hmx Hex.
  destruct mx as [|q|q]; [by destruct Hmx| |by destruct Hmx].
  pose proof (digits2_pos_bounds q) as Hdg.
  assert (52 < Z.pos (digits2_pos q)) as H53 by (apply pow2_lt_inv; lia).
  unfold binary_round_aux, shr_fexp. simpl Zdigits2.
  set (dg := Z.pos (digits2_pos q)) in *.
  assert (fexp prec emax (dg + ex) = dg + ex - 53) as ->
    by (unfold fexp, emin, prec, emax; lia).
  replace (dg + ex - 53 - ex) with (dg - 53) by lia.
  set (k := dg - 53).
  assert (∃ mrs', shr (shr_record_of_loc (Z.pos q) lx) ex k = (mrs', ex + k) ∧
                  located mrs' N (D * 2 ^ k)) as (mrs' & -> & Hloc').
  { unfold shr. destruct k as [|pk|pk] eqn:Hk; [| |lia].
    - eexists. split; [by rewrite Z.add_0_r|]. by rewrite Z.mul_1_r.
    - eexists. split; [done|]. by apply iter_pos_shr_1_located. }
  assert (2 ^ dg = 2 ^ 53 * 2 ^ k ∧ 2 ^ (dg - 1) = 2 ^ 52 * 2 ^ k) as [Hdg1 Hdg2].
  { split; rewrite <- Z.pow_add_r by lia; f_equal; lia. }
  assert (0 < 2 ^ k) as Hpk by (apply Z.pow_pos_nonneg; lia).
  pose proof (located_floor _ _ _ Hloc) as Hfl. simpl in Hfl.
  assert (shr_m (shr_record_of_loc (Z.pos q) lx) = Z.pos q) as Hq
    by (by destruct lx as [|[| |]]).
  rewrite Hq in Hfl. clear Hq.
  assert (0 < D) as HD by (destruct Hloc as (_ & ? & _); done).
  assert (2 ^ 52 * (D * 2 ^ k) ≤ N < 2 ^ 53 * (D * 2 ^ k)) as HN.
  { rewrite Hdg1, Hdg2 in Hdg. change (2 ^ 52) with 4503599627370496 in *.
    change (2 ^ 53) with 9007199254740992 in *. nia. }
  set (m_r := round_nearest_even (shr_m mrs') (loc_of_shr_record mrs')).
  assert (2 ^ 52 ≤ m_r ≤ 2 ^ 53 ∧
          (2 * m_r - 1) * (D * 2 ^ k) ≤ 2 * N ≤ (2 * m_r + 1) * (D * 2 ^ k))
    as [Hmr Hnear].
  { pose proof (located_floor _ _ _ Hloc') as Hfl'.
    destruct Hloc' as (Hm1 & _ & Hcase). subst m_r.
    destruct mrs' as [m1 r s]. simpl in *.
    assert (0 < D * 2 ^ k) as HX by lia.
    remember (D * 2 ^ k) as X eqn:HeqX. clear HeqX.
    assert (m1 < 2 ^ 53) by (apply (Z.mul_lt_mono_pos_r X); lia).
    assert (2 ^ 52 < m1 + 1) by (apply (Z.mul_lt_mono_pos_r X); lia).
    change (2 ^ 52) with 4503599627370496 in *.
    change (2 ^ 53) with 9007199254740992 in *.
    destruct r, s; simpl; try destruct (Z.even m1); lia. }
  clearbody m_r. clear Hloc' mrs'.
  destruct (Z_lt_le_dec m_r (2 ^ 53)) as [Hlt|Hge].
  - destruct m_r as [|m|m]; [by destruct Hmr| |by destruct Hmr].
    exists (Z.pos m), k, (ex + k), m.
    split; [lia|]. split; [done|]. split; [done|]. split; [left; lia|].
    rewrite (Zdigits2_53 (Z.pos m)) by lia.
    assert (fexp prec emax (53 + (ex + k)) = ex + k) as ->
      by (unfold fexp, emin, prec, emax; lia).
    rewrite Z.sub_diag. simpl. done.
  - assert (m_r = 2 ^ 53) as -> by lia.
    exists (2 ^ 53), k, (ex + k + 1), (4503599627370496%positive).
    split; [lia|]. split; [done|]. split; [done|]. split; [right; done|].
    change (Zdigits2 (2 ^ 53)) with 54.
    assert (fexp prec emax (54 + (ex + k)) = ex + k + 1) as ->
      by (unfold fexp, emin, prec, emax; lia).
    replace (ex + k + 1 - (ex + k)) with 1 by lia. simpl. done.
Qed.

Lemma ltb_eq_iff a b c d : (a < b ↔ c < d) → (a <? b) = (c <? d).
Proof. intros H. destruct (Z.ltb_spec a b), (Z.ltb_spec c d); try done; lia. Qed.

(** The comparison with an integer, on both sides scaled by [2^73]. *)
Lemma float_lt_int_finite sx m E W T :
  -73 ≤ E → W = Z.pos m * 2 ^ (E + 73) →
  float_lt_int (S754_finite sx m E) T =
    if sx then - W <? T * 2 ^ 73 else W <? T * 2 ^ 73.
Proof.
  intros HE ->. unfold float_lt_int.
  destruct (Z.leb_spec 0 E) as [Hpos|Hneg].
  - rewrite Z.pow_add_r by lia.
    assert (0 < 2 ^ E) as HpE by (apply Z.pow_pos_nonneg; lia).
    assert (0 < 2 ^ 73) as Hp73 by (apply Z.pow_pos_nonneg; lia).
    remember (2 ^ 73) as c eqn:Hc. clear Hc. remember (2 ^ E) as a eqn:Ha. clear Ha.
    destruct sx; apply ltb_eq_iff.
    + change (Z.neg m) with (- Z.pos m). nia.
    + nia.
  - assert (2 ^ 73 = 2 ^ (E + 73) * 2 ^ (- E)) as ->
      by (rewrite <- Z.pow_add_r by lia; f_equal; lia).
    assert (0 < 2 ^ (E + 73)) as Hp1 by (apply Z.pow_pos_nonneg; lia).
    assert (0 < 2 ^ (- E)) as Hp2 by (apply Z.pow_pos_nonneg; lia).
    remember (2 ^ (E + 73)) as c eqn:Hc. clear Hc.
    remember (2 ^ (- E)) as a eqn:Ha. clear Ha.
    destruct sx; apply ltb_eq_iff.
    + change (Z.neg m) with (- Z.pos m). nia.
    + nia.
Qed.

(** The quotient of a positive integer by [10^6], as [SFdiv] rounds it: with
    [W] the result and [2^j] half a unit in its last place, both scaled by
    [2^73], the result is within half a unit of the exact quotient, and it
    overflows to an infinity when it reaches [2^1024]. *)
Lemma SFdiv_million sx p :
  ∃ m_r j W : Z,
    rounds_to (Z.pos p) m_r j W ∧
    ∀ T, float_lt_int
           (SFdiv prec emax (S754_finite sx p 0) (S754_finite false 1000000 0)) T =
         if sx then negb (W <? 2 ^ 1097) || (- W <? T * 2 ^ 73)
         else (W <? 2 ^ 1097) && (W <? T * 2 ^ 73).
Proof.
  pose proof (digits2_pos_bounds p) as Hdg.
  unfold SFdiv, SFdiv_core_binary.
  change (Zdigits2 (Z.pos 1000000)) with 20.
  change (Zdigits2 (Z.pos p)) with (Z.pos (digits2_pos p)).
  set (dg := Z.pos (digits2_pos p)) in *.
  assert (0 < dg) as Hdg0 by done.
  assert (fexp prec emax (dg + 0 - (20 + 0)) = dg - 73) as ->
    by (unfold fexp, emin, prec, emax; lia).
  set (sh := Z.max (73 - dg) 0).
  replace (Z.min (dg - 73) (0 - 0)) with (- sh) by lia.
  replace (0 - 0 - - sh) with sh by lia.
  assert (match sh with
          | 0 => Z.pos p
          | Z.pos _ => Z.shiftl (Z.pos p) sh
          | Z.neg _ => 0
          end = Z.pos p * 2 ^ sh) as ->.
  { destruct sh eqn:Hsh; [lia| |lia]. by rewrite Z.shiftl_mul_pow2. }
  assert (0 < 2 ^ sh) as Hpsh by (apply Z.pow_pos_nonneg; lia).
  assert (2 ^ 72 ≤ Z.pos p * 2 ^ sh) as Hbig.
  { destruct (Z_le_gt_dec dg 73).
    - replace 72 with (dg - 1 + sh) by lia. rewrite Z.pow_add_r by lia. nia.
    - replace sh with 0 by lia. rewrite Z.mul_1_r.
      pose proof (Z.pow_le_mono_r 2 72 (dg - 1)). lia. }
  set (N := Z.pos p * 2 ^ sh) in *.
  destruct (Z.div_eucl N 1000000) as [q r] eqn:Hdiv.
  pose proof (Z_div_mod N 1000000 eq_refl) as Hqr. rewrite Hdiv in Hqr.
  destruct Hqr as [HN Hr].
  assert (located (shr_record_of_loc q (new_location 1000000 r)) N 1000000) as Hloc.
  { unfold new_location. change (Z.even 1000000) with true. unfold new_location_even.
    change (2 ^ 72) with 4722366482869645213696 in Hbig.
    destruct (Z.eqb_spec r 0) as [->|Hr0]; [unfold located; simpl; lia|].
    destruct (Z.compare_spec (2 * r) 1000000); unfold located; simpl; lia. }
  assert (2 ^ 52 ≤ q) as Hq.
  { change (2 ^ 72) with 4722366482869645213696 in Hbig.
    change (2 ^ 52) with 4503599627370496. lia. }
  destruct (binary_round_aux_spec (xorb sx false) q (- sh) (new_location 1000000 r)
              N 1000000 Hloc Hq ltac:(lia))
    as (m_r & k & E & m & Hk & Hnear & Hfloor & Hform & ->).
  rewrite xorb_false_r.
  assert (sh ≤ 72) as Hsh by lia.
  set (j := k - sh + 72).
  exists m_r, j, (2 * m_r * 2 ^ j).
  assert (2 ^ j = 2 ^ k * 2 ^ (72 - sh)) as Hj
    by (rewrite <- Z.pow_add_r by lia; f_equal; lia).
  assert (2 ^ 73 = 2 * (2 ^ sh * 2 ^ (72 - sh))) as H73.
  { rewrite <- Z.pow_add_r by lia. replace (sh + (72 - sh)) with 72 by lia. done. }
  assert (0 < 2 ^ k) as Hpk by (apply Z.pow_pos_nonneg; lia).
  assert (0 < 2 ^ (72 - sh)) as Hpc by (apply Z.pow_pos_nonneg; lia).
  assert (2 ^ 52 ≤ m_r ≤ 2 ^ 53) as Hmr by (destruct Hform as [(_&_&?)|(_&_&->)]; lia).
  unfold rounds_to.
  split; [|intros T]; [split; [lia|]; split; [done|]; split; [done|]|].
  { assert ((2 * m_r * 2 ^ j - 2 ^ j) * 1000000 ≤ Z.pos p * 2 ^ 73
          ≤ (2 * m_r * 2 ^ j + 2 ^ j) * 1000000 ∧
          2 ^ 53 * 2 ^ j * 1000000 ≤ Z.pos p * 2 ^ 73 < 2 ^ 54 * 2 ^ j * 1000000)
    as [Hnear' Hfloor'].
    { rewrite Hj, H73. subst N.
    change (2 ^ 52) with 4503599627370496 in *.
    change (2 ^ 53) with 9007199254740992 in *.
    change (2 ^ 54) with 18014398509481984 in *.
    remember (2 ^ k) as a eqn:Ha. clear Ha.
    remember (2 ^ sh) as b eqn:Hb. clear Hb.
    remember (2 ^ (72 - sh)) as c eqn:Hc. clear Hc.
    destruct Hnear as [Hn1 Hn2]. destruct Hfloor as [Hf1 Hf2].
    apply (Z.mul_le_mono_pos_r _ _ c Hpc) in Hn1, Hn2, Hf1.
    apply (Z.mul_lt_mono_pos_r c _ _ Hpc) in Hf2.
    clear - Hn1 Hn2 Hf1 Hf2. lia. }
    done. }
  assert (0 < 2 ^ j) as Hpj by (apply Z.pow_pos_nonneg; lia).
  assert (2 * m_r * 2 ^ j = Z.pos m * 2 ^ (E + 73) ∧ -73 ≤ E ∧
          (E <=? 971) = (2 * m_r * 2 ^ j <? 2 ^ 1097)) as (HW & HE & Hover).
  { assert (2 ^ (j + 54) = 2 ^ 54 * 2 ^ j ∧ 2 ^ (j + 53) = 2 ^ 53 * 2 ^ j)
      as [H54 H53] by (by rewrite !Z.pow_add_r, Z.mul_comm, (Z.mul_comm (2 ^ j)) by lia).
    assert (2 ^ 1096 < 2 ^ 1097) as Hlast by (apply Z.pow_lt_mono_r; lia).
    change (2 ^ 52) with 4503599627370496 in *.
    change (2 ^ 53) with 9007199254740992 in *.
    change (2 ^ 54) with 18014398509481984 in *.
    destruct Hform as [(-> & Hm & Hlt)|(-> & Hm & ->)].
    - replace (- sh + k + 73) with (j + 1) by lia.
      rewrite Z.pow_add_r, Hm by lia. split; [lia|]. split; [lia|].
      assert (m_r * 2 ^ j < 9007199254740992 * 2 ^ j)
        by (apply Z.mul_lt_mono_pos_r; lia).
      assert (4503599627370496 * 2 ^ j ≤ m_r * 2 ^ j)
        by (apply Z.mul_le_mono_pos_r; lia).
      destruct (Z.leb_spec (- sh + k) 971), (Z.ltb_spec (2 * m_r * 2 ^ j) (2 ^ 1097));
        try done.
      + pose proof (Z.pow_le_mono_r 2 (j + 54) 1097). lia.
      + pose proof (Z.pow_le_mono_r 2 1097 (j + 53)). lia.
    - replace (- sh + k + 1 + 73) with (j + 2) by lia.
      rewrite Z.pow_add_r, Hm by lia. split; [lia|]. split; [lia|].
      destruct (Z.leb_spec (- sh + k + 1) 971),
        (Z.ltb_spec (2 * 9007199254740992 * 2 ^ j) (2 ^ 1097)); try done.
      + pose proof (Z.pow_le_mono_r 2 (j + 54) 1096). lia.
      + pose proof (Z.pow_le_mono_r 2 1097 (j + 54)). lia. }
  rewrite <- Hover. destruct (E <=? 971).
  - rewrite (float_lt_int_finite sx m E _ T HE HW). by destruct sx.
  - by destruct sx.
Qed.

Lemma rounds_to_size n m_r j W :
  rounds_to n m_r j W → 0 < 2 ^ j ∧ 2 ^ 53 * 2 ^ j ≤ W ≤ 2 ^ 54 * 2 ^ j.
Proof.
  intros (Hj & Hmr & -> & _).
  assert (0 < 2 ^ j) as Hu by (apply Z.pow_pos_nonneg; lia).
  split; [done|].
  change (2 ^ 52) with 4503599627370496 in *.
  change (2 ^ 53) with 9007199254740992 in *.
  change (2 ^ 54) with 18014398509481984 in *.
  destruct Hmr as [H1 H2].
  apply (Z.mul_le_mono_pos_r _ _ (2 ^ j) Hu) in H1, H2. lia.
Qed.

(** The rounded quotient is on the same side of an integer of magnitude up to
    [2^33] as the exact quotient: the neighbours of such an integer among the
    floats are less than [10^-6] away from it. *)
Lemma rounds_to_side n m_r j W T :
  rounds_to n m_r j W → - 2 ^ 33 ≤ T ≤ 2 ^ 33 →
  (W < T * 2 ^ 73 ↔ n < T * 1000000) ∧
  (T * 2 ^ 73 < W ↔ T * 1000000 < n) ∧
  (2 ^ 1097 ≤ W → 2 ^ 34 * 1000000 ≤ n).
Proof.
  intros Hr HT. pose proof (rounds_to_size _ _ _ _ Hr) as (Hu & Hsize).
  destruct Hr as (Hj & Hmr & HW & Hnear & Hfloor).
  assert (2 ^ 107 < 2 ^ 1097) as Hbig by (apply Z.pow_lt_mono_r; lia).
  destruct (Z_le_gt_dec j 53) as [Hsmall|Hlarge].
  - pose proof (Z.pow_le_mono_r 2 j 53 ltac:(lia) Hsmall) as Hle.
    assert (2 ^ 73 = 2 * 2 ^ j * 2 ^ (72 - j)) as Hgrid.
    { rewrite <- Z.mul_assoc, <- Z.pow_add_r by lia.
      replace (j + (72 - j)) with 72 by lia. done. }
    assert (0 < 2 ^ (72 - j)) as Hc by (apply Z.pow_pos_nonneg; lia).
    remember (2 ^ (72 - j)) as c eqn:Heqc. clear Heqc.
    assert (W < T * 2 ^ 73 → W + 2 * 2 ^ j ≤ T * 2 ^ 73) as Hbelow.
    { rewrite Hgrid, HW. intros Hlt.
      assert (m_r < T * c) by (apply (Z.mul_lt_mono_pos_l (2 * 2 ^ j)); lia).
      assert (2 * 2 ^ j * (m_r + 1) ≤ 2 * 2 ^ j * (T * c))
        by (apply Z.mul_le_mono_nonneg_l; lia).
      lia. }
    assert (T * 2 ^ 73 < W → T * 2 ^ 73 + 2 * 2 ^ j ≤ W) as Habove.
    { rewrite Hgrid, HW. intros Hlt.
      assert (T * c < m_r) by (apply (Z.mul_lt_mono_pos_l (2 * 2 ^ j)); lia).
      assert (2 * 2 ^ j * (T * c + 1) ≤ 2 * 2 ^ j * m_r)
        by (apply Z.mul_le_mono_nonneg_l; lia).
      lia. }
    clear Hgrid HW Hmr.
    change (2 ^ 53) with 9007199254740992 in *.
    change (2 ^ 54) with 18014398509481984 in *.
    change (2 ^ 73) with 9444732965739290427392 in *.
    change (2 ^ 33) with 8589934592 in *.
    change (2 ^ 34) with 17179869184 in *.
    change (2 ^ 107) with 162259276829213363391578010288128 in *.
    remember (2 ^ j) as u eqn:Hequ. clear Hequ.
    remember (2 ^ 1097) as big eqn:Heqbig. clear Heqbig.
    repeat split; lia.
  - pose proof (Z.pow_le_mono_r 2 54 j ltac:(lia) ltac:(lia)) as Hle.
    clear HW Hmr.
    change (2 ^ 53) with 9007199254740992 in *.
    change (2 ^ 54) with 18014398509481984 in *.
    change (2 ^ 73) with 9444732965739290427392 in *.
    change (2 ^ 33) with 8589934592 in *.
    change (2 ^ 34) with 17179869184 in *.
    change (2 ^ 107) with 162259276829213363391578010288128 in *.
    remember (2 ^ j) as u eqn:Hequ. clear Hequ.
    remember (2 ^ 1097) as big eqn:Heqbig. clear Heqbig.
    repeat split; lia.
Qed.

(** The rounding is monotone. *)
Lemma rounds_to_mono n m_r j W n' m_r' j' W' :
  rounds_to n m_r j W → rounds_to n' m_r' j' W' → n < n' → W ≤ W'.
Proof.
  intros Hr Hr' Hlt.
  pose proof (rounds_to_size _ _ _ _ Hr) as (Hu & Hsize).
  pose proof (rounds_to_size _ _ _ _ Hr') as (Hu' & Hsize').
  destruct Hr as (Hj & Hmr & HW & Hnear & Hfloor).
  destruct Hr' as (Hj' & Hmr' & HW' & Hnear' & Hfloor').
  assert (j < j' + 1) as Hjj.
  { apply pow2_lt_inv; [lia|]. rewrite Z.pow_add_r by lia.
    change (2 ^ 53) with 9007199254740992 in *.
    change (2 ^ 54) with 18014398509481984 in *.
    change (2 ^ 73) with 9444732965739290427392 in *. lia. }
  destruct (Z_le_gt_dec j' j) as [Hsame|Hless].
  - assert (j' = j) as -> by lia.
    assert (m_r < m_r' + 1).
    { apply (Z.mul_lt_mono_pos_l (2 * 2 ^ j)); [lia|].
      change (2 ^ 73) with 9444732965739290427392 in *. lia. }
    assert (2 * 2 ^ j * m_r ≤ 2 * 2 ^ j * m_r')
      by (apply Z.mul_le_mono_nonneg_l; lia).
    lia.
  - pose proof (Z.pow_le_mono_r 2 (j + 1) j' ltac:(lia) ltac:(lia)) as Hle.
    rewrite Z.pow_add_r in Hle by lia.
    change (2 ^ 53) with 9007199254740992 in *.
    change (2 ^ 54) with 18014398509481984 in *. lia.
Qed.

Lemma float_lt_int_mono x n n' :
  n ≤ n' → float_lt_int x n = true → float_lt_int x n' = true.
Proof.
  intros Hle. destruct x as [s|s| |s m e]; simpl; try done.
  - intros ?%Z.ltb_lt. apply Z.ltb_lt. lia.
  - destruct (0 <=? e) eqn:He.
    + intros ?%Z.ltb_lt. apply Z.ltb_lt. lia.
    + apply Z.leb_gt in He.
      assert (0 < 2 ^ (- e)) by (apply Z.pow_pos_nonneg; lia).
      intros ?%Z.ltb_lt. apply Z.ltb_lt. nia.
Qed.

(** Within [2^33] seconds either way, the rounding of [total_seconds] does
    not change the side of the TTL the age is on. *)
Lemma total_seconds_lt_exact delta ttl_seconds :
  - 2 ^ 33 ≤ ttl_seconds ≤ 2 ^ 33 →
  total_seconds_lt delta ttl_seconds = (delta <? ttl_seconds * 1000000).
Proof.
  intros Httl. unfold total_seconds_lt, int_truediv.
  change (SF_of_Z 1000000) with (S754_finite false 1000000 0).
  destruct delta as [|p|p]; simpl SF_of_Z.
  - simpl. apply ltb_eq_iff. lia.
  - destruct (SFdiv_million false p) as (m_r & j & W & Hr & ->).
    destruct (rounds_to_side _ _ _ _ ttl_seconds Hr Httl) as (Hbelow & _ & _).
    pose proof (rounds_to_size _ _ _ _ Hr) as (Hu & Hsize).
    assert (2 ^ 106 < 2 ^ 1097) as Hbig by (apply Z.pow_lt_mono_r; lia).
    destruct (Z.ltb_spec (Z.pos p) (ttl_seconds * 1000000)) as [Hlt|Hge].
    + apply Hbelow in Hlt. apply andb_true_intro. split; apply Z.ltb_lt; [|done].
      change (2 ^ 33) with 8589934592 in *.
      change (2 ^ 73) with 9444732965739290427392 in *.
      change (2 ^ 106) with 81129638414606681695789005144064 in *. lia.
    + apply andb_false_intro2, Z.ltb_ge. lia.
  - destruct (SFdiv_million true p) as (m_r & j & W & Hr & ->).
    destruct (rounds_to_side _ _ _ _ (- ttl_seconds) Hr ltac:(lia))
      as (_ & Habove & Hover).
    change (Z.neg p) with (- Z.pos p).
    destruct (Z.ltb_spec (- Z.pos p) (ttl_seconds * 1000000)) as [Hlt|Hge].
    + apply orb_true_intro. right. apply Z.ltb_lt. lia.
    + apply orb_false_intro.
      * apply negb_false_iff, Z.ltb_lt.
        destruct (Z_lt_le_dec W (2 ^ 1097)) as [|Hinf]; [done|].
        apply Hover in Hinf.
        change (2 ^ 33) with 8589934592 in *.
        change (2 ^ 34) with 17179869184 in *. lia.
      * apply Z.ltb_ge. lia.
Qed.

(** An older timestamp is no fresher, and a longer TTL no stricter. *)
Lemma total_seconds_lt_mono delta delta' ttl ttl' :
  delta ≤ delta' → ttl ≤ ttl' →
  total_seconds_lt delta' ttl = true → total_seconds_lt delta ttl' = true.
Proof.
  intros Hdelta Httl Hlt.
  apply (float_lt_int_mono _ ttl ttl' Httl).
  destruct (Z.eq_dec delta delta') as [->|Hne]; [done|].
  revert Hlt. unfold total_seconds_lt, int_truediv.
  change (SF_of_Z 1000000) with (S754_finite false 1000000 0).
  destruct delta as [|p|p], delta' as [|p'|p']; simpl SF_of_Z; try lia.
  - destruct (SFdiv_million false p') as (m_r' & j' & W' & Hr' & ->).
    pose proof (rounds_to_size _ _ _ _ Hr') as (? & ?). simpl.
    intros [_ ?%Z.ltb_lt]%andb_prop. apply Z.ltb_lt.
    change (2 ^ 53) with 9007199254740992 in *.
    change (2 ^ 73) with 9444732965739290427392 in *. lia.
  - destruct (SFdiv_million false p) as (m_r & j & W & Hr & ->).
    destruct (SFdiv_million false p') as (m_r' & j' & W' & Hr' & ->).
    pose proof (rounds_to_mono _ _ _ _ _ _ _ _ Hr Hr' ltac:(lia)).
    intros [?%Z.ltb_lt ?%Z.ltb_lt]%andb_prop.
    apply andb_true_intro. split; apply Z.ltb_lt; lia.
  - destruct (SFdiv_million true p) as (m_r & j & W & Hr & ->).
    pose proof (rounds_to_size _ _ _ _ Hr) as (? & ?). simpl.
    intros ?%Z.ltb_lt. apply orb_true_intro. right. apply Z.ltb_lt.
    change (2 ^ 53) with 9007199254740992 in *.
    change (2 ^ 73) with 9444732965739290427392 in *. lia.
  - destruct (SFdiv_million true p) as (m_r & j & W & Hr & ->).
    destruct (SFdiv_million false p') as (m_r' & j' & W' & Hr' & ->).
    pose proof (rounds_to_size _ _ _ _ Hr) as (? & ?).
    pose proof (rounds_to_size _ _ _ _ Hr') as (? & ?).
    intros [_ ?%Z.ltb_lt]%andb_prop. apply orb_true_intro. right. apply Z.ltb_lt.
    change (2 ^ 53) with 9007199254740992 in *.
    change (2 ^ 73) with 9444732965739290427392 in *. lia.
  - destruct (SFdiv_million true p) as (m_r & j & W & Hr & ->).
    destruct (SFdiv_million true p') as (m_r' & j' & W' & Hr' & ->).
    pose proof (rounds_to_mono _ _ _ _ _ _ _ _ Hr' Hr ltac:(lia)).
    intros [Hinf%negb_true_iff%Z.ltb_ge|?%Z.ltb_lt]%orb_prop; apply orb_true_intro.
    + left. apply negb_true_iff, Z.ltb_ge. lia.
    + right. apply Z.ltb_lt. lia.
Qed.
End rounding.

(** ** Strings and validated codes *)

Lemma upper_AZ_not_space c : is_upper_AZ c = true → is_space c = false.
Proof.
  unfold is_upper_AZ, is_space. intros [H1 H2]%andb_true_iff.
  apply Nat.leb_le in H1, H2.
  apply orb_false_iff; split; apply andb_false_iff; right; apply Nat.leb_gt; lia.
Qed.

Lemma upper_char_fixed c : is_upper_AZ c = true → upper_char c = c.
Proof.
  unfold is_upper_AZ, upper_char, is_lower_az. intros [H1 H2]%andb_true_iff.
  apply Nat.leb_le in H1, H2.
  destruct (Nat.leb_spec 97 (nat_of_ascii c)); [lia | reflexivity].
Qed.

Lemma upper_fixed s : string_forallb is_upper_AZ s = true → upper s = s.
Proof.
  induction s as [|c s IH]; simpl; [done|].
  intros [Hc Hs]%andb_true_iff. unfold upper in *. simpl.
  by rewrite (upper_char_fixed c Hc), IH.
Qed.

Lemma lstrip_fixed s : string_forallb is_upper_AZ s = true → lstrip s = s.
Proof.
  destruct s as [|c s]; simpl; [done|].
  intros [Hc _]%andb_true_iff. by rewrite (upper_AZ_not_space c Hc).
Qed.

Lemma rstrip_fixed s : string_forallb is_upper_AZ s = true → rstrip s = s.
Proof.
  induction s as [|c s IH]; simpl; [done|].
  intros [Hc Hs]%andb_true_iff. rewrite (IH Hs).
  destruct s; [|done]. by rewrite (upper_AZ_not_space c Hc).
Qed.

Lemma matches_code_letters code :
  matches_code code = true → string_forallb is_upper_AZ code = true.
Proof. unfold matches_code. by intros [_ ?]%andb_true_iff. Qed.

Lemma normalized_fixed code :
  matches_code code = true → strip (upper code) = code.
Proof.
  intros H%matches_code_letters. unfold strip.
  by rewrite (upper_fixed _ H), (lstrip_fixed _ H), (rstrip_fixed _ H).
Qed.

Lemma validate_currency_code_matches code C :
  validate_currency_code code = Ok C → matches_code C = true.
Proof.
  unfold validate_currency_code.
  destruct (_ || _); [done|].
  destruct (matches_code (strip (upper code))) eqn:Hm; simpl; [|done].
  by intros [= <-].
Qed.

Lemma get_currency_known registry C :
  matches_code C = true → C ∈ registry → get_currency registry C = Ok C.
Proof.
  intros Hm Hin. unfold get_currency. rewrite (normalized_fixed _ Hm).
  assert (existsb (String.eqb C) registry = true) as ->; [|done].
  apply existsb_exists. exists C. split; [by apply list_elem_of_In|apply String.eqb_refl].
Qed.

Lemma eqb_ne (a b : string) : a ≠ b → String.eqb a b = false.
Proof. intros. by apply String.eqb_neq. Qed.

(** ** The resolver *)

Section resolver.
Context {lib : DatetimeLib}.

Lemma bind_Ok {A B} (a : A) (f : A → result B) : (Ok a ≫= f) = f a.
Proof. reflexivity. Qed.

Lemma py_get_dict d k dflt :
  py_get (JObj d) k dflt = Ok (from_option id dflt (dict_get k d)).
Proof. reflexivity. Qed.

Lemma truthy_usable rate_data :
  usable (rate_of rate_data) = true → truthy rate_data = true.
Proof.
  unfold usable. intros [H _]%andb_true_iff.
  destruct rate_data as [| | | | |d]; try exact H.
  destruct d; [exact H|reflexivity].
Qed.

(** The part of [get_rate] that follows the identity case. *)
Lemma get_rate_enters registry st now fs from_code to_code F T pairs :
  validate_currency_code from_code = Ok F →
  validate_currency_code to_code = Ok T →
  F ∈ registry → T ∈ registry → F ≠ T →
  cached_pairs st fs pairs →
  ∃ rates_data, get_rates st fs = JObj rates_data ∧
  get_rate registry st now fs from_code to_code =
    let last_refresh := from_option id JNull (dict_get "last_refresh" rates_data) in
    let via_calculate :=
      rate ← calculate_rate F T pairs;
      if truthy rate then
        reverse_rate ← inverse_or_none rate;
        Ok {| res_from_code := F; res_to_code := T;
              res_rate := rate; res_reverse_rate := reverse_rate;
              res_updated_at := last_refresh;
              res_source := Some (JStr "calculated"); res_fresh := true |}
      else Raise (unavailable F T) in
    let ttl := default 300%Z (rates_ttl_seconds st) in
    let rate_info := from_option id JNull (dict_get (pair_key F T) pairs) in
    let reverse_info := from_option id JNull (dict_get (pair_key T F) pairs) in
    if truthy rate_info then
      fresh ← is_rate_fresh now (field_of rate_info "updated_at" JNull) ttl;
      reverse_rate ← inverse_or_none (rate_of rate_info);
      Ok {| res_from_code := F; res_to_code := T;
            res_rate := rate_of rate_info; res_reverse_rate := reverse_rate;
            res_updated_at := field_of rate_info "updated_at" JNull;
            res_source := Some (field_of rate_info "source" (JStr "cache"));
            res_fresh := fresh |}
    else if truthy reverse_info && usable (rate_of reverse_info) then
      rate ← py_truediv (JNum 1) (rate_of reverse_info);
      fresh ← is_rate_fresh now (field_of reverse_info "updated_at" JNull) ttl;
      Ok {| res_from_code := F; res_to_code := T;
            res_rate := rate; res_reverse_rate := rate_of reverse_info;
            res_updated_at := field_of reverse_info "updated_at" JNull;
            res_source := Some (field_of reverse_info "source" (JStr "cache"));
            res_fresh := fresh |}
    else via_calculate.
Proof.
  intros Hvf Hvt HF HT Hne Hpairs. unfold cached_pairs in Hpairs.
  destruct (get_rates st fs) as [| | | | |rates_data] eqn:Hdata; try discriminate.
  exists rates_data. split; [reflexivity|].
  unfold get_rate. rewrite Hvf, bind_Ok, Hvt, bind_Ok.
  rewrite (get_currency_known registry F), bind_Ok
    by eauto using validate_currency_code_matches.
  rewrite (get_currency_known registry T), bind_Ok
    by eauto using validate_currency_code_matches.
  rewrite (eqb_ne F T Hne), Hdata, Hpairs, bind_Ok.
  rewrite (py_get_dict pairs (pair_key F T)), bind_Ok.
  cbv zeta.
  destruct (truthy (from_option id JNull (dict_get (pair_key F T) pairs))); [reflexivity|].
  rewrite (py_get_dict pairs (pair_key T F)), bind_Ok.
  unfold usable.
  destruct (truthy (from_option id JNull (dict_get (pair_key T F) pairs))); reflexivity.
Qed.

Lemma calculate_rate_falls_to_usd F T pairs :
  matches_code F = true → matches_code T = true → F ≠ T →
  dict_get (pair_key F T) pairs = None →
  usable_pair (pair_key T F) pairs = false →
  calculate_rate F T pairs =
    if negb (String.eqb F "USD") && negb (String.eqb T "USD") then
      let from_rate := from_option rate_of JNull (dict_get (pair_key F "USD") pairs) in
      let to_rate := from_option rate_of JNull (dict_get (pair_key T "USD") pairs) in
      if truthy from_rate && truthy to_rate && py_ne_zero to_rate
      then py_truediv from_rate to_rate else Ok JNull
    else Ok JNull.
Proof.
  intros HF%matches_code_letters%upper_fixed HT%matches_code_letters%upper_fixed
    Hne Hdirect Hreverse.
  unfold calculate_rate. rewrite HF, HT, (eqb_ne F T Hne), Hdirect.
  unfold usable_pair, usable in Hreverse.
  destruct (dict_get (pair_key T F) pairs) as [rate_data|]; simpl in Hreverse.
  - by rewrite Hreverse.
  - reflexivity.
Qed.

Lemma usable_number r : is_zero r = false → usable (JNum r) = true.
Proof. unfold usable, py_ne_zero. simpl. by intros ->. Qed.

Lemma unusable_zero r : is_zero r = true → usable (JNum r) = false.
Proof. unfold usable, py_ne_zero. simpl. by intros ->. Qed.

Lemma truediv_numbers x y :
  is_zero y = false → py_truediv (JNum x) (JNum y) = Ok (JNum (x / y)).
Proof. unfold py_truediv. simpl. by intros ->. Qed.

Lemma inverse_number r :
  is_zero r = false → inverse_or_none (JNum r) = Ok (JNum (1 / r)).
Proof. intros H. unfold inverse_or_none. simpl. rewrite H. by apply truediv_numbers. Qed.

Lemma default_usable_pair key pairs :
  truthy (default JNull (dict_get key pairs)) &&
    usable (rate_of (default JNull (dict_get key pairs))) = usable_pair key pairs.
Proof.
  unfold usable_pair. destruct (dict_get key pairs) as [rate_data|]; simpl; [|done].
  destruct (usable (rate_of rate_data)) eqn:H; [|by rewrite andb_false_r].
  by rewrite (truthy_usable _ H).
Qed.

(** Once the direct pair is absent and the reverse pair is not usable,
    [get_rate] is decided by [calculate_rate]. *)
Lemma get_rate_calculates registry st now fs from_code to_code F T pairs :
  validate_currency_code from_code = Ok F →
  validate_currency_code to_code = Ok T →
  F ∈ registry → T ∈ registry → F ≠ T →
  cached_pairs st fs pairs →
  dict_get (pair_key F T) pairs = None →
  usable_pair (pair_key T F) pairs = false →
  get_rate registry st now fs from_code to_code =
    rate ← calculate_rate F T pairs;
    if truthy rate then
      reverse_rate ← inverse_or_none rate;
      Ok {| res_from_code := F; res_to_code := T;
            res_rate := rate; res_reverse_rate := reverse_rate;
            res_updated_at := field_of (get_rates st fs) "last_refresh" JNull;
            res_source := Some (JStr "calculated"); res_fresh := true |}
    else Raise (unavailable F T).
Proof.
  intros Hvf Hvt HF HT Hne Hpairs Hdirect Hreverse.
  destruct (get_rate_enters registry st now fs from_code to_code F T pairs)
    as (rates_data & Hdata & ->); [done..|].
  cbv zeta. rewrite Hdirect. simpl truthy. cbv iota.
  by rewrite default_usable_pair, Hreverse, Hdata.
Qed.

(** C4 (amended). With USD as the pivot, whatever base currency is configured:
    when the cache has neither the direct pair nor a usable reverse pair,
    neither code is USD, and both legs [FROM_USD] and [TO_USD] carry non-zero
    rates whose quotient is non-zero, [get_rate] returns the quotient of the
    legs and reports it fresh whatever the age of the legs; when a leg is
    missing the triangulation yields no rate and [get_rate] fails with the
    rate-unavailable error. *)
Theorem get_rate_triangulates registry st now fs from_code to_code F T pairs :
  validate_currency_code from_code = Ok F →
  validate_currency_code to_code = Ok T →
  F ∈ registry → T ∈ registry → F ≠ T →
  F ≠ "USD" → T ≠ "USD" →
  cached_pairs st fs pairs →
  dict_get (pair_key F T) pairs = None →
  usable_pair (pair_key T F) pairs = false →
  (∀ from_data to_data from_rate to_rate,
     dict_get (pair_key F "USD") pairs = Some from_data →
     rate_of from_data = JNum from_rate →
     dict_get (pair_key T "USD") pairs = Some to_data →
     rate_of to_data = JNum to_rate →
     is_zero from_rate = false → is_zero to_rate = false →
     is_zero (from_rate / to_rate) = false →
     get_rate registry st now fs from_code to_code =
       Ok {| res_from_code := F; res_to_code := T;
             res_rate := JNum (from_rate / to_rate);
             res_reverse_rate := JNum (1 / (from_rate / to_rate));
             res_updated_at := field_of (get_rates st fs) "last_refresh" JNull;
             res_source := Some (JStr "calculated");
             res_fresh := true |}) ∧
  (dict_get (pair_key F "USD") pairs = None ∨ dict_get (pair_key T "USD") pairs = None →
     calculate_rate F T pairs = Ok JNull ∧
     get_rate registry st now fs from_code to_code = Raise (unavailable F T)).
Proof.
  intros Hvf Hvt HF HT Hne HFusd HTusd Hpairs Hdirect Hreverse.
  pose proof (get_rate_calculates registry st now fs from_code to_code F T pairs
                Hvf Hvt HF HT Hne Hpairs Hdirect Hreverse) as Hget.
  pose proof (calculate_rate_falls_to_usd F T pairs
                (validate_currency_code_matches _ _ Hvf)
                (validate_currency_code_matches _ _ Hvt) Hne Hdirect Hreverse) as Hcalc.
  rewrite (eqb_ne F "USD" HFusd), (eqb_ne T "USD" HTusd) in Hcalc.
  simpl negb in Hcalc. simpl andb in Hcalc. cbv iota zeta in Hcalc.
  split.
  - intros from_data to_data from_rate to_rate Hf Hfr Ht Htr Hzf Hzt Hzq.
    rewrite Hf, Ht in Hcalc. simpl from_option in Hcalc.
    rewrite Hfr, Htr in Hcalc. unfold py_ne_zero in Hcalc. simpl in Hcalc.
    rewrite Hzf, Hzt in Hcalc. simpl in Hcalc.
    rewrite (truediv_numbers _ _ Hzt) in Hcalc.
    rewrite Hget, Hcalc, bind_Ok. simpl truthy. rewrite Hzq. simpl negb. cbv iota.
    by rewrite (inverse_number _ Hzq), bind_Ok.
  - intros Hmissing.
    assert (calculate_rate F T pairs = Ok JNull) as Hnone.
    { rewrite Hcalc. destruct Hmissing as [-> | ->]; simpl; [done|].
      by rewrite andb_false_r. }
    split; [done|]. by rewrite Hget, Hnone.
Qed.




(** C6. When the cache has no direct pair, the reverse pair [TO_FROM] carries
    the rate zero and there is no triangulation through USD, [get_rate] fails
    with the rate-unavailable [ApiRequestError] that names both codes; it does
    not divide. *)
Theorem get_rate_zero_reverse registry st now fs from_code to_code F T pairs
    reverse_data r :
  validate_currency_code from_code = Ok F →
  validate_currency_code to_code = Ok T →
  F ∈ registry → T ∈ registry → F ≠ T →
  cached_pairs st fs pairs →
  dict_get (pair_key F T) pairs = None →
  dict_get (pair_key T F) pairs = Some reverse_data →
  rate_of reverse_data = JNum r →
  is_zero r = true →
  F = "USD" ∨ T = "USD" ∨
    dict_get (pair_key F "USD") pairs = None ∨ dict_get (pair_key T "USD") pairs = None →
  get_rate registry st now fs from_code to_code =
    Raise (ApiRequestError
             ("Курс " +:+ F +:+ "→" +:+ T +:+ " недоступен. Повторите попытку позже.")).
Proof.
  intros Hvf Hvt HF HT Hne Hpairs Hdirect Hreverse Hrate Hz Hpath.
  assert (usable_pair (pair_key T F) pairs = false) as Hunusable.
  { unfold usable_pair. rewrite Hreverse. simpl. rewrite Hrate. by apply unusable_zero. }
  rewrite (get_rate_calculates registry st now fs from_code to_code F T pairs)
    by done.
  rewrite (calculate_rate_falls_to_usd F T pairs)
    by eauto using validate_currency_code_matches.
  assert ((if negb (String.eqb F "USD") && negb (String.eqb T "USD") then
             let from_rate := from_option rate_of JNull (dict_get (pair_key F "USD") pairs) in
             let to_rate := from_option rate_of JNull (dict_get (pair_key T "USD") pairs) in
             if truthy from_rate && truthy to_rate && py_ne_zero to_rate
             then py_truediv from_rate to_rate else Ok JNull
           else Ok JNull) = Ok JNull) as ->; [|done].
  destruct Hpath as [-> | [-> | [-> | ->]]]; simpl.
  - done.
  - by rewrite andb_false_r.
  - by destruct (negb _ && negb _).
  - destruct (negb _ && negb _); [|done]. by rewrite andb_false_r.
Qed.

Lemma is_rate_fresh_naive now s dt ttl :
  parse_datetime (JStr s) = Some dt → utcoffset dt = None →
  is_rate_fresh now (JStr s) ttl = Ok (total_seconds_lt (now - wall_us dt) ttl).
Proof.
  intros Hparse Hnaive. unfold is_rate_fresh. rewrite Hparse.
  unfold datetime_sub. simpl. by rewrite Hnaive.
Qed.

(** The timestamps [parse_datetime] turns into aware values, such as those
    with the suffix [Z] it rewrites to [+00:00], make the subtraction from the
    naive [datetime.now()] raise. *)
Lemma is_rate_fresh_aware now s dt offset ttl :
  parse_datetime (JStr s) = Some dt → utcoffset dt = Some offset →
  is_rate_fresh now (JStr s) ttl = Raise TypeError.
Proof.
  intros Hparse Haware. unfold is_rate_fresh. rewrite Hparse.
  unfold datetime_sub. simpl. by rewrite Haware.
Qed.

Lemma field_truthy rate_data k s :
  field_of rate_data k JNull = JStr s → truthy rate_data = true.
Proof.
  destruct rate_data as [| | | | |d]; simpl; try discriminate.
  by destruct d.
Qed.

(** C9 (amended). For a rate resolved from the direct pair, or from a reverse
    pair with a non-zero rate, whose [updated_at] parses, and a TTL of at most
    [2^33] seconds, [get_rate] reports [fresh = true] exactly when
    [now - updated_at] is strictly less than the TTL (300 seconds unless
    configured); it returns such a report whenever the parsed timestamp is
    naive, as the timestamps the cache writers store are. *)
Theorem get_rate_freshness registry st now fs from_code to_code F T pairs
    rate_data r s dt :
  validate_currency_code from_code = Ok F →
  validate_currency_code to_code = Ok T →
  F ∈ registry → T ∈ registry → F ≠ T →
  cached_pairs st fs pairs →
  dict_get (pair_key F T) pairs = Some rate_data ∨
    (dict_get (pair_key F T) pairs = None ∧
     dict_get (pair_key T F) pairs = Some rate_data ∧ is_zero r = false) →
  rate_of rate_data = JNum r →
  field_of rate_data "updated_at" JNull = JStr s →
  parse_datetime (JStr s) = Some dt →
  (- 2 ^ 33 ≤ default 300 (rates_ttl_seconds st) ≤ 2 ^ 33)%Z →
  (∀ res, get_rate registry st now fs from_code to_code = Ok res →
     res_updated_at res = JStr s ∧
     (res_fresh res = true ↔
      (now - wall_us dt < default 300 (rates_ttl_seconds st) * 1000000)%Z)) ∧
  (utcoffset dt = None →
   ∃ res, get_rate registry st now fs from_code to_code = Ok res).
Proof.
  intros Hvf Hvt HF HT Hne Hpairs Hentry Hrate Hupdated Hparse Httl.
  destruct (get_rate_enters registry st now fs from_code to_code F T pairs)
    as (rates_data & Hdata & ->); [done..|].
  cbv zeta.
  assert (∃ rr, inverse_or_none (JNum r) = Ok rr) as [rr Hrr].
  { unfold inverse_or_none, py_truediv. simpl. destruct (is_zero r); simpl; eauto. }
  assert (∀ X (k : bool → result X),
            (is_rate_fresh now (JStr s) (default 300%Z (rates_ttl_seconds st)) ≫= k) =
            match utcoffset dt with
            | None => k (now - wall_us dt <?
                         default 300 (rates_ttl_seconds st) * 1000000)%Z
            | Some _ => Raise TypeError
            end) as Hfresh.
  { intros X k. destruct (utcoffset dt) as [offset|] eqn:Hoffset.
    - by rewrite (is_rate_fresh_aware now s dt offset _ Hparse Hoffset).
    - by rewrite (is_rate_fresh_naive now s dt _ Hparse Hoffset),
        (total_seconds_lt_exact _ _ Httl). }
  destruct Hentry as [Hdirect | (Hdirect & Hreverse & Hz)].
  - rewrite Hdirect. simpl default.
    rewrite (field_truthy _ _ _ Hupdated), Hupdated, Hfresh, Hrate, Hrr, bind_Ok.
    destruct (utcoffset dt); split; try done; [|by eauto].
    intros res [= <-]. simpl. split; [done|]. apply Z.ltb_lt.
  - rewrite Hdirect. simpl truthy. cbv iota.
    rewrite default_usable_pair. unfold usable_pair. rewrite Hreverse. simpl.
    rewrite Hrate, (usable_number _ Hz), (truediv_numbers _ _ Hz), bind_Ok.
    rewrite Hupdated, Hfresh.
    destruct (utcoffset dt); split; try done; [|by eauto].
    intros res [= <-]. simpl. split; [done|]. apply Z.ltb_lt.
Qed.
End resolver.

(** ** The resolver on the sample documents *)

Lemma get_rate_triangulates_witness :
  get_rate (lib := Iso.lib) _init_currency_registry st_default (t0 + seconds 86400)
    (rates_fs crypto_in_usd) "btc" "eth" =
    Ok {| res_from_code := "BTC"; res_to_code := "ETH";
          res_rate := JNum (59337.21 / 3720);
          res_reverse_rate := JNum (1 / (59337.21 / 3720));
          res_updated_at := JStr "2024-01-01T00:00:00";
          res_source := Some (JStr "calculated");
          res_fresh := true |} ∧
  get_rate (lib := Iso.lib) _init_currency_registry st_default (t0 + seconds 86400)
    (rates_fs only_eur_usd) "GBP" "JPY" = Raise (unavailable "GBP" "JPY").
Proof.
  split.
  - eapply (proj1 (get_rate_triangulates (lib := Iso.lib) _init_currency_registry
                     st_default (t0 + seconds 86400) (rates_fs crypto_in_usd)
                     "btc" "eth" "BTC" "ETH" _
                     eq_refl eq_refl ltac:(repeat constructor) ltac:(repeat constructor)
                     ltac:(discriminate) ltac:(discriminate) ltac:(discriminate)
                     eq_refl eq_refl eq_refl));
      reflexivity.
  - eapply (proj2 (get_rate_triangulates (lib := Iso.lib) _init_currency_registry
                     st_default (t0 + seconds 86400) (rates_fs only_eur_usd)
                     "GBP" "JPY" "GBP" "JPY" _
                     eq_refl eq_refl ltac:(repeat constructor) ltac:(repeat constructor)
                     ltac:(discriminate) ltac:(discriminate) ltac:(discriminate)
                     eq_refl eq_refl eq_refl)).
    left. reflexivity.
Defined.

(** C4 as stated fails twice: with EUR configured as the base currency the
    legs [BTC_EUR] and [ETH_EUR] are not looked up, and a leg [XRP_USD] whose
    rate is zero counts as missing although the divisor [ETH_USD] is
    non-zero. *)
Lemma get_rate_triangulates_counterexample :
  ¬ triangulation_as_claimed (lib := Iso.lib) _init_currency_registry st_eur_base
      (t0 + seconds 60) (rates_fs crypto_in_eur) "BTC" "ETH" ∧
  ¬ triangulation_as_claimed (lib := Iso.lib) _init_currency_registry st_default
      (t0 + seconds 60) (rates_fs zero_leg) "XRP" "ETH".
Proof.
  split; intros Hclaim.
  - edestruct (Hclaim "BTC" "ETH") as (res & Hres & _);
      [reflexivity | reflexivity | repeat constructor | repeat constructor
      | reflexivity | discriminate | discriminate | reflexivity | reflexivity
      | reflexivity | reflexivity | reflexivity | reflexivity | reflexivity |].
    vm_compute in Hres. discriminate.
  - edestruct (Hclaim "XRP" "ETH") as (res & Hres & _);
      [reflexivity | reflexivity | repeat constructor | repeat constructor
      | reflexivity | discriminate | discriminate | reflexivity | reflexivity
      | reflexivity | reflexivity | reflexivity | reflexivity | reflexivity |].
    vm_compute in Hres. discriminate.
Qed.



Lemma get_rate_zero_reverse_witness :
  get_rate (lib := Iso.lib) _init_currency_registry st_default (t0 + seconds 60)
    (rates_fs zero_eur_usd) "USD" "EUR" =
    Raise (ApiRequestError "Курс USD→EUR недоступен. Повторите попытку позже.").
Proof.
  eapply (get_rate_zero_reverse (lib := Iso.lib) _init_currency_registry st_default
            (t0 + seconds 60) (rates_fs zero_eur_usd) "USD" "EUR" "USD" "EUR" _
            (cache_entry 0 "2024-01-01T00:00:00" "ParserService") 0
            eq_refl eq_refl ltac:(repeat constructor) ltac:(repeat constructor)
            ltac:(discriminate));
    first [reflexivity | by left].
Defined.

(** A rate aged TTL + 1 seconds is stale and a rate aged TTL - 1 seconds is
    fresh, for the direct pair and for the inverted one. *)
Lemma get_rate_freshness_witness :
  (∃ res, get_rate (lib := Iso.lib) _init_currency_registry st_default (t0 + seconds 301)
            (rates_fs only_eur_usd) "EUR" "USD" = Ok res ∧ res_fresh res = false) ∧
  (∃ res, get_rate (lib := Iso.lib) _init_currency_registry st_default (t0 + seconds 299)
            (rates_fs only_eur_usd) "USD" "EUR" = Ok res ∧ res_fresh res = true).
Proof.
  split.
  - edestruct (get_rate_freshness (lib := Iso.lib) _init_currency_registry st_default
                 (t0 + seconds 301) (rates_fs only_eur_usd) "EUR" "USD" "EUR" "USD" _
                 (cache_entry 1.08 "2024-01-01T00:00:00" "ParserService") 1.08
                 "2024-01-01T00:00:00" (naive t0)
                 eq_refl eq_refl ltac:(repeat constructor) ltac:(repeat constructor)
                 ltac:(discriminate) eq_refl ltac:(left; reflexivity)
                 eq_refl eq_refl eq_refl ltac:(simpl; lia)) as (Hreport & Hreturns).
    destruct (Hreturns eq_refl) as (res & Hres).
    destruct (Hreport res Hres) as (_ & Hfresh).
    exists res. split; [exact Hres|].
    destruct (res_fresh res); [|reflexivity].
    exfalso. pose proof (proj1 Hfresh eq_refl) as Hlt.
    vm_compute in Hlt. discriminate.
  - edestruct (get_rate_freshness (lib := Iso.lib) _init_currency_registry st_default
                 (t0 + seconds 299) (rates_fs only_eur_usd) "USD" "EUR" "USD" "EUR" _
                 (cache_entry 1.08 "2024-01-01T00:00:00" "ParserService") 1.08
                 "2024-01-01T00:00:00" (naive t0)
                 eq_refl eq_refl ltac:(repeat constructor) ltac:(repeat constructor)
                 ltac:(discriminate) eq_refl
                 ltac:(right; repeat split; reflexivity)
                 eq_refl eq_refl eq_refl ltac:(simpl; lia)) as (Hreport & Hreturns).
    destruct (Hreturns eq_refl) as (res & Hres).
    destruct (Hreport res Hres) as (_ & Hfresh).
    exists res. split; [exact Hres|]. apply Hfresh. reflexivity.
Defined.

(** C9 as stated fails on a triangulated rate: resolved 301 seconds after the
    refresh of the cache it is still reported fresh.  It also fails for a TTL
    so long that the seconds of the age are rounded up to it: with a TTL of
    [2^35] seconds, a direct rate one microsecond younger than the TTL is
    reported stale. *)
Lemma get_rate_freshness_counterexample :
  ¬ freshness_as_claimed (lib := Iso.lib) _init_currency_registry st_default
      (t0 + seconds 301) (rates_fs crypto_in_usd) "BTC" "ETH" ∧
  ¬ freshness_as_claimed (lib := Iso.lib) _init_currency_registry st_long_ttl
      (t0 + seconds (2 ^ 35) - 1) (rates_fs only_eur_usd) "EUR" "USD".
Proof.
  split; intros Hclaim.
  - destruct (Hclaim {| res_from_code := "BTC"; res_to_code := "ETH";
                        res_rate := JNum (59337.21 / 3720);
                        res_reverse_rate := JNum (1 / (59337.21 / 3720));
                        res_updated_at := JStr "2024-01-01T00:00:00";
                        res_source := Some (JStr "calculated");
                        res_fresh := true |}
               "2024-01-01T00:00:00" (naive t0)) as [Hlt _];
      [vm_compute; reflexivity | reflexivity | reflexivity |].
    specialize (Hlt eq_refl). vm_compute in Hlt. discriminate.
  - destruct (Hclaim {| res_from_code := "EUR"; res_to_code := "USD";
                        res_rate := JNum 1.08;
                        res_reverse_rate := JNum (1 / 1.08);
                        res_updated_at := JStr "2024-01-01T00:00:00";
                        res_source := Some (JStr "ParserService");
                        res_fresh := false |}
               "2024-01-01T00:00:00" (naive t0)) as [_ Hfresh];
      [vm_compute; reflexivity | reflexivity | reflexivity |].
    specialize (Hfresh eq_refl). discriminate.
Qed.

(** A stored timestamp in the [Z] notation parses to an aware value, and the
    resolver raises [TypeError] on the pair that carries it. *)
Example get_rate_zulu_timestamp :
  parse_datetime (lib := Iso.lib) (JStr "2024-01-01T00:00:00Z") =
    Some {| wall_us := t0; utcoffset := Some 0%Z |} ∧
  get_rate (lib := Iso.lib) _init_currency_registry st_default (t0 + seconds 60)
    (rates_fs zulu_eur_usd) "EUR" "USD" = Raise TypeError ∧
  get_rate (lib := Iso.lib) _init_currency_registry st_default (t0 + seconds 60)
    (rates_fs zulu_eur_usd) "USD" "EUR" = Raise TypeError.
Proof. repeat split; vm_compute; reflexivity. Qed.

(** ** Dicts *)

Section dicts.
Context {A : Type}.
Implicit Types (d : list (string * A)) (k : string) (v : A).

Lemma dict_get_set_eq k v d : dict_get k (dict_set k v d) = Some v.
Proof.
  induction d as [|[k' v'] d IH]; simpl.
  - by rewrite String.eqb_refl.
  - destruct (String.eqb k' k) eqn:Hk; simpl; rewrite Hk; [done|exact IH].
Qed.

Lemma dict_get_set_ne k k' v d : k ≠ k' → dict_get k' (dict_set k v d) = dict_get k' d.
Proof.
  intros Hne. induction d as [|[k0 v0] d IH]; simpl.
  - by rewrite (eqb_ne k k' Hne).
  - destruct (String.eqb k0 k) eqn:Hk; simpl; [|by rewrite IH].
    apply String.eqb_eq in Hk as ->. by rewrite (eqb_ne k k' Hne).
Qed.

Lemma dict_get_absent k d : k ∉ d.*1 → dict_get k d = None.
Proof.
  induction d as [|[k' v'] d IH]; simpl; [done|].
  intros Hnotin. apply not_elem_of_cons in Hnotin as [Hne Hnotin].
  rewrite (eqb_ne k' k) by done. by apply IH.
Qed.

Lemma dict_set_not_nil k v d : is_nil (dict_set k v d) = false.
Proof. destruct d as [|[k' v'] d]; simpl; [done|]. by destruct (String.eqb k' k). Qed.

Lemma dict_update_nil d other :
  is_nil (dict_update d other) = is_nil d && is_nil other.
Proof.
  unfold dict_update. destruct other as [|[k v] other]; simpl.
  - by rewrite andb_true_r.
  - rewrite andb_false_r.
    assert (∀ acc, is_nil acc = false →
              is_nil (foldl (λ acc kv, dict_set kv.1 kv.2 acc) acc other) = false) as Hkeep.
    { induction other as [|[k' v'] other IH]; simpl; [done|].
      intros acc _. apply IH, dict_set_not_nil. }
    apply Hkeep, dict_set_not_nil.
Qed.
End dicts.

(** ** The storage *)

Lemma _write_json_staging filepath data w temp_path partial e :
  os w 0 = StagingRaises temp_path partial e →
  files w !! temp_path = None →
  _write_json filepath data w = (Raise e, {| files := files w; os := λ n, os w (S n) |}).
Proof.
  intros Hos Hfresh. unfold _write_json. rewrite Hos.
  assert (unlink_if_exists temp_path (<[temp_path:=Garbage partial]> (files w)) = files w)
    as ->; [|done].
  unfold unlink_if_exists. rewrite decide_True by (rewrite lookup_insert_eq; eauto).
  by apply delete_insert_id.
Qed.

(** C3. When staging fails in [_write_json] (serialising or writing the
    temporary file raises), with the temporary name fresh as [mkstemp] makes
    it, the exception reaches the caller, the temporary file is gone and the
    files are what they were before the call. *)
Theorem _write_json_staging_failure filepath data w temp_path partial e :
  os w 0 = StagingRaises temp_path partial e →
  files w !! temp_path = None →
  (_write_json filepath data w).1 = Raise e ∧
  files (_write_json filepath data w).2 = files w ∧
  files (_write_json filepath data w).2 !! temp_path = None ∧
  files (_write_json filepath data w).2 !! filepath = files w !! filepath.
Proof.
  intros Hos Hfresh. by rewrite (_write_json_staging _ _ _ _ _ _ Hos Hfresh).
Qed.

Lemma _write_json_written filepath data w temp_path :
  os w 0 = Written temp_path →
  (_write_json filepath data w).1 = Ok () ∧
  files (_write_json filepath data w).2 !! filepath = Some (Json data) ∧
  os (_write_json filepath data w).2 = (λ n, os w (S n)).
Proof.
  intros Hos. unfold _write_json. rewrite Hos. simpl. by rewrite lookup_insert_eq.
Qed.

(** What a completed write leaves under any path: the old file, no file, or
    the written document. *)
Lemma _write_json_written_read filepath data w temp_path q :
  os w 0 = Written temp_path →
  _read_json (files (_write_json filepath data w).2) q = _read_json (files w) q ∨
  _read_json (files (_write_json filepath data w).2) q = JNull ∨
  _read_json (files (_write_json filepath data w).2) q = data.
Proof.
  intros Hos. unfold _write_json, _read_json. rewrite Hos. simpl.
  destruct (decide (filepath = q)) as [->|Hq].
  - rewrite lookup_insert_eq. auto.
  - rewrite lookup_insert_ne by done.
    destruct (decide (temp_path = q)) as [->|Ht].
    + rewrite lookup_delete_eq. auto.
    + rewrite lookup_delete_ne, lookup_insert_ne by done. auto.
Qed.

Lemma id_exists_found record_id history existing existing_id :
  existing ∈ history →
  py_get existing "id" JNull = Ok existing_id →
  py_eq existing_id record_id = true →
  id_exists record_id history ≠ Ok false.
Proof.
  intros Hin Hid Heq. induction history as [|head rest IH]; [by apply elem_of_nil in Hin|].
  simpl. destruct (py_get head "id" JNull) as [head_id|] eqn:Hhead; [|done].
  rewrite bind_Ok. destruct (py_eq head_id record_id) eqn:Hpy; [done|].
  apply IH. apply elem_of_cons in Hin as [->|]; [|done].
  rewrite Hid in Hhead. injection Hhead as ->. congruence.
Qed.

Lemma id_exists_returns record_id history :
  Forall (λ record, is_dict record = true) history →
  ∃ found, id_exists record_id history = Ok found.
Proof.
  induction 1 as [|head rest Hhead _ IH]; simpl; [eauto|].
  destruct head; try discriminate. rewrite py_get_dict, bind_Ok.
  destruct (py_eq _ _); eauto.
Qed.

(** C7 (amended). A record whose id is truthy and equals the id of a record
    already in the log is dropped: nothing is written, so the history keeps
    its length and its records; on a log whose records are dicts the call
    returns normally. *)
Theorem add_history_record_idempotent st record w record_id existing existing_id :
  dict_get "id" record = Some record_id →
  truthy record_id = true →
  existing ∈ get_history st (files w) →
  py_get existing "id" JNull = Ok existing_id →
  py_eq existing_id record_id = true →
  (add_history_record st record w).2 = w ∧
  (Forall (λ stored, is_dict stored = true) (get_history st (files w)) →
   add_history_record st record w = (Ok (), w)).
Proof.
  intros Hid Htruthy Hin Hexisting Heq.
  pose proof (id_exists_found record_id _ _ _ Hin Hexisting Heq) as Hfound.
  unfold add_history_record, mbind, M_bind, read, lift. simpl.
  rewrite Hid. simpl. rewrite Htruthy.
  destruct (id_exists record_id (get_history st (files w))) as [[|]|err] eqn:Hscan;
    [| done |].
  - split; [done|]. done.
  - split; [done|]. intros Hdicts.
    destruct (id_exists_returns record_id _ Hdicts) as [found Hok]. congruence.
Qed.

Lemma get_history_written st history w temp_path :
  os w 0 = Written temp_path →
  get_history st (files (_write_json (exchange_rates_file st) (JArr history) w).2) = history.
Proof.
  intros Hos. destruct (_write_json_written (exchange_rates_file st) (JArr history) w _ Hos)
    as (_ & Hfile & _).
  unfold get_history, _read_json. by rewrite Hfile.
Qed.

(** C10. A record whose id is absent, [None] or otherwise falsy skips the
    duplicate scan: the call is the write of the history with the record
    appended, whatever the history holds, and once the write completes the
    record is the last of the log. *)
Theorem add_history_record_without_id st record w :
  truthy (default JNull (dict_get "id" record)) = false →
  add_history_record st record w =
    _write_json (exchange_rates_file st)
      (JArr (get_history st (files w) ++ [JObj record])) w ∧
  (∀ temp_path, os w 0 = Written temp_path →
     (add_history_record st record w).1 = Ok () ∧
     get_history st (files (add_history_record st record w).2) =
       get_history st (files w) ++ [JObj record]).
Proof.
  intros Hfalsy.
  assert (add_history_record st record w =
            _write_json (exchange_rates_file st)
              (JArr (get_history st (files w) ++ [JObj record])) w) as Hwrite.
  { unfold add_history_record, mbind, M_bind, read, lift. simpl. by rewrite Hfalsy. }
  split; [done|]. intros temp_path Hos. rewrite Hwrite.
  split; [by apply (_write_json_written _ _ _ _ Hos)|by eapply get_history_written].
Qed.

(** The ids that take part in the duplicate scan stay distinct: on a log of
    dicts with distinct truthy ids, a completed [add_history_record] leaves
    such a log, whatever the id of the new record. *)
Lemma add_history_record_distinct_ids st record w temp_path :
  os w 0 = Written temp_path →
  dict_records (get_history st (files w)) →
  distinct_ids (get_history st (files w)) →
  (add_history_record st record w).1 = Ok () ∧
  distinct_ids (get_history st (files (add_history_record st record w).2)).
Proof.
  intros Hos Hdicts Hdistinct.
  destruct (id_exists_returns (default JNull (dict_get "id" record)) _ Hdicts)
    as [found Hscan].
  unfold add_history_record, mbind, M_bind, read, lift. simpl.
  destruct (truthy (default JNull (dict_get "id" record))) eqn:Htruthy.
  - rewrite Hscan. destruct found; [done|].
    destruct (_write_json_written (exchange_rates_file st)
                (JArr (get_history st (files w) ++ [JObj record])) w _ Hos) as (-> & _).
    split; [done|]. rewrite (get_history_written _ _ _ _ Hos).
    intros n stored Hn Hid.
    destruct (decide (n < length (get_history st (files w)))) as [Hlt|Hge].
    + rewrite lookup_app_l in Hn by done. rewrite take_app_le by lia. by apply Hdistinct.
    + rewrite lookup_app_r in Hn by lia.
      apply list_lookup_singleton_Some in Hn as [Hlen [= <-]].
      assert (n = length (get_history st (files w))) as -> by lia.
      by rewrite take_app_length.
  - destruct (_write_json_written (exchange_rates_file st)
                (JArr (get_history st (files w) ++ [JObj record])) w _ Hos) as (-> & _).
    split; [done|]. rewrite (get_history_written _ _ _ _ Hos).
    intros n stored Hn Hid.
    destruct (decide (n < length (get_history st (files w)))) as [Hlt|Hge].
    + rewrite lookup_app_l in Hn by done. rewrite take_app_le by lia. by apply Hdistinct.
    + rewrite lookup_app_r in Hn by lia.
      apply list_lookup_singleton_Some in Hn as [Hlen [= <-]]. congruence.
Qed.

Section cache.
Context {lib : DatetimeLib}.

Lemma store_rates_dict rates current_time source pairs :
  ∃ pairs', store_rates rates current_time source (JObj pairs) = Ok (JObj pairs') ∧
    (∀ key, dict_get key rates = None → dict_get key pairs' = dict_get key pairs) ∧
    (NoDup rates.*1 → ∀ key rate, dict_get key rates = Some rate →
       dict_get key pairs' = Some (cache_entry rate current_time source)).
Proof.
  revert pairs. induction rates as [|[k r] rates IH]; intros pairs.
  - exists pairs. split; [done|]. split; [done|]. intros _ key rate [=].
  - change (store_rates ((k, r) :: rates) current_time source (JObj pairs))
      with (store_rates rates current_time source
              (JObj (dict_set k (cache_entry r current_time source) pairs))).
    simpl dict_get.
    destruct (IH (dict_set k (cache_entry r current_time source) pairs))
      as (pairs' & -> & Hkeep & Hnew).
    exists pairs'. split; [done|]. split.
    + intros key Hkey. destruct (String.eqb k key) eqn:Hk; [done|].
      apply String.eqb_neq in Hk. by rewrite (Hkeep key Hkey), dict_get_set_ne.
    + intros [Hfirst Hrest]%NoDup_cons key rate Hkey.
      destruct (String.eqb k key) eqn:Hk.
      * apply String.eqb_eq in Hk as <-. injection Hkey as <-.
        by rewrite (Hkeep k (dict_get_absent k rates Hfirst)), dict_get_set_eq.
      * by apply Hnew.
Qed.


(** State unchanged on error, seen from [save_rates_cache]: a cache write
    whose staging fails raises and leaves every file as it was. *)
Lemma save_rates_cache_staging_failure st now rates source w temp_path partial e :
  os w 0 = StagingRaises temp_path partial e →
  files w !! temp_path = None →
  ∃ e', (save_rates_cache st now rates source w).1 = Raise e' ∧
        files (save_rates_cache st now rates source w).2 = files w.
Proof.
  intros Hos Hfresh.
  unfold save_rates_cache, mbind, M_bind, read, lift. simpl.
  destruct (py_get _ _ _) as [pairs|]; [|by eauto].
  destruct (store_rates _ _ _ _) as [pairs'|]; [|by eauto].
  destruct (py_setitem _ "pairs" _) as [c1|]; [|by eauto].
  destruct (py_setitem c1 _ _) as [c2|]; [|by eauto].
  destruct (py_setitem c2 _ _) as [c3|]; [|by eauto].
  exists e. by rewrite (_write_json_staging (rates_file st) c3 w _ _ _ Hos Hfresh).
Qed.
End cache.

(** ** The update cycle *)

Lemma poll_fold sources clients acc :
  is_nil (all_rates (foldl (poll_client sources) acc clients)) =
    is_nil (all_rates acc) && negb (any_rate sources clients) ∧
  is_nil (poll_errors (foldl (poll_client sources) acc clients)) =
    is_nil (poll_errors acc) && negb (any_failed sources clients) ∧
  poll_success (foldl (poll_client sources) acc clients) =
    poll_success acc && negb (any_failed sources clients).
Proof.
  revert acc. induction clients as [|c clients IH]; intros acc; simpl.
  { by rewrite !andb_true_r. }
  destruct (IH (poll_client sources acc c)) as (-> & -> & ->).
  unfold poll_client, any_rate, any_failed, failed, produced_rates. simpl.
  destruct (selected sources c); simpl; [|done].
  destruct (fetch_rates c) as [rates| |]; simpl.
  - rewrite dict_update_nil. by destruct rates, (is_nil (all_rates acc)).
  - rewrite !andb_false_r. split; [done|]. split; [|done]. by destruct (poll_errors acc).
  - rewrite !andb_false_r. split; [done|]. split; [|done]. by destruct (poll_errors acc).
Qed.

Lemma poll_clients_facts sources clients :
  is_nil (all_rates (poll_clients sources clients)) = negb (any_rate sources clients) ∧
  is_nil (poll_errors (poll_clients sources clients)) = negb (any_failed sources clients) ∧
  poll_success (poll_clients sources clients) = negb (any_failed sources clients).
Proof. apply poll_fold. Qed.

Lemma any_rate_none sources clients :
  (∀ c rates, c ∈ clients → selected sources c = true →
              fetch_rates c = Fetched rates → rates = []) →
  any_rate sources clients = false.
Proof.
  intros Hnone. unfold any_rate. apply not_true_is_false.
  intros (c & Hin%list_elem_of_In & [Hsel Hprod]%andb_true_iff)%existsb_exists.
  unfold produced_rates in Hprod.
  destruct (fetch_rates c) as [[|]| |] eqn:Hfetch; try discriminate.
  by specialize (Hnone c _ Hin Hsel Hfetch).
Qed.

Lemma length_nil {A} (l : list A) : is_nil l = true → length l = 0.
Proof. by destruct l. Qed.

Section cycle.
Context {lib : DatetimeLib}.

Lemma report_status clk sources clients total :
  success (report clk (poll_clients sources clients) total) =
    status_value (reported_status sources clients).
Proof.
  destruct (poll_clients_facts sources clients) as (Hr & He & Hs).
  unfold report, reported_status. simpl. rewrite Hr, He, Hs.
  by destruct (any_rate sources clients), (any_failed sources clients).
Qed.

(** A cycle that obtained no rate returns without touching the world. *)
Lemma run_update_idle st clk clients sources w :
  any_rate sources clients = false →
  run_update st clk clients sources w =
    (Ok (report clk (poll_clients sources clients) 0), w).
Proof.
  intros Hnone. destruct (poll_clients_facts sources clients) as (Hr & _).
  unfold run_update, report. rewrite Hr, Hnone. reflexivity.
Qed.

(** A cycle that returns reports [report], with the number of merged rates. *)
Lemma run_update_reports st clk clients sources w res w' :
  run_update st clk clients sources w = (Ok res, w') →
  res = report clk (poll_clients sources clients)
          (length (all_rates (poll_clients sources clients))).
Proof.
  destruct (is_nil (all_rates (poll_clients sources clients))) eqn:Hnil.
  - destruct (poll_clients_facts sources clients) as (Hr & _).
    rewrite Hnil in Hr. symmetry in Hr. apply negb_true_iff in Hr.
    rewrite (run_update_idle st clk clients sources w Hr).
    intros [= <- _]. by rewrite (length_nil _ Hnil).
  - unfold run_update, report, mbind, M_bind, mret, M_ret. rewrite Hnil. simpl.
    destruct (save_rates_cache _ _ _ _ _) as [[[]|e1] w1]; [|done].
    destruct (save_rates_to_history _ _ _ _ _ _) as [[[]|e2] w2]; [|done].
    by intros [= <- _].
Qed.

(** A cycle raises only out of the persist step. *)
Lemma run_update_raises st clk clients sources w e w' :
  run_update st clk clients sources w = (Raise e, w') →
  any_rate sources clients = true.
Proof.
  destruct (any_rate sources clients) eqn:Hany; [done|].
  by rewrite (run_update_idle st clk clients sources w Hany).
Qed.
End cycle.

(** ** The persist step returns when the operating system cooperates *)

Lemma _write_json_cooperates filepath data w :
  os_cooperates w →
  ∃ w', _write_json filepath data w = (Ok (), w') ∧ os_cooperates w' ∧
        files w' !! filepath = Some (Json data) ∧
        ∀ q, _read_json (files w') q = _read_json (files w) q ∨
             _read_json (files w') q = JNull ∨ _read_json (files w') q = data.
Proof.
  intros Hos. destruct (Hos 0) as [temp_path Hfirst].
  pose proof (_write_json_written filepath data w _ Hfirst) as (Hok & Hfile & Hrest).
  pose proof (_write_json_written_read filepath data w temp_path) as Hread.
  destruct (_write_json filepath data w) as [r w'] eqn:Hwrite. simpl in *. subst r.
  exists w'. split; [done|]. split; [|by eauto].
  intros n. rewrite Hrest. apply (Hos (S n)).
Qed.

Lemma add_history_record_returns st record w :
  os_cooperates w → dict_records (get_history st (files w)) →
  ∃ w', add_history_record st record w = (Ok (), w') ∧ os_cooperates w' ∧
        dict_records (get_history st (files w')).
Proof.
  intros Hos Hdicts. unfold add_history_record, mbind, M_bind, read, lift. simpl.
  assert (∃ found,
            (if truthy (default JNull (dict_get "id" record))
             then id_exists (default JNull (dict_get "id" record))
                    (get_history st (files w))
             else Ok false) = Ok found) as [found ->].
  { destruct (truthy _); [by apply id_exists_returns|eauto]. }
  destruct found; [by exists w|].
  destruct (_write_json_cooperates (exchange_rates_file st)
              (JArr (get_history st (files w) ++ [JObj record])) w Hos)
    as (w' & -> & Hos' & Hfile & _).
  exists w'. split; [done|]. split; [done|].
  unfold get_history at 1, _read_json. rewrite Hfile.
  apply Forall_app. split; [done|]. by constructor.
Qed.

Lemma append_rates_returns st rates timestamp source meta w :
  os_cooperates w → dict_records (get_history st (files w)) →
  ∃ w', append_rates st rates timestamp source meta w = (Ok (), w').
Proof.
  revert w. induction rates as [|[pair_ rate] rates IH]; intros w Hos Hdicts; simpl.
  { by exists w. }
  destruct (split "_" pair_) as [|from_code [|to_code [|]]]; [by apply IH..| |by apply IH].
  destruct (add_history_record_returns st
              (history_record pair_ from_code to_code rate timestamp source meta) w
              Hos Hdicts) as (w1 & Hadd & Hos1 & Hdicts1).
  destruct (IH w1 Hos1 Hdicts1) as (w' & Happend).
  exists w'. unfold mbind, M_bind. by rewrite Hadd.
Qed.

Section persist.
Context {lib : DatetimeLib}.

Lemma save_rates_cache_returns st now rates source w :
  os_cooperates w → stores_well_formed st (files w) →
  ∃ w', save_rates_cache st now rates source w = (Ok (), w') ∧ os_cooperates w' ∧
        dict_records (get_history st (files w')).
Proof.
  intros Hos [(cache & Hcache & Hpairs) Hdicts].
  destruct (default (JObj []) (dict_get "pairs" cache)) as [| | | | |pairs] eqn:Hp;
    try discriminate.
  destruct (store_rates_dict rates (isoformat now) source pairs) as (pairs' & Hstore & _).
  unfold save_rates_cache, mbind, M_bind, read, lift. simpl.
  rewrite Hcache. simpl. rewrite Hp, Hstore. simpl.
  match goal with |- context [_write_json ?p ?d w] =>
    destruct (_write_json_cooperates p d w Hos) as (w' & -> & Hos' & _ & Hread)
  end.
  exists w'. split; [done|]. split; [done|].
  unfold dict_records, get_history.
  destruct (Hread (exchange_rates_file st)) as [-> | [-> | ->]]; [done|constructor..].
Qed.

Lemma run_update_returns st clk clients sources w :
  os_cooperates w → stores_well_formed st (files w) →
  ∃ res w', run_update st clk clients sources w = (Ok res, w').
Proof.
  intros Hos Hwf. unfold run_update.
  destruct (is_nil (all_rates (poll_clients sources clients))); simpl; [by eauto|].
  destruct (save_rates_cache_returns st (cache_time clk)
              (all_rates (poll_clients sources clients)) "ParserService" w Hos Hwf)
    as (w1 & Hsave & Hos1 & Hdicts1).
  destruct (append_rates_returns st (all_rates (poll_clients sources clients))
              (isoformat (history_utcnow clk) +:+ "Z") "ParserService" JNull w1
              Hos1 Hdicts1) as (w2 & Happend).
  unfold mbind, M_bind, save_rates_to_history. rewrite Hsave, Happend. by eauto.
Qed.

(** C1 (amended). Every cycle that returns reports [True] when no selected
    client failed (whether or not a rate was produced), ["partial"] when a
    selected client failed and at least one rate was produced, and [False]
    when a selected client failed and no rate was produced; it also reports the
    number of merged rates and the error lines.  A cycle that produced no rate
    always returns, and so does every cycle on well-formed stores when the
    operating system completes the writes. *)
Theorem run_update_status st clk clients sources w :
  (∀ res w', run_update st clk clients sources w = (Ok res, w') →
     success res = status_value (reported_status sources clients) ∧
     total_rates res = length (all_rates (poll_clients sources clients)) ∧
     errors res = poll_errors (poll_clients sources clients)) ∧
  (any_rate sources clients = false →
     ∃ res, run_update st clk clients sources w = (Ok res, w)) ∧
  (os_cooperates w → stores_well_formed st (files w) →
     ∃ res w', run_update st clk clients sources w = (Ok res, w')).
Proof.
  split; [|split].
  - intros res w' ->%run_update_reports. by rewrite report_status.
  - intros Hnone. rewrite (run_update_idle st clk clients sources w Hnone). eauto.
  - apply run_update_returns.
Qed.

(** C2. A cycle in which no selected client returns a rate (all of them fail
    or return empty maps) writes nothing: it returns, with no rate counted,
    and the world, the cache document and the history log in it, is what it
    was before the cycle. *)
Theorem run_update_without_rates st clk clients sources w :
  (∀ c rates, c ∈ clients → selected sources c = true →
              fetch_rates c = Fetched rates → rates = []) →
  ∃ res, run_update st clk clients sources w = (Ok res, w) ∧
         total_rates res = 0 ∧
         success res = JBool (negb (any_failed sources clients)).
Proof.
  intros Hnone%any_rate_none.
  rewrite (run_update_idle st clk clients sources w Hnone).
  eexists. split; [reflexivity|]. split; [reflexivity|].
  rewrite report_status. unfold reported_status. rewrite Hnone.
  by destruct (any_failed sources clients).
Qed.
End persist.

(** ** The storage and the cycle on the sample worlds *)

Lemma _write_json_staging_failure_witness :
  (_write_json "data/rates.json" crypto_in_usd
     (world_of (rates_fs only_eur_usd) disk_full)).1 =
    Raise (OSError "No space left on device") ∧
  files (_write_json "data/rates.json" crypto_in_usd
           (world_of (rates_fs only_eur_usd) disk_full)).2 = rates_fs only_eur_usd.
Proof.
  destruct (_write_json_staging_failure "data/rates.json" crypto_in_usd
              (world_of (rates_fs only_eur_usd) disk_full)
              "data/tmpk3v9x1.tmp" "{" (OSError "No space left on device")
              eq_refl eq_refl) as (Hraise & Hfiles & _).
  split; assumption.
Defined.

Lemma add_history_record_idempotent_witness :
  add_history_record st_default eur_record
    (world_of (history_fs [JObj anonymous_record; JObj eur_record]) all_written) =
    (Ok (), world_of (history_fs [JObj anonymous_record; JObj eur_record]) all_written).
Proof.
  apply (add_history_record_idempotent st_default eur_record
           (world_of (history_fs [JObj anonymous_record; JObj eur_record]) all_written)
           (JStr "EUR_USD_2024-01-01T00:00:00Z") (JObj eur_record)
           (JStr "EUR_USD_2024-01-01T00:00:00Z")
           eq_refl eq_refl ltac:(repeat constructor) eq_refl eq_refl).
  repeat constructor.
Defined.

(** C7 as stated fails on an empty id: the stored record and the new one both
    carry the id [""], and the new one is appended. *)
Lemma add_history_record_idempotent_counterexample :
  ¬ reingestion_as_claimed st_default empty_id_record
      (world_of (history_fs [JObj empty_id_record]) all_written).
Proof.
  intros Hclaim.
  specialize (Hclaim (JObj empty_id_record) (JStr "")
                ltac:(repeat constructor) eq_refl eq_refl).
  vm_compute in Hclaim. discriminate.
Qed.

Lemma add_history_record_without_id_witness :
  get_history st_default
    (files (add_history_record st_default anonymous_record
              (world_of (history_fs [JObj anonymous_record]) all_written)).2) =
    [JObj anonymous_record; JObj anonymous_record].
Proof.
  apply (proj2 (add_history_record_without_id st_default anonymous_record
                  (world_of (history_fs [JObj anonymous_record]) all_written) eq_refl)
           "data/tmpk3v9x1.tmp" eq_refl).
Defined.



(** The same save seen through the resolver: EUR to USD is answered from the
    flat document before the save and is unavailable after it. *)
Example get_rate_after_save_on_flat_cache :
  (∃ res, get_rate (lib := Iso.lib) _init_currency_registry st_default
            (t0 + seconds 3600) (rates_fs legacy_flat) "EUR" "USD" = Ok res ∧
          res_rate res = JNum 1.08) ∧
  get_rate (lib := Iso.lib) _init_currency_registry st_default (t0 + seconds 3600)
    (files (save_rates_cache (lib := Iso.lib) st_default (t0 + seconds 3600)
              [("BTC_USD", 59337.21%float)] "CoinGecko"
              (world_of (rates_fs legacy_flat) all_written)).2) "EUR" "USD" =
    Raise (unavailable "EUR" "USD").
Proof. split; [eexists; split|]; vm_compute; reflexivity. Qed.

Lemma run_update_without_rates_witness :
  ∃ res,
    run_update (lib := Iso.lib) st_default sample_clock
      [coingecko_down; exchangerate_down] None
      (world_of (both_fs only_eur_usd [JObj eur_record]) all_written) =
      (Ok res, world_of (both_fs only_eur_usd [JObj eur_record]) all_written) ∧
    total_rates res = 0 ∧ success res = JBool false.
Proof.
  apply (run_update_without_rates (lib := Iso.lib) st_default sample_clock
           [coingecko_down; exchangerate_down] None).
  intros c rates Hin _ Hfetch.
  apply elem_of_cons in Hin as [-> | Hin]; [discriminate|].
  apply elem_of_cons in Hin as [-> | Hin]; [discriminate|].
  by apply elem_of_nil in Hin.
Defined.

(** One of two sources raises and the other returns five pairs. *)
Lemma run_update_status_witness :
  ∃ res w',
    run_update (lib := Iso.lib) st_default sample_clock
      [coingecko_mock; exchangerate_down] None
      (world_of (both_fs only_eur_usd []) all_written) = (Ok res, w') ∧
    success res = JStr "partial" ∧ total_rates res = 5 ∧ length (errors res) = 1.
Proof.
  destruct (run_update_status (lib := Iso.lib) st_default sample_clock
              [coingecko_mock; exchangerate_down] None
              (world_of (both_fs only_eur_usd []) all_written))
    as (Hreport & _ & Hreturns).
  destruct Hreturns as (res & w' & Hrun).
  { intros n. by exists "data/tmpk3v9x1.tmp". }
  { split; [|constructor]. eexists. split; reflexivity. }
  destruct (Hreport res w' Hrun) as (Hstatus & Htotal & Herrors).
  exists res, w'. rewrite Hstatus, Htotal, Herrors. repeat split; try assumption.
Defined.

(** C1 as stated fails when the filter selects no client: no rate is produced,
    the rule of the specification says failure, and the cycle reports
    [True]. *)
Lemma run_update_status_counterexample :
  ¬ status_as_claimed (lib := Iso.lib) st_default sample_clock
      [coingecko_mock; exchangerate_down] (Some ["kraken"])
      (world_of (both_fs only_eur_usd []) all_written).
Proof.
  intros Hclaim.
  specialize (Hclaim _ _ (run_update_idle (lib := Iso.lib) st_default sample_clock
                            [coingecko_mock; exchangerate_down] (Some ["kraken"])
                            (world_of (both_fs only_eur_usd []) all_written) eq_refl)).
  vm_compute in Hclaim. discriminate.
Qed.

(** * Further properties *)

(** ** Codes and pair keys *)

Lemma matches_code_length code :
  matches_code code = true → 2 ≤ String.length code ≤ 5.
Proof.
  unfold matches_code. intros [[H1 H2]%andb_true_iff _]%andb_true_iff.
  apply Nat.leb_le in H1, H2. lia.
Qed.

(** X1. A code that [validate_currency_code] accepts comes back in normal
    form: upper-cased and stripped, two to five letters A-Z, and validating
    it again returns it unchanged. *)
Theorem validate_currency_code_normal_form code C :
  validate_currency_code code = Ok C →
  C = strip (upper code) ∧
  2 ≤ String.length C ≤ 5 ∧
  string_forallb is_upper_AZ C = true ∧
  validate_currency_code C = Ok C.
Proof.
  intros Hv. pose proof (validate_currency_code_matches _ _ Hv) as Hm.
  pose proof (matches_code_letters _ Hm) as Hletters.
  pose proof (matches_code_length _ Hm) as Hlen.
  split; [|split; [done|split; [done|]]].
  - unfold validate_currency_code in Hv. destruct (_ || _); [done|].
    destruct (negb _); [done|]. by injection Hv.
  - unfold validate_currency_code.
    assert (strip C = C) as ->.
    { unfold strip. by rewrite (lstrip_fixed _ Hletters), (rstrip_fixed _ Hletters). }
    assert (String.eqb C "" = false) as ->.
    { destruct C; [simpl in Hlen; lia|done]. }
    simpl. by rewrite (normalized_fixed _ Hm), Hm.
Qed.

Lemma validate_currency_code_normal_form_witness :
  validate_currency_code "  btc " = Ok "BTC" ∧ validate_currency_code "BTC" = Ok "BTC".
Proof.
  split; [reflexivity|].
  apply (validate_currency_code_normal_form "  btc " "BTC" eq_refl).
Defined.






(** ** Division in the resolvers *)

Lemma bind_Raise {A B} (r : result A) (f : A → result B) e :
  (r ≫= f) = Raise e → r = Raise e ∨ ∃ a, r = Ok a ∧ f a = Raise e.
Proof. destruct r as [a|e']; simpl; [by eauto|]. intros [= ->]. by left. Qed.

Lemma py_truediv_guarded a b e :
  truthy b = true → py_truediv a b = Raise e → e = TypeError.
Proof.
  unfold py_truediv. destruct (as_number a) as [x|]; [|by intros _ [= <-]].
  destruct b as [| [|] |y| | |]; simpl; try by intros _ [= <-].
  - done.
  - intros ->%negb_true_iff. done.
Qed.

Lemma py_truediv_numeric a b :
  is_numeric a = true → truthy a = true → is_numeric b = true → truthy b = true →
  ∃ q, py_truediv a b = Ok (JNum q).
Proof.
  unfold py_truediv.
  destruct a as [| [|] |x| | |]; try discriminate;
    destruct b as [| [|] |y| | |]; try discriminate; simpl; intros _ _ _ Hb;
    try (apply negb_true_iff in Hb; rewrite Hb); eauto.
Qed.

Lemma inverse_or_none_raises rate e :
  inverse_or_none rate = Raise e → e = TypeError.
Proof.
  unfold inverse_or_none. destruct (truthy rate) eqn:Ht; [|done].
  by apply py_truediv_guarded.
Qed.

Lemma numeric_rate_of rates key rate_data :
  numeric_rates rates → dict_get key rates = Some rate_data →
  is_numeric (rate_of rate_data) = true.
Proof.
  induction 1 as [|[k v] rates Hv _ IH]; simpl; [done|].
  destruct (String.eqb k key); [by intros [= <-]|exact IH].
Qed.

Lemma numeric_from_option rates key :
  numeric_rates rates → is_numeric (from_option rate_of JNull (dict_get key rates)) = true.
Proof.
  intros Hn. destruct (dict_get key rates) as [rate_data|] eqn:Hk; [|done].
  by apply (numeric_rate_of rates key).
Qed.

(** On the documents of the model, whose numbers are floats, the only
    exception of [calculate_rate] is the [TypeError] of a division by a value
    that is not a number. *)
Lemma calculate_rate_raises from_code to_code rates e :
  calculate_rate from_code to_code rates = Raise e → e = TypeError.
Proof.
  unfold calculate_rate. destruct (String.eqb _ _); [done|].
  destruct (dict_get (pair_key (upper from_code) (upper to_code)) rates); [done|].
  assert (∀ r : result json,
            (if negb (String.eqb (upper from_code) "USD") &&
                negb (String.eqb (upper to_code) "USD")
             then
               let from_rate := from_option rate_of JNull
                 (dict_get (pair_key (upper from_code) "USD") rates) in
               let to_rate := from_option rate_of JNull
                 (dict_get (pair_key (upper to_code) "USD") rates) in
               if truthy from_rate && truthy to_rate && py_ne_zero to_rate
               then py_truediv from_rate to_rate else Ok JNull
             else Ok JNull) = r → r = Raise e → e = TypeError) as Hvia.
  { intros r <-. destruct (negb _ && negb _); [|done]. cbv zeta.
    destruct (truthy _ && truthy _ && py_ne_zero _) eqn:Hguard; [|done].
    apply andb_true_iff in Hguard as [[_ Hto]%andb_true_iff _].
    by apply py_truediv_guarded. }
  destruct (dict_get (pair_key (upper to_code) (upper from_code)) rates) as [rate_data|].
  - cbv zeta. destruct (truthy (rate_of rate_data) && py_ne_zero (rate_of rate_data)) eqn:Hg.
    + apply andb_true_iff in Hg as [Ht _]. by apply py_truediv_guarded.
    + by apply Hvia.
  - by apply Hvia.
Qed.

(** X3. [calculate_rate] divides only by rates it has tested: whatever the
    table holds it never raises [ZeroDivisionError], and on a table whose
    rates are floats, bools or [None] it returns: a float, or [None] when no
    path gives a rate. *)
Theorem calculate_rate_division from_code to_code rates :
  calculate_rate from_code to_code rates ≠ Raise ZeroDivisionError ∧
  (numeric_rates rates →
   ∃ rate, calculate_rate from_code to_code rates = Ok rate ∧ is_numeric rate = true).
Proof.
  split; [by intros ?%calculate_rate_raises|].
  intros Hn. unfold calculate_rate. destruct (String.eqb _ _); [by eauto|].
  destruct (dict_get (pair_key (upper from_code) (upper to_code)) rates)
    as [direct|] eqn:Hdirect.
  { eexists. split; [done|]. by apply (numeric_rate_of rates _ _ Hn Hdirect). }
  assert (∃ rate,
            (if negb (String.eqb (upper from_code) "USD") &&
                negb (String.eqb (upper to_code) "USD")
             then
               let from_rate := from_option rate_of JNull
                 (dict_get (pair_key (upper from_code) "USD") rates) in
               let to_rate := from_option rate_of JNull
                 (dict_get (pair_key (upper to_code) "USD") rates) in
               if truthy from_rate && truthy to_rate && py_ne_zero to_rate
               then py_truediv from_rate to_rate else Ok JNull
             else Ok JNull) = Ok rate ∧ is_numeric rate = true) as Hvia.
  { destruct (negb _ && negb _); [|by eauto]. cbv zeta.
    destruct (truthy _ && truthy _ && py_ne_zero _) eqn:Hguard; [|by eauto].
    apply andb_true_iff in Hguard as [[Hfrom Hto]%andb_true_iff _].
    destruct (py_truediv_numeric _ _ (numeric_from_option rates _ Hn) Hfrom
                (numeric_from_option rates _ Hn) Hto) as [q ->].
    by eauto. }
  destruct (dict_get (pair_key (upper to_code) (upper from_code)) rates)
    as [reverse|] eqn:Hreverse; [|exact Hvia].
  cbv zeta. destruct (truthy (rate_of reverse) && py_ne_zero (rate_of reverse)) eqn:Hg;
    [|exact Hvia].
  apply andb_true_iff in Hg as [Ht _].
  destruct (py_truediv_numeric (JNum 1) (rate_of reverse) eq_refl eq_refl
              (numeric_rate_of rates _ _ Hn Hreverse) Ht) as [q ->].
  by eauto.
Qed.

Lemma calculate_rate_division_witness :
  ∃ rate, calculate_rate "usd" "eur" [("EUR_USD", JNum 0)] = Ok rate ∧
          is_numeric rate = true.
Proof.
  apply (proj2 (calculate_rate_division "usd" "eur" [("EUR_USD", JNum 0)])).
  repeat constructor.
Defined.

Lemma validate_currency_code_raises code e :
  validate_currency_code code = Raise e → ∃ msg, e = ValidationError msg.
Proof.
  unfold validate_currency_code. destruct (_ || _); [intros [= <-]; eauto|].
  destruct (negb _); [intros [= <-]; eauto|done].
Qed.

Lemma get_currency_raises registry code e :
  get_currency registry code = Raise e → e = CurrencyNotFoundError (strip (upper code)).
Proof. unfold get_currency. destruct (existsb _ _); [done|]. by intros [= <-]. Qed.

Lemma py_get_raises v k fallback e : py_get v k fallback = Raise e → e = AttributeError.
Proof. destruct v; simpl; try done; by intros [= <-]. Qed.

Section resolver_more.
Context {lib : DatetimeLib}.

Lemma is_rate_fresh_raises now updated_at ttl e :
  is_rate_fresh now updated_at ttl = Raise e → e = TypeError.
Proof.
  unfold is_rate_fresh. destruct updated_at; try done; try by intros [= <-].
  destruct (parse_datetime _) as [dt|]; [|done].
  unfold datetime_sub. simpl. destruct (utcoffset dt); [by intros [= <-]|done].
Qed.

(** On the documents of the model, the exceptions [get_rate] lets out. *)
Lemma get_rate_raises registry st now fs from_code to_code e :
  get_rate registry st now fs from_code to_code = Raise e →
  (∃ msg, e = ValidationError msg) ∨
  (∃ code, e = CurrencyNotFoundError code) ∨
  (∃ F T, validate_currency_code from_code = Ok F ∧
          validate_currency_code to_code = Ok T ∧ e = unavailable F T) ∨
  e = TypeError ∨ e = AttributeError.
Proof.
  intros H. unfold get_rate in H.
  apply bind_Raise in H as [H | (F & Hvf & H)];
    [left; by apply (validate_currency_code_raises from_code)|].
  apply bind_Raise in H as [H | (T & Hvt & H)];
    [left; by apply (validate_currency_code_raises to_code)|].
  apply bind_Raise in H as [H | (F' & _ & H)];
    [right; left; apply get_currency_raises in H; by eauto|].
  apply bind_Raise in H as [H | (T' & _ & H)];
    [right; left; apply get_currency_raises in H; by eauto|].
  destruct (String.eqb F T); [done|]. cbv zeta in H.
  apply bind_Raise in H as [H | (pairs & _ & H)];
    [apply py_get_raises in H; by auto|].
  apply bind_Raise in H as [H | (rate_info & _ & H)];
    [apply py_get_raises in H; by auto|].
  assert (∀ r : result rate_result,
            (rate ← match pairs with
                    | JObj d => calculate_rate F T d
                    | _ => Raise AttributeError
                    end;
             if truthy rate then
               reverse_rate ← inverse_or_none rate;
               last_refresh ← py_get (get_rates st fs) "last_refresh" JNull;
               Ok {| res_from_code := F; res_to_code := T;
                     res_rate := rate; res_reverse_rate := reverse_rate;
                     res_updated_at := last_refresh;
                     res_source := Some (JStr "calculated"); res_fresh := true |}
             else Raise (unavailable F T)) = r → r = Raise e →
            (∃ F T, validate_currency_code from_code = Ok F ∧
                    validate_currency_code to_code = Ok T ∧ e = unavailable F T) ∨
            e = TypeError ∨ e = AttributeError) as Hvia.
  { intros r <- Hr.
    apply bind_Raise in Hr as [Hr | (rate & _ & Hr)].
    { destruct pairs; try (injection Hr as <-; by auto).
      apply calculate_rate_raises in Hr. by auto. }
    destruct (truthy rate); [|injection Hr as <-; left; by eauto].
    apply bind_Raise in Hr as [Hr | (reverse_rate & _ & Hr)];
      [apply inverse_or_none_raises in Hr; by auto|].
    apply bind_Raise in Hr as [Hr | (last_refresh & _ & Hr)]; [|done].
    apply py_get_raises in Hr. by auto. }
  destruct (truthy rate_info).
  - apply bind_Raise in H as [H | (fresh & _ & H)];
      [apply is_rate_fresh_raises in H; by auto|].
    apply bind_Raise in H as [H | (reverse_rate & _ & H)]; [|done].
    apply inverse_or_none_raises in H. by auto.
  - apply bind_Raise in H as [H | (reverse_info & _ & H)];
      [apply py_get_raises in H; by auto|].
    right; right.
    destruct (truthy reverse_info); [|by eapply Hvia].
    destruct (truthy (rate_of reverse_info) && py_ne_zero (rate_of reverse_info)) eqn:Hg;
      [|by eapply Hvia].
    apply andb_true_iff in Hg as [Ht _].
    apply bind_Raise in H as [H | (rate & _ & H)];
      [apply (py_truediv_guarded _ _ _ Ht) in H; by auto|].
    apply bind_Raise in H as [H | (fresh & _ & H)]; [|done].
    apply is_rate_fresh_raises in H. by auto.
Qed.

(** X4. [RatesService.get_rate] never raises [ZeroDivisionError], whatever
    the codes and whatever the cache file holds: each of its divisions, and
    each division of [calculate_rate], follows a test of its divisor. *)
Theorem get_rate_no_zero_division registry st now fs from_code to_code :
  get_rate registry st now fs from_code to_code ≠ Raise ZeroDivisionError.
Proof.
  intros H. apply get_rate_raises in H
    as [[msg H] | [[code H] | [(F & T & _ & _ & H) | [H | H]]]]; discriminate H.
Qed.

(** X5. A request for the rate of a supported currency to itself is answered
    without reading the cache: the rate and the reverse rate are 1.0, the
    answer is fresh and stamped with the current time, whatever the cache
    file holds. *)
Theorem get_rate_same_currency registry st now fs from_code to_code C :
  validate_currency_code from_code = Ok C →
  validate_currency_code to_code = Ok C →
  C ∈ registry →
  get_rate registry st now fs from_code to_code =
    Ok {| res_from_code := C; res_to_code := C;
          res_rate := JNum 1; res_reverse_rate := JNum 1;
          res_updated_at := JStr (isoformat now);
          res_source := None; res_fresh := true |}.
Proof.
  intros Hvf Hvt Hin. unfold get_rate. rewrite Hvf, bind_Ok, Hvt, bind_Ok.
  rewrite (get_currency_known registry C), !bind_Ok
    by eauto using validate_currency_code_matches.
  by rewrite String.eqb_refl.
Qed.

Lemma get_currency_unknown registry C :
  matches_code C = true → C ∉ registry →
  get_currency registry C = Raise (CurrencyNotFoundError C).
Proof.
  intros Hm Hnotin. unfold get_currency. rewrite (normalized_fixed _ Hm).
  destruct (existsb (String.eqb C) registry) eqn:Hex; [|done].
  apply existsb_exists in Hex as (x & Hx%list_elem_of_In & ->%String.eqb_eq). done.
Qed.

Lemma is_currency_supported_get_currency registry code :
  is_currency_supported registry code = true ↔
  get_currency registry code = Ok (strip (upper code)).
Proof.
  unfold is_currency_supported, get_currency.
  destruct (existsb _ _); split; by intros.
Qed.


(** X7. A direct pair wins, even with the rate zero: when the cache has an
    entry for [FROM_TO] that is a dict with the number [r] as its rate,
    whatever the reverse pair and the USD legs hold, what [get_rate] does is
    decided by the freshness check of the stored timestamp alone: when the
    check returns, [get_rate] returns [r] with the stored timestamp and
    source, the freshness found, and the reverse rate [1 / r], or [None] when
    [r] is zero.  So it does for an entry without a timestamp, which is
    reported stale; for a timestamp that parses with a UTC offset the check,
    and with it [get_rate], raises [TypeError]. *)
Theorem get_rate_direct registry st now fs from_code to_code F T pairs d r :
  validate_currency_code from_code = Ok F →
  validate_currency_code to_code = Ok T →
  F ∈ registry → T ∈ registry → F ≠ T →
  cached_pairs st fs pairs →
  dict_get (pair_key F T) pairs = Some (JObj d) →
  dict_get "rate" d = Some (JNum r) →
  let answer fresh :=
    {| res_from_code := F; res_to_code := T;
       res_rate := JNum r;
       res_reverse_rate := if is_zero r then JNull else JNum (1 / r);
       res_updated_at := default JNull (dict_get "updated_at" d);
       res_source := Some (default JNull (dict_get "source" d));
       res_fresh := fresh |} in
  get_rate registry st now fs from_code to_code =
    (fresh ← is_rate_fresh now (default JNull (dict_get "updated_at" d))
               (default 300%Z (rates_ttl_seconds st));
     Ok (answer fresh)) ∧
  (dict_get "updated_at" d = None →
   get_rate registry st now fs from_code to_code = Ok (answer false)) ∧
  (∀ s dt offset,
     dict_get "updated_at" d = Some (JStr s) →
     parse_datetime (JStr s) = Some dt → utcoffset dt = Some offset →
     get_rate registry st now fs from_code to_code = Raise TypeError).
Proof.
  intros Hvf Hvt HF HT Hne Hpairs Hdirect Hrate answer.
  assert (get_rate registry st now fs from_code to_code =
            (fresh ← is_rate_fresh now (default JNull (dict_get "updated_at" d))
                       (default 300%Z (rates_ttl_seconds st));
             Ok (answer fresh))) as Hget.
  { destruct (get_rate_enters registry st now fs from_code to_code F T pairs)
      as (rates_data & Hdata & ->); [done..|].
    cbv zeta. rewrite Hdirect. simpl default.
    assert (truthy (JObj d) = true) as ->.
    { destruct d; [discriminate Hrate|done]. }
    simpl field_of. simpl rate_of.
    destruct (is_rate_fresh now _ _) as [fresh|e]; [|done].
    rewrite !bind_Ok, Hrate. simpl default.
    unfold inverse_or_none, answer. simpl truthy.
    destruct (is_zero r) eqn:Hz; simpl; [done|].
    by rewrite (truediv_numbers _ _ Hz). }
  split; [exact Hget|]. split.
  - intros Hnone. rewrite Hget, Hnone. done.
  - intros s dt offset Hstamp Hparse Haware. rewrite Hget, Hstamp. simpl default.
    by rewrite (is_rate_fresh_aware now s dt offset _ Hparse Haware).
Qed.

(** X8. Without a cache to read, every request between two different
    supported currencies fails with the rate-unavailable [ApiRequestError]:
    so it is when the cache file is missing, when its text is not JSON, and
    when it holds [null]. *)
Theorem get_rate_without_cache registry st now fs from_code to_code F T :
  validate_currency_code from_code = Ok F →
  validate_currency_code to_code = Ok T →
  F ∈ registry → T ∈ registry → F ≠ T →
  fs !! rates_file st = None ∨
    (∃ text, fs !! rates_file st = Some (Garbage text)) ∨
    fs !! rates_file st = Some (Json JNull) →
  get_rate registry st now fs from_code to_code = Raise (unavailable F T).
Proof.
  intros Hvf Hvt HF HT Hne Hfile.
  assert (get_rates st fs = empty_cache) as Hempty.
  { unfold get_rates, _read_json. by destruct Hfile as [-> | [[text ->] | ->]]. }
  rewrite (get_rate_calculates registry st now fs from_code to_code F T []);
    try done; [|unfold cached_pairs; by rewrite Hempty].
  assert (calculate_rate F T [] = Ok JNull) as ->; [|done].
  pose proof (validate_currency_code_matches _ _ Hvf) as HmF.
  pose proof (validate_currency_code_matches _ _ Hvt) as HmT.
  rewrite (calculate_rate_falls_to_usd F T []) by done.
  by destruct (negb _ && negb _).
Qed.

(** X9. A cache in the flat format is served: when the document has no
    ["pairs"] key and stores the bare non-zero number [r] under [FROM_TO],
    [get_rate] returns [r] and [1 / r] with the source ["cache"], no
    timestamp, and [fresh = False]. *)
Theorem get_rate_flat_cache registry st now fs from_code to_code F T rates_data r :
  validate_currency_code from_code = Ok F →
  validate_currency_code to_code = Ok T →
  F ∈ registry → T ∈ registry → F ≠ T →
  get_rates st fs = JObj rates_data →
  dict_get "pairs" rates_data = None →
  dict_get (pair_key F T) rates_data = Some (JNum r) →
  is_zero r = false →
  get_rate registry st now fs from_code to_code =
    Ok {| res_from_code := F; res_to_code := T;
          res_rate := JNum r;
          res_reverse_rate := JNum (1 / r);
          res_updated_at := JNull;
          res_source := Some (JStr "cache");
          res_fresh := false |}.
Proof.
  intros Hvf Hvt HF HT Hne Hdata Hflat Hdirect Hz.
  destruct (get_rate_enters registry st now fs from_code to_code F T rates_data)
    as (rates_data' & Hdata' & ->); [try done..|].
  { unfold cached_pairs. rewrite Hdata. simpl. by rewrite Hflat. }
  cbv zeta. rewrite Hdirect. simpl. rewrite Hz. simpl.
  by rewrite (inverse_number _ Hz).
Qed.

(** X10. The two directions of a stored pair agree: when the cache has
    [A_B] with a non-zero rate and no [B_A], the answer for B to A is the
    answer for A to B with the rate and the reverse rate exchanged, and with
    the same timestamp, source and freshness. *)
Theorem get_rate_directions_agree registry st now fs a b A B pairs rate_data r fresh :
  validate_currency_code a = Ok A →
  validate_currency_code b = Ok B →
  A ∈ registry → B ∈ registry → A ≠ B →
  cached_pairs st fs pairs →
  dict_get (pair_key A B) pairs = Some rate_data →
  dict_get (pair_key B A) pairs = None →
  rate_of rate_data = JNum r →
  is_zero r = false →
  is_rate_fresh now (field_of rate_data "updated_at" JNull)
    (default 300%Z (rates_ttl_seconds st)) = Ok fresh →
  ∃ forward backward,
    get_rate registry st now fs a b = Ok forward ∧
    get_rate registry st now fs b a = Ok backward ∧
    res_rate backward = res_reverse_rate forward ∧
    res_reverse_rate backward = res_rate forward ∧
    res_updated_at backward = res_updated_at forward ∧
    res_source backward = res_source forward ∧
    res_fresh backward = res_fresh forward.
Proof.
  intros Hva Hvb HA HB Hne Hpairs Hdirect Hreverse Hrate Hz Hfresh.
  assert (truthy rate_data = true) as Htruthy.
  { apply truthy_usable. rewrite Hrate. by apply usable_number. }
  destruct (get_rate_enters registry st now fs a b A B pairs)
    as (rates_data & Hdata & ->); [done..|].
  destruct (get_rate_enters registry st now fs b a B A pairs)
    as (rates_data' & Hdata' & ->); [done..|].
  cbv zeta. rewrite Hdirect, Hreverse. simpl default. simpl truthy.
  rewrite Htruthy. cbv iota. simpl andb.
  rewrite Hrate, (usable_number _ Hz), Hfresh, !bind_Ok.
  rewrite (inverse_number _ Hz), (truediv_numbers _ _ Hz), !bind_Ok.
  eexists _, _. repeat split.
Qed.

(** X11. Staleness is permanent and a longer TTL only helps: a timestamp
    judged stale at one time is judged stale at every later time, and a
    timestamp judged fresh under one TTL is judged fresh under every longer
    one. *)
Theorem is_rate_fresh_monotone now updated_at ttl :
  (∀ later, (now ≤ later)%Z →
     is_rate_fresh now updated_at ttl = Ok false →
     is_rate_fresh later updated_at ttl = Ok false) ∧
  (∀ longer, (ttl ≤ longer)%Z →
     is_rate_fresh now updated_at ttl = Ok true →
     is_rate_fresh now updated_at longer = Ok true).
Proof.
  unfold is_rate_fresh. split.
  - intros later Hle. destruct updated_at; try done.
    destruct (parse_datetime _) as [dt|]; [|done].
    unfold datetime_sub. simpl.
    destruct (utcoffset dt); [done|]. simpl.
    intros [= Hstale]. f_equal.
    destruct (total_seconds_lt (later - wall_us dt) ttl) eqn:Hlater; [|done].
    rewrite <- Hstale. symmetry.
    apply (total_seconds_lt_mono _ (later - wall_us dt) ttl ttl); [lia|lia|done].
  - intros longer Hle. destruct updated_at; try done.
    destruct (parse_datetime _) as [dt|]; [|done].
    unfold datetime_sub. simpl.
    destruct (utcoffset dt); [done|]. simpl.
    intros [= Hfresh]. f_equal.
    apply (total_seconds_lt_mono _ (now - wall_us dt) ttl longer); [lia|done|done].
Qed.

(** X30. The resolver of the rate command and [calculate_rate], which values
    the portfolios, agree: whenever the cache has no entry for the direct
    pair, or a truthy one, the rate [get_rate] returns is the rate
    [calculate_rate] computes from the same pairs. *)
Theorem get_rate_agrees_with_calculate_rate registry st now fs from_code to_code
    F T pairs res :
  validate_currency_code from_code = Ok F →
  validate_currency_code to_code = Ok T →
  F ≠ T →
  cached_pairs st fs pairs →
  truthy (default (JBool true) (dict_get (pair_key F T) pairs)) = true →
  get_rate registry st now fs from_code to_code = Ok res →
  calculate_rate F T pairs = Ok (res_rate res).
Proof.
  intros Hvf Hvt Hne Hpairs Hdirect Hget.
  pose proof (validate_currency_code_matches _ _ Hvf) as HmF.
  pose proof (validate_currency_code_matches _ _ Hvt) as HmT.
  destruct (decide (F ∈ registry)) as [HF|HF]; cycle 1.
  { unfold get_rate in Hget.
    rewrite Hvf, bind_Ok, Hvt, bind_Ok, (get_currency_unknown registry F HmF HF) in Hget.
    done. }
  destruct (decide (T ∈ registry)) as [HT|HT]; cycle 1.
  { unfold get_rate in Hget.
    rewrite Hvf, bind_Ok, Hvt, bind_Ok, (get_currency_known registry F HmF HF), bind_Ok,
      (get_currency_unknown registry T HmT HT) in Hget. done. }
  destruct (get_rate_enters registry st now fs from_code to_code F T pairs)
    as (rates_data & Hdata & Henters); [done..|].
  rewrite Henters in Hget. clear Henters. cbv zeta in Hget.
  destruct (dict_get (pair_key F T) pairs) as [rate_data|] eqn:Hentry;
    simpl default in Hdirect, Hget.
  - rewrite Hdirect in Hget.
    assert (calculate_rate F T pairs = Ok (rate_of rate_data)) as ->.
    { unfold calculate_rate.
      by rewrite (upper_fixed _ (matches_code_letters _ HmF)),
        (upper_fixed _ (matches_code_letters _ HmT)), (eqb_ne F T Hne), Hentry. }
    destruct (is_rate_fresh _ _ _) as [fresh|]; [|done]. rewrite bind_Ok in Hget.
    destruct (inverse_or_none _) as [reverse_rate|]; [|done].
    by injection Hget as <-.
  - simpl truthy in Hget. cbv iota in Hget.
    rewrite default_usable_pair in Hget.
    destruct (usable_pair (pair_key T F) pairs) eqn:Husable.
    + unfold usable_pair in Husable.
      destruct (dict_get (pair_key T F) pairs) as [reverse_data|] eqn:Hreverse;
        [|done].
      simpl in Husable, Hget.
      assert (calculate_rate F T pairs = py_truediv (JNum 1) (rate_of reverse_data))
        as ->.
      { unfold calculate_rate.
        rewrite (upper_fixed _ (matches_code_letters _ HmF)),
          (upper_fixed _ (matches_code_letters _ HmT)), (eqb_ne F T Hne), Hentry,
          Hreverse.
        cbv zeta. fold (usable (rate_of reverse_data)). by rewrite Husable. }
      destruct (py_truediv _ _) as [rate|]; [|done]. rewrite bind_Ok in Hget.
      destruct (is_rate_fresh _ _ _) as [fresh|]; [|done].
      by injection Hget as <-.
    + destruct (calculate_rate F T pairs) as [rate|]; [|done]. rewrite bind_Ok in Hget.
      destruct (truthy rate); [|done].
      destruct (inverse_or_none rate) as [reverse_rate|]; [|done].
      by injection Hget as <-.
Qed.
End resolver_more.

(** ** Writes, seen by every file *)

Lemma unlink_staged temp_path staged (fs : filesystem) :
  fs !! temp_path = None →
  unlink_if_exists temp_path (<[temp_path := staged]> fs) = fs.
Proof.
  intros Hfresh. unfold unlink_if_exists.
  rewrite decide_True by (rewrite lookup_insert_eq; eauto).
  by apply delete_insert_id.
Qed.

Lemma _write_json_outcome filepath data w :
  fresh_temp w →
  _write_json filepath data w =
    (Ok (), {| files := <[filepath := Json data]> (files w); os := λ n, os w (S n) |}) ∨
  ∃ e, _write_json filepath data w =
         (Raise e, {| files := files w; os := λ n, os w (S n) |}).
Proof.
  unfold fresh_temp, _write_json.
  destruct (os w 0) as [e|temp_path partial e|temp_path e|temp_path]; simpl; intros Hfresh.
  - right. by exists e.
  - right. exists e. by rewrite (unlink_staged _ _ _ (Hfresh _ eq_refl)).
  - right. exists e. by rewrite (unlink_staged _ _ _ (Hfresh _ eq_refl)).
  - left. by rewrite (delete_insert_id _ _ _ (Hfresh _ eq_refl)).
Qed.

(** X12. [_write_json] is all or nothing, whatever step of it fails: with the
    temporary name fresh as [mkstemp] makes it, either the call returns and
    the files differ from the old ones in [filepath] alone, which holds the
    document, or it raises and the files are exactly the old ones; no
    temporary file is left behind in either case. *)
Theorem _write_json_all_or_nothing filepath data w :
  fresh_temp w →
  ((_write_json filepath data w).1 = Ok () ∧
   files (_write_json filepath data w).2 = <[filepath := Json data]> (files w)) ∨
  ((∃ e, (_write_json filepath data w).1 = Raise e) ∧
   files (_write_json filepath data w).2 = files w).
Proof.
  intros Hfresh.
  destruct (_write_json_outcome filepath data w Hfresh) as [-> | [e ->]]; simpl.
  - by left.
  - right. by eauto.
Qed.

Lemma fresh_temps_head targets w : fresh_temps targets w → fresh_temp w.
Proof. intros Hfresh temp_path Htemp. by destruct (Hfresh 0 temp_path Htemp). Qed.

(** A write to one of the targets keeps the coming temporary names fresh. *)
Lemma _write_json_cases targets filepath data w :
  fresh_temps targets w → filepath ∈ targets →
  ∃ w', fresh_temps targets w' ∧
    ((_write_json filepath data w = (Ok (), w') ∧
      files w' = <[filepath := Json data]> (files w)) ∨
     (∃ e, _write_json filepath data w = (Raise e, w') ∧ files w' = files w)).
Proof.
  intros Hfresh Htarget.
  destruct (_write_json_outcome filepath data w (fresh_temps_head _ _ Hfresh))
    as [-> | [e ->]]; eexists; (split; [|by eauto]).
  - intros n temp_path Htemp. simpl in *.
    destruct (Hfresh (S n) temp_path Htemp) as [Hnone Hnotin]. split; [|done].
    rewrite lookup_insert_ne; [done|]. by intros <-.
  - intros n temp_path Htemp. by apply (Hfresh (S n)).
Qed.

(** ** The history is append-only *)

Lemma add_history_record_cases targets st record w :
  fresh_temps targets w → exchange_rates_file st ∈ targets →
  fresh_temps targets (add_history_record st record w).2 ∧
  (get_history st (files (add_history_record st record w).2) = get_history st (files w) ∨
   get_history st (files (add_history_record st record w).2) =
     get_history st (files w) ++ [JObj record]) ∧
  ∀ path, path ≠ exchange_rates_file st →
    files (add_history_record st record w).2 !! path = files w !! path.
Proof.
  intros Hfresh Htarget. unfold add_history_record, mbind, M_bind, read, lift. simpl.
  destruct (if truthy _ then _ else _) as [[|]|e]; simpl; [by auto| |by auto].
  destruct (_write_json_cases targets (exchange_rates_file st)
              (JArr (get_history st (files w) ++ [JObj record])) w Hfresh Htarget)
    as (w' & Hfresh' & [[-> Hfiles] | (e & -> & Hfiles)]); simpl;
    rewrite Hfiles; (split; [done|]).
  - split.
    + right. unfold get_history, _read_json. by rewrite lookup_insert_eq.
    + intros path Hpath. by rewrite lookup_insert_ne.
  - by auto.
Qed.

Lemma append_rates_cases targets st rates timestamp source meta w :
  fresh_temps targets w → exchange_rates_file st ∈ targets →
  fresh_temps targets (append_rates st rates timestamp source meta w).2 ∧
  get_history st (files w) `prefix_of`
    get_history st (files (append_rates st rates timestamp source meta w).2) ∧
  ∀ path, path ≠ exchange_rates_file st →
    files (append_rates st rates timestamp source meta w).2 !! path = files w !! path.
Proof.
  intros Hfresh Htarget. revert w Hfresh.
  induction rates as [|[pair_ rate] rates IH]; intros w Hfresh; simpl; [by auto|].
  destruct (split "_" pair_) as [|from_code [|to_code [|]]]; [by apply IH..| |by apply IH].
  destruct (add_history_record_cases targets st
              (history_record pair_ from_code to_code rate timestamp source meta) w
              Hfresh Htarget) as (Hfresh1 & Hhistory & Hother).
  unfold mbind, M_bind.
  destruct (add_history_record st _ w) as [[[]|e] w1]; simpl in *.
  - destruct (IH w1 Hfresh1) as (Hfresh2 & Hprefix & Hother2).
    split; [done|]. split.
    + etrans; [|exact Hprefix].
      destruct Hhistory as [-> | ->]; [done|by apply prefix_app_r].
    + intros path Hpath. by rewrite Hother2, Hother.
  - split; [done|]. split; [|done].
    destruct Hhistory as [-> | ->]; [done|by apply prefix_app_r].
Qed.

Section appending.
Context {lib : DatetimeLib}.

(** X13. The history is an append-only log under [save_rates_to_history]:
    whatever the outcomes of the writes (with temporary names fresh as
    [mkstemp] makes them), the history after the call starts with the history
    before it, and no file but the history file is changed. *)
Theorem save_rates_to_history_appends st utcnow rates source meta w :
  fresh_temps [exchange_rates_file st] w →
  get_history st (files w) `prefix_of`
    get_history st (files (save_rates_to_history st utcnow rates source meta w).2) ∧
  ∀ path, path ≠ exchange_rates_file st →
    files (save_rates_to_history st utcnow rates source meta w).2 !! path =
    files w !! path.
Proof.
  intros Hfresh. unfold save_rates_to_history.
  destruct (append_rates_cases [exchange_rates_file st] st rates
              (isoformat utcnow +:+ "Z") source meta w Hfresh) as (_ & Hprefix & Hother);
    [by constructor|done].
Qed.
End appending.

(** ** Re-ingestion at the same instant *)

Lemma id_exists_app_true record_id history more :
  id_exists record_id history = Ok true →
  id_exists record_id (history ++ more) = Ok true.
Proof.
  induction history as [|head rest IH]; simpl; [done|].
  destruct (py_get head "id" JNull) as [head_id|]; [|done]. simpl.
  destruct (py_eq head_id record_id); [done|exact IH].
Qed.

Lemma id_exists_app_false record_id history more :
  id_exists record_id history = Ok false →
  id_exists record_id (history ++ more) = id_exists record_id more.
Proof.
  induction history as [|head rest IH]; simpl; [done|].
  destruct (py_get head "id" JNull) as [head_id|]; [|done]. simpl.
  destruct (py_eq head_id record_id); [done|exact IH].
Qed.

Lemma history_record_id pair_ from_code to_code rate timestamp source meta :
  dict_get "id" (history_record pair_ from_code to_code rate timestamp source meta) =
    Some (JStr (pair_ +:+ "_" +:+ timestamp)).
Proof. unfold history_record. by destruct (truthy meta). Qed.

Lemma record_id_truthy pair_ timestamp :
  truthy (JStr (pair_ +:+ "_" +:+ timestamp)) = true.
Proof. by destruct pair_. Qed.

Lemma _write_json_Ok filepath data w w' :
  _write_json filepath data w = (Ok (), w') → ∃ temp_path, os w 0 = Written temp_path.
Proof. unfold _write_json. destruct (os w 0); try done. by eauto. Qed.

Lemma add_history_record_Ok st record record_id w w' :
  dict_get "id" record = Some (JStr record_id) →
  truthy (JStr record_id) = true →
  add_history_record st record w = (Ok (), w') →
  id_exists (JStr record_id) (get_history st (files w')) = Ok true ∧
  ∃ more, get_history st (files w') = get_history st (files w) ++ more.
Proof.
  intros Hid Htruthy. unfold add_history_record, mbind, M_bind, read, lift. simpl.
  rewrite Hid. simpl default. rewrite Htruthy.
  destruct (id_exists (JStr record_id) (get_history st (files w))) as [[|]|e] eqn:Hscan;
    simpl; [| |done].
  - intros [= <-]. split; [done|]. exists []. by rewrite app_nil_r.
  - intros Hwrite. destruct (_write_json_Ok _ _ _ _ Hwrite) as [temp_path Hos].
    pose proof (get_history_written st (get_history st (files w) ++ [JObj record]) w _ Hos)
      as Hhistory.
    rewrite Hwrite in Hhistory. simpl in Hhistory. rewrite Hhistory.
    split; [|by eauto].
    rewrite (id_exists_app_false _ _ _ Hscan). simpl. rewrite Hid. simpl.
    by rewrite String.eqb_refl.
Qed.

Lemma covered_app timestamp rates history more :
  covered timestamp rates history → covered timestamp rates (history ++ more).
Proof.
  unfold covered. intros Hcovered. eapply Forall_impl; [exact Hcovered|].
  intros entry Hscan from_code to_code Hsplit.
  apply id_exists_app_true. by eapply Hscan.
Qed.

Lemma append_rates_covers st rates timestamp source meta w w' :
  append_rates st rates timestamp source meta w = (Ok (), w') →
  covered timestamp rates (get_history st (files w')) ∧
  ∃ more, get_history st (files w') = get_history st (files w) ++ more.
Proof.
  revert w. induction rates as [|[pair_ rate] rates IH]; intros w; simpl.
  { intros [= <-]. split; [constructor|]. exists []. by rewrite app_nil_r. }
  destruct (split "_" pair_) as [|from_code [|to_code [|]]] eqn:Hsplit.
  1, 2, 4: intros (Hcovered & Hmore)%IH; split; [|done];
    constructor; [|done]; simpl; intros ??; by rewrite Hsplit.
  unfold mbind, M_bind.
  destruct (add_history_record st _ w) as [[[]|e] w1] eqn:Hadd; [|done].
  intros (Hcovered & more2 & Hmore2)%IH.
  destruct (add_history_record_Ok st _ _ w w1 (history_record_id _ _ _ _ _ _ _)
              (record_id_truthy _ _) Hadd) as (Hscan & more1 & Hmore1).
  split.
  - constructor; [|done]. simpl. intros _ _ _. rewrite Hmore2.
    by apply id_exists_app_true.
  - exists (more1 ++ more2). by rewrite Hmore2, Hmore1, app_assoc.
Qed.

Lemma append_rates_covered st rates timestamp source meta w :
  covered timestamp rates (get_history st (files w)) →
  append_rates st rates timestamp source meta w = (Ok (), w).
Proof.
  induction 1 as [|[pair_ rate] rates Hscan _ IH]; simpl; [done|].
  destruct (split "_" pair_) as [|from_code [|to_code [|]]] eqn:Hsplit; [done..| |done].
  specialize (Hscan from_code to_code Hsplit). simpl in Hscan.
  unfold mbind, M_bind.
  assert (add_history_record st
            (history_record pair_ from_code to_code rate timestamp source meta) w =
          (Ok (), w)) as ->; [|exact IH].
  unfold add_history_record, mbind, M_bind, read, lift. simpl.
  rewrite history_record_id. simpl default. by rewrite record_id_truthy, Hscan.
Qed.

Section reingestion.
Context {lib : DatetimeLib}.

(** X14. Saving the same rates again under the same timestamp is a no-op:
    after a [save_rates_to_history] that returned, a second call with the
    same rates at the same clock reading returns without writing, and leaves
    the files and the history as the first call left them. *)
Theorem save_rates_to_history_idempotent st utcnow rates source meta w w' :
  save_rates_to_history st utcnow rates source meta w = (Ok (), w') →
  save_rates_to_history st utcnow rates source meta w' = (Ok (), w').
Proof.
  unfold save_rates_to_history. intros [Hcovered _]%append_rates_covers.
  by apply append_rates_covered.
Qed.

(** X15. A rate whose key does not split at underscores into exactly two
    parts gets no history record: when no key of the rates does, the call
    returns without writing. *)
Theorem save_rates_to_history_skips st utcnow rates source meta w :
  Forall (λ entry, length (split "_" entry.1) ≠ 2) rates →
  save_rates_to_history st utcnow rates source meta w = (Ok (), w).
Proof.
  unfold save_rates_to_history.
  induction 1 as [|[pair_ rate] rates Hlen _ IH]; simpl; [done|].
  simpl in Hlen. by destruct (split "_" pair_) as [|from_code [|to_code [|]]].
Qed.
End reingestion.

(** ** Clearing the history *)

Lemma ltb_empty cutoff : String.ltb cutoff "" = false.
Proof. unfold String.ltb. by destruct cutoff. Qed.

Lemma newer_than_filter cutoff history :
  well_stamped history →
  newer_than cutoff history = Ok (List.filter (timestamp_after cutoff) history).
Proof.
  induction 1 as [|record history (d & s & -> & Hstamp) _ IH]; simpl; [done|].
  rewrite Hstamp, IH. simpl.
  assert (match dict_get "timestamp" d with
          | Some (JStr s') => String.ltb cutoff s'
          | _ => false
          end = String.ltb cutoff s) as ->; [|done].
  destruct (dict_get "timestamp" d) as [v|]; simpl in Hstamp.
  - by rewrite Hstamp.
  - injection Hstamp as <-. by rewrite ltb_empty.
Qed.

Lemma filter_length_le {A} (p : A → bool) l : length (List.filter p l) ≤ length l.
Proof. induction l as [|x l IH]; simpl; [done|]. destruct (p x); simpl; lia. Qed.

Lemma filter_length_eq {A} (p : A → bool) l :
  length (List.filter p l) = length l → List.filter p l = l.
Proof.
  induction l as [|x l IH]; simpl; [done|].
  pose proof (filter_length_le p l). destruct (p x); simpl; [|lia].
  intros [= Hlen]. by rewrite IH.
Qed.

Section clearing.
Context {lib : DatetimeLib}.

Lemma cutoff_in_range_spec utcnow days :
  (cutoff_in_range utcnow days →
   (delta ← timedelta_of_days days; datetime_minus utcnow delta) =
     Ok (utcnow - days * 86400000000)%Z) ∧
  (¬ cutoff_in_range utcnow days →
   (delta ← timedelta_of_days days; datetime_minus utcnow delta) =
     Raise OverflowError).
Proof.
  unfold cutoff_in_range, timedelta_of_days, datetime_minus.
  destruct (Z.leb_spec (Z.abs days) 999999999) as [Hdays|Hdays]; simpl; [|split; [lia|done]].
  destruct (Z.leb_spec datetime_min (utcnow - days * 86400000000)) as [Hmin|Hmin];
    simpl; [|split; [lia|done]].
  destruct (Z.leb_spec (utcnow - days * 86400000000) datetime_max) as [Hmax|Hmax];
    simpl; [|split; [lia|done]].
  split; [done|]. intros Hout. destruct Hout. lia.
Qed.

(** X16. [clear_old_history] keeps, in order, exactly the records whose
    timestamp is a string greater than the cutoff [utcnow - days] in ISO
    form; a record without a timestamp is dropped whatever the cutoff.  On a
    history of dicts with string timestamps, and for a number of days that
    leaves the cutoff a [datetime], it returns once the write completes, and
    when no record is dropped it returns without writing.  For a number of
    days beyond 999999999, or one that takes the cutoff out of the years 1 to
    9999, it raises [OverflowError] and writes nothing. *)
Theorem clear_old_history_filters st utcnow days w :
  well_stamped (get_history st (files w)) →
  (cutoff_in_range utcnow days →
   let cutoff := isoformat (utcnow - days * 86400000000)%Z in
   let kept := List.filter (timestamp_after cutoff) (get_history st (files w)) in
   (kept = get_history st (files w) →
    clear_old_history st utcnow days w = (Ok (), w)) ∧
   (∀ temp_path, os w 0 = Written temp_path →
      (clear_old_history st utcnow days w).1 = Ok () ∧
      get_history st (files (clear_old_history st utcnow days w).2) = kept) ∧
   (∀ d, dict_get "timestamp" d = None → JObj d ∉ kept)) ∧
  (¬ cutoff_in_range utcnow days →
   clear_old_history st utcnow days w = (Raise OverflowError, w)).
Proof.
  intros Hstamped.
  assert (clear_old_history st utcnow days w =
            match (delta ← timedelta_of_days days; datetime_minus utcnow delta) with
            | Ok cutoff_time =>
                let kept := List.filter (timestamp_after (isoformat cutoff_time))
                              (get_history st (files w)) in
                if (0 <? length (get_history st (files w)) - length kept)%nat
                then _write_json (exchange_rates_file st) (JArr kept) w
                else (Ok (), w)
            | Raise e => (Raise e, w)
            end) as Hclear.
  { unfold clear_old_history, mbind, M_bind, read, lift. simpl.
    destruct (timedelta_of_days days) as [delta|e]; simpl; [|done].
    destruct (datetime_minus utcnow delta) as [cutoff_time|e]; simpl; [|done].
    rewrite (newer_than_filter _ _ Hstamped).
    by destruct (_ <? _)%nat. }
  destruct (cutoff_in_range_spec utcnow days) as [Hin Hout].
  split; [|intros Hrange; by rewrite Hclear, (Hout Hrange)].
  intros Hrange cutoff kept. rewrite (Hin Hrange) in Hclear. cbv zeta in Hclear.
  fold cutoff in Hclear. fold kept in Hclear.
  split; [|split].
  - intros Hsame. rewrite Hclear, Hsame, Nat.sub_diag. done.
  - intros temp_path Hos. rewrite Hclear.
    destruct (0 <? _)%nat eqn:Hremoved.
    + split; [by apply (_write_json_written _ _ _ _ Hos)|].
      by apply (get_history_written st kept w temp_path).
    + split; [done|]. simpl. symmetry. apply filter_length_eq.
      apply Nat.ltb_ge in Hremoved.
      pose proof (filter_length_le (timestamp_after cutoff) (get_history st (files w)))
        as Hle.
      unfold kept in *. lia.
  - intros d Hnone Hin'. unfold kept in Hin'.
    apply list_elem_of_In, List.filter_In in Hin' as [_ Hafter].
    simpl in Hafter. by rewrite Hnone in Hafter.
Qed.
End clearing.

(** ** The cache, written and read back *)

Lemma get_rates_cache_written st doc w temp_path :
  os w 0 = Written temp_path →
  get_rates_cache st (files (_write_json (rates_file st) (JObj doc) w).2) = JObj doc.
Proof.
  intros Hos. destruct (_write_json_written (rates_file st) (JObj doc) w _ Hos)
    as (_ & Hfile & _).
  unfold get_rates_cache, _read_json. by rewrite Hfile.
Qed.

Lemma dict_set_length {A} k (v : A) d :
  length d ≤ length (dict_set k v d) ≤ S (length d).
Proof.
  induction d as [|[k' v'] d IH]; simpl; [lia|].
  destruct (String.eqb k' k); simpl; lia.
Qed.

Lemma store_rates_length rates current_time source pairs pairs' :
  store_rates rates current_time source (JObj pairs) = Ok (JObj pairs') →
  length pairs ≤ length pairs' ≤ length pairs + length rates.
Proof.
  revert pairs. induction rates as [|[k r] rates IH]; intros pairs.
  - intros [= <-]. simpl. lia.
  - change (store_rates ((k, r) :: rates) current_time source (JObj pairs))
      with (store_rates rates current_time source
              (JObj (dict_set k (cache_entry r current_time source) pairs))).
    intros Hstore%IH.
    pose proof (dict_set_length k (cache_entry r current_time source) pairs).
    simpl. lia.
Qed.

Section cache_more.
Context {lib : DatetimeLib}.

(** The document [save_rates_cache] hands to [_write_json]. *)
Lemma save_rates_cache_writes st now rates source w cache pairs :
  get_rates_cache st (files w) = JObj cache →
  default (JObj []) (dict_get "pairs" cache) = JObj pairs →
  ∃ pairs',
    store_rates rates (isoformat now) source (JObj pairs) = Ok (JObj pairs') ∧
    save_rates_cache st now rates source w =
      _write_json (rates_file st)
        (JObj (dict_set "source" (JStr source)
                 (dict_set "last_refresh" (JStr (isoformat now))
                    (dict_set "pairs" (JObj pairs') cache)))) w.
Proof.
  intros Hcache Hpairs.
  destruct (store_rates_dict rates (isoformat now) source pairs) as (pairs' & Hstore & _).
  exists pairs'. split; [done|].
  unfold save_rates_cache, mbind, M_bind, read, lift. simpl.
  rewrite Hcache. simpl. by rewrite Hpairs, Hstore.
Qed.

Lemma saved_cache_fields source current_time pairs' (cache : dict) :
  dict_get "pairs"
    (dict_set "source" (JStr source)
       (dict_set "last_refresh" (JStr current_time)
          (dict_set "pairs" (JObj pairs') cache))) = Some (JObj pairs') ∧
  dict_get "last_refresh"
    (dict_set "source" (JStr source)
       (dict_set "last_refresh" (JStr current_time)
          (dict_set "pairs" (JObj pairs') cache))) = Some (JStr current_time) ∧
  dict_get "source"
    (dict_set "source" (JStr source)
       (dict_set "last_refresh" (JStr current_time)
          (dict_set "pairs" (JObj pairs') cache))) = Some (JStr source).
Proof.
  split; [|split].
  - rewrite (dict_get_set_ne "source" "pairs") by done.
    rewrite (dict_get_set_ne "last_refresh" "pairs") by done.
    apply dict_get_set_eq.
  - rewrite (dict_get_set_ne "source" "last_refresh") by done. apply dict_get_set_eq.
  - apply dict_get_set_eq.
Qed.

(** X17. [save_rates_cache] is all or nothing: with the temporary name fresh,
    either it returns and the files differ from the old ones in the cache
    file alone, or it raises, be it on a malformed cache document or in the
    write, and every file is what it was. *)
Theorem save_rates_cache_all_or_nothing st now rates source w :
  fresh_temp w →
  ((save_rates_cache st now rates source w).1 = Ok () ∧
   ∃ cache', files (save_rates_cache st now rates source w).2 =
               <[rates_file st := Json (JObj cache')]> (files w)) ∨
  ((∃ e, (save_rates_cache st now rates source w).1 = Raise e) ∧
   files (save_rates_cache st now rates source w).2 = files w).
Proof.
  intros Hfresh. unfold save_rates_cache, mbind, M_bind, read, lift. simpl.
  destruct (py_get _ _ _) as [pairs|]; [|right; by eauto].
  destruct (store_rates _ _ _ _) as [pairs'|]; [|right; by eauto].
  destruct (py_setitem _ "pairs" _) as [c1|]; [|right; by eauto].
  destruct (py_setitem c1 _ _) as [c2|]; [|right; by eauto].
  destruct (py_setitem c2 _ _) as [c3|] eqn:Hc3; [|right; by eauto].
  destruct c2 as [| | | | |d]; try discriminate. injection Hc3 as <-.
  destruct (_write_json_outcome (rates_file st)
              (JObj (dict_set "source" (JStr source) d)) w Hfresh) as [-> | [e ->]]; simpl.
  - left. by eauto.
  - right. by eauto.
Qed.

(** X18. A rate stored by [update_single_rate] is what [get_rate_from_cache]
    returns for the pair, in whatever case the codes are written: on a cache
    document that is a dict with a dict of pairs, once the write completes,
    the lookup returns the entry written: the dict of the rate, the
    timestamp of the update and the source. *)
Theorem update_single_rate_round_trip st now from_code to_code rate source w
    cache pairs temp_path :
  get_rates_cache st (files w) = JObj cache →
  default (JObj []) (dict_get "pairs" cache) = JObj pairs →
  os w 0 = Written temp_path →
  (update_single_rate st now from_code to_code rate source w).1 = Ok () ∧
  ∀ from_code' to_code',
    upper from_code' = upper from_code → upper to_code' = upper to_code →
    get_rate_from_cache st
      (files (update_single_rate st now from_code to_code rate source w).2)
      from_code' to_code' =
      Ok (JObj [("rate", JNum rate); ("updated_at", JStr (isoformat now));
                ("source", JStr source)]).
Proof.
  intros Hcache Hpairs Hos. unfold update_single_rate.
  destruct (save_rates_cache_writes st now
              [(pair_key (upper from_code) (upper to_code), rate)] source w cache pairs
              Hcache Hpairs) as (pairs' & Hstore & ->).
  split; [by apply (_write_json_written _ _ _ _ Hos)|].
  intros from_code' to_code' Hfrom Hto.
  unfold get_rate_from_cache. rewrite Hfrom, Hto, (get_rates_cache_written _ _ _ _ Hos).
  destruct (saved_cache_fields source (isoformat now) pairs' cache) as (Hfield & _).
  rewrite py_get_dict, Hfield. simpl.
  injection Hstore as <-. by rewrite dict_get_set_eq.
Qed.

(** X19. What the parser stores the resolver serves: after a completed
    [save_rates_cache] whose rates give the non-zero rate [r] to the pair
    [FROM_TO] of two supported codes, [get_rate] on the written files returns
    [r] with the reverse rate [1 / r], the timestamp and the source of the
    save, and, for a TTL of at most [2^33] seconds, reports it fresh exactly
    while less than the TTL has passed since the save; the datetime library
    is asked only to read back the timestamp it printed. *)
Theorem save_rates_cache_serves_get_rate registry st now later rates source w
    cache pairs temp_path from_code to_code F T r :
  get_rates_cache st (files w) = JObj cache →
  default (JObj []) (dict_get "pairs" cache) = JObj pairs →
  NoDup rates.*1 →
  os w 0 = Written temp_path →
  validate_currency_code from_code = Ok F →
  validate_currency_code to_code = Ok T →
  F ∈ registry → T ∈ registry → F ≠ T →
  dict_get (pair_key F T) rates = Some r →
  is_zero r = false →
  parse_datetime (JStr (isoformat now)) = Some (naive now) →
  (- 2 ^ 33 ≤ default 300 (rates_ttl_seconds st) ≤ 2 ^ 33)%Z →
  get_rate registry st later (files (save_rates_cache st now rates source w).2)
    from_code to_code =
    Ok {| res_from_code := F; res_to_code := T;
          res_rate := JNum r;
          res_reverse_rate := JNum (1 / r);
          res_updated_at := JStr (isoformat now);
          res_source := Some (JStr source);
          res_fresh := (later - now <?
                        default 300 (rates_ttl_seconds st) * 1000000)%Z |}.
Proof.
  intros Hcache Hpairs Hnodup Hos Hvf Hvt HF HT Hne Hrate Hz Hparse Httl.
  destruct (save_rates_cache_writes st now rates source w cache pairs Hcache Hpairs)
    as (pairs' & Hstore & ->).
  destruct (store_rates_dict rates (isoformat now) source pairs)
    as (pairs'' & Hstore' & _ & Hnew).
  rewrite Hstore in Hstore'. injection Hstore' as <-.
  pose proof (Hnew Hnodup _ _ Hrate) as Hentry.
  destruct (saved_cache_fields source (isoformat now) pairs' cache) as (Hfield & _).
  destruct (get_rate_enters registry st later
              (files (_write_json (rates_file st)
                        (JObj (dict_set "source" (JStr source)
                                 (dict_set "last_refresh" (JStr (isoformat now))
                                    (dict_set "pairs" (JObj pairs') cache)))) w).2)
              from_code to_code F T pairs')
    as (rates_data & Hdata & ->); [done..| |].
  { unfold cached_pairs.
    change (get_rates st ?fs) with (get_rates_cache st fs).
    rewrite (get_rates_cache_written _ _ _ _ Hos). by rewrite py_get_dict, Hfield. }
  cbv zeta. rewrite Hentry. simpl default. simpl truthy. cbv iota.
  simpl field_of. simpl rate_of.
  rewrite (is_rate_fresh_naive later _ _ _ Hparse eq_refl), bind_Ok.
  by rewrite (total_seconds_lt_exact _ _ Httl), (inverse_number _ Hz).
Qed.

(** X20. After a completed [save_rates_cache], [get_last_update_info] reports
    the timestamp and the source of the save, and a number of pairs between
    the number stored before and that number plus the number of saved
    rates. *)
Theorem get_last_update_info_after_save st now rates source w cache pairs temp_path :
  get_rates_cache st (files w) = JObj cache →
  default (JObj []) (dict_get "pairs" cache) = JObj pairs →
  os w 0 = Written temp_path →
  ∃ count,
    get_last_update_info st (files (save_rates_cache st now rates source w).2) =
      Ok {| info_last_refresh := JStr (isoformat now);
            info_source := JStr source;
            pairs_count := count |} ∧
    length pairs ≤ count ≤ length pairs + length rates.
Proof.
  intros Hcache Hpairs Hos.
  destruct (save_rates_cache_writes st now rates source w cache pairs Hcache Hpairs)
    as (pairs' & Hstore & ->).
  exists (length pairs'). split; [|by eapply store_rates_length].
  unfold get_last_update_info. rewrite (get_rates_cache_written _ _ _ _ Hos).
  destruct (saved_cache_fields source (isoformat now) pairs' cache)
    as (Hfield & Hrefresh & Hsource).
  by rewrite !py_get_dict, Hfield, Hrefresh, Hsource.
Qed.
End cache_more.

(** ** [DatabaseManager]: the single-rate update and its lookup *)

Section database_more.
Context {lib : DatetimeLib}.

(** X21. [DatabaseManager.update_rate] followed by [DatabaseManager.get_rate]
    returns the stored entry, and the update migrates a cache in the flat
    format: whether the document has a dict under ["pairs"] or is itself the
    table of pairs, once the write completes the document has the key
    ["pairs"], the table under it holds the new entry, every other key of the
    old table is kept, and [last_refresh] is set. *)
Theorem update_rate_round_trip st now_entry now_refresh from_code to_code rate source w
    rates pairs temp_path :
  get_rates st (files w) = JObj rates →
  default (JObj rates) (dict_get "pairs" rates) = JObj pairs →
  os w 0 = Written temp_path →
  ∃ w' rates' pairs',
    update_rate st now_entry now_refresh from_code to_code rate source w = (Ok (), w') ∧
    get_rates st (files w') = JObj rates' ∧
    dict_get "pairs" rates' = Some (JObj pairs') ∧
    dict_get "last_refresh" rates' = Some (JStr (isoformat now_refresh)) ∧
    db_get_rate st (files w') from_code to_code =
      Ok (cache_entry rate (isoformat now_entry) source) ∧
    ∀ key, key ≠ pair_key (upper from_code) (upper to_code) →
      dict_get key pairs' = dict_get key pairs.
Proof.
  intros Hrates Hpairs Hos.
  set (entry := cache_entry rate (isoformat now_entry) source).
  set (key := pair_key (upper from_code) (upper to_code)).
  set (wrapped := match dict_get "pairs" rates with
                  | Some _ => rates
                  | None => [("pairs", JObj rates); ("last_refresh", JNull)]
                  end).
  set (rates' := dict_set "last_refresh" (JStr (isoformat now_refresh))
                   (dict_set "pairs" (JObj (dict_set key entry pairs)) wrapped)).
  assert (update_rate st now_entry now_refresh from_code to_code rate source w =
            _write_json (rates_file st) (JObj rates') w) as Hupdate.
  { unfold update_rate, save_rates, mbind, M_bind, read, lift. simpl. rewrite Hrates.
    unfold rates', wrapped.
    destruct (dict_get "pairs" rates) as [stored|] eqn:Hstored; simpl in *.
    - rewrite Hstored. simpl. by rewrite Hpairs.
    - injection Hpairs as <-. done. }
  destruct (_write_json_written (rates_file st) (JObj rates') w _ Hos)
    as (Hok & Hfile & _).
  assert (get_rates st (files (_write_json (rates_file st) (JObj rates') w).2) =
            JObj rates') as Hread.
  { unfold get_rates, _read_json. by rewrite Hfile. }
  assert (dict_get "pairs" rates' = Some (JObj (dict_set key entry pairs))) as Hfield.
  { unfold rates'. rewrite (dict_get_set_ne "last_refresh" "pairs") by done.
    apply dict_get_set_eq. }
  exists (_write_json (rates_file st) (JObj rates') w).2, rates',
    (dict_set key entry pairs).
  split; [rewrite Hupdate; by destruct (_write_json _ _ _) as [? ?]; simpl in *; subst|].
  split; [done|]. split; [done|]. split; [apply dict_get_set_eq|]. split.
  - unfold db_get_rate. rewrite Hread, py_get_dict, Hfield. simpl.
    fold key. by rewrite dict_get_set_eq.
  - intros key' Hkey. by apply dict_get_set_ne.
Qed.

(** X22. A bare number stored under the reverse pair is read in three ways:
    [calculate_rate] inverts it, [DatabaseManager.get_rate] answers [None],
    and [RatesStorage.get_rate_from_cache] raises [AttributeError]. *)
Theorem bare_reverse_entry st fs from_code to_code cache pairs r :
  get_rates st fs = JObj cache →
  dict_get "pairs" cache = Some (JObj pairs) →
  upper from_code ≠ upper to_code →
  dict_get (pair_key (upper from_code) (upper to_code)) pairs = None →
  dict_get (pair_key (upper to_code) (upper from_code)) pairs = Some (JNum r) →
  is_zero r = false →
  calculate_rate from_code to_code pairs = Ok (JNum (1 / r)) ∧
  db_get_rate st fs from_code to_code = Ok JNull ∧
  get_rate_from_cache st fs from_code to_code = Raise AttributeError.
Proof.
  intros Hcache Hpairs Hne Hdirect Hreverse Hz. split; [|split].
  - unfold calculate_rate. rewrite (eqb_ne _ _ Hne), Hdirect, Hreverse. cbv zeta.
    simpl rate_of. fold (usable (JNum r)).
    by rewrite (usable_number _ Hz), (truediv_numbers _ _ Hz).
  - unfold db_get_rate. rewrite Hcache, py_get_dict, Hpairs. simpl.
    by rewrite Hdirect, Hreverse.
  - unfold get_rate_from_cache.
    change (get_rates_cache st fs) with (get_rates st fs).
    rewrite Hcache, py_get_dict, Hpairs. simpl.
    by rewrite Hdirect, Hreverse.
Qed.
End database_more.

(** ** [_ensure_files] *)

(** X23. [RatesStorage._ensure_files] never overwrites: when both files exist
    it returns without a call to the operating system, and whatever the
    outcomes of its writes (with fresh temporary names) every file that
    existed is left as it was; when the writes complete both files exist
    afterwards. *)
Theorem _ensure_files_keeps_existing rates_path history_path w :
  (is_Some (files w !! rates_path) → is_Some (files w !! history_path) →
   _ensure_files rates_path history_path w = (Ok (), w)) ∧
  (fresh_temps [rates_path; history_path] w →
   ∀ path f, files w !! path = Some f →
     files (_ensure_files rates_path history_path w).2 !! path = Some f) ∧
  (fresh_temps [rates_path; history_path] w → os_cooperates w →
   (_ensure_files rates_path history_path w).1 = Ok () ∧
   is_Some (files (_ensure_files rates_path history_path w).2 !! rates_path) ∧
   is_Some (files (_ensure_files rates_path history_path w).2 !! history_path)).
Proof.
  assert (rates_path ∈ [rates_path; history_path]) as Hin1 by repeat constructor.
  assert (history_path ∈ [rates_path; history_path]) as Hin2 by repeat constructor.
  split; [|split].
  - intros Hrates Hhistory. unfold _ensure_files, mbind, M_bind, read. simpl.
    rewrite (bool_decide_eq_true_2 _ Hrates). unfold mret, M_ret.
    by rewrite (bool_decide_eq_true_2 _ Hhistory).
  - intros Hfresh path f Hfile. unfold _ensure_files, mbind, M_bind, read. simpl.
    assert (∀ target data w0,
              fresh_temps [rates_path; history_path] w0 →
              target ∈ [rates_path; history_path] →
              files w0 !! path = Some f →
              let step := if bool_decide (is_Some (files w0 !! target)) then mret ()
                          else _write_json target data in
              fresh_temps [rates_path; history_path] (step w0).2 ∧
              files (step w0).2 !! path = Some f) as Hstep.
    { intros target data w0 Hfresh0 Htarget Hfile0. simpl.
      destruct (bool_decide_reflect (is_Some (files w0 !! target))) as [Hexists|Habsent];
        [done|].
      destruct (_write_json_cases _ target data w0 Hfresh0 Htarget)
        as (w1 & Hfresh1 & [[-> Hfiles] | (e & -> & Hfiles)]); simpl;
        (split; [done|]); rewrite Hfiles; [|done].
      rewrite lookup_insert_ne; [done|]. intros <-. apply Habsent. by eauto. }
    destruct (Hstep rates_path empty_cache w Hfresh Hin1 Hfile)
      as [Hfresh1 Hfile1]. simpl in Hfresh1, Hfile1.
    destruct ((if bool_decide (is_Some (files w !! rates_path)) then mret ()
               else _write_json rates_path empty_cache) w) as [[[]|e] w1]; [|done].
    simpl in *.
    by destruct (Hstep history_path (JArr []) w1 Hfresh1 Hin2 Hfile1).
  - intros Hfresh Hos. unfold _ensure_files, mbind, M_bind, read. simpl.
    assert (∀ target data w0,
              fresh_temps [rates_path; history_path] w0 → os_cooperates w0 →
              target ∈ [rates_path; history_path] →
              let step := if bool_decide (is_Some (files w0 !! target)) then mret ()
                          else _write_json target data in
              ∃ w1, step w0 = (Ok (), w1) ∧
                    fresh_temps [rates_path; history_path] w1 ∧ os_cooperates w1 ∧
                    is_Some (files w1 !! target) ∧
                    ∀ path, is_Some (files w0 !! path) → is_Some (files w1 !! path))
      as Hstep.
    { intros target data w0 Hfresh0 Hos0 Htarget. simpl.
      destruct (bool_decide_reflect (is_Some (files w0 !! target))) as [Hexists|Habsent];
        [by exists w0|].
      destruct (_write_json_cooperates target data w0 Hos0)
        as (w1 & Hwrite & Hos1 & Hfile & _).
      destruct (_write_json_cases _ target data w0 Hfresh0 Htarget)
        as (w1' & Hfresh1 & [[Hwrite' Hfiles] | (e & Hwrite' & _)]);
        rewrite Hwrite in Hwrite'; [|done].
      injection Hwrite' as <-. exists w1. split; [done|]. split; [done|].
      split; [done|]. split; [by eauto|].
      intros path Hpath. rewrite Hfiles.
      destruct (decide (target = path)) as [->|Hother].
      - rewrite lookup_insert_eq. by eauto.
      - by rewrite lookup_insert_ne. }
    destruct (Hstep rates_path empty_cache w Hfresh Hos Hin1)
      as (w1 & -> & Hfresh1 & Hos1 & Hrates1 & _).
    destruct (Hstep history_path (JArr []) w1 Hfresh1 Hos1 Hin2)
      as (w2 & Hsecond & _ & _ & Hhistory2 & Hkeeps).
    simpl in Hsecond. rewrite Hsecond. simpl. by auto.
Qed.

(** ** The loop over the clients *)



Lemma dict_get_update_absent {A} key (d other : list (string * A)) :
  dict_get key other = None → dict_get key (dict_update d other) = dict_get key d.
Proof.
  unfold dict_update. revert d.
  induction other as [|[k v] other IH]; intros d; simpl; [done|].
  destruct (String.eqb k key) eqn:Hk; [done|]. intros Hrest.
  rewrite (IH _ Hrest). apply dict_get_set_ne. by apply String.eqb_neq.
Qed.

Lemma dict_get_update_present {A} key (v : A) (d other : list (string * A)) :
  NoDup other.*1 → dict_get key other = Some v →
  dict_get key (dict_update d other) = Some v.
Proof.
  unfold dict_update. revert d.
  induction other as [|[k v'] other IH]; intros d; simpl; [done|].
  intros [Hfirst Hrest]%NoDup_cons. destruct (String.eqb k key) eqn:Hk.
  - apply String.eqb_eq in Hk as ->. intros [= ->].
    pose proof (dict_get_update_absent key (dict_set key v d) other
                  (dict_get_absent key other Hfirst)) as Habsent.
    unfold dict_update in Habsent. rewrite Habsent. apply dict_get_set_eq.
  - by apply IH.
Qed.

Lemma poll_fold_keeps sources clients acc key :
  (∀ c rates, c ∈ clients → selected sources c = true →
              fetch_rates c = Fetched rates → dict_get key rates = None) →
  dict_get key (all_rates (foldl (poll_client sources) acc clients)) =
    dict_get key (all_rates acc).
Proof.
  revert acc. induction clients as [|c clients IH]; intros acc Hlater; simpl; [done|].
  rewrite IH by (intros c' rates' Hin; apply Hlater; by right).
  unfold poll_client. destruct (selected sources c) eqn:Hsel; simpl; [|done].
  destruct (fetch_rates c) as [rates| |] eqn:Hfetch; simpl; [|done..].
  apply dict_get_update_absent. apply (Hlater c); [by left|done..].
Qed.

(** X24. When several sources return the same pair, the last one in client
    order wins: the rate a selected client returns for a key is the merged
    rate of the cycle whenever no selected client after it returns that
    key. *)
Theorem poll_clients_last_writer_wins sources before c after rates key rate :
  selected sources c = true →
  fetch_rates c = Fetched rates →
  NoDup rates.*1 →
  dict_get key rates = Some rate →
  (∀ c' rates', c' ∈ after → selected sources c' = true →
                fetch_rates c' = Fetched rates' → dict_get key rates' = None) →
  dict_get key (all_rates (poll_clients sources (before ++ c :: after))) = Some rate.
Proof.
  intros Hsel Hfetch Hnodup Hrate Hlater. unfold poll_clients.
  rewrite foldl_app. simpl. rewrite (poll_fold_keeps sources after _ key Hlater).
  unfold poll_client. rewrite Hsel, Hfetch. simpl.
  by apply dict_get_update_present.
Qed.

Lemma poll_fold_errors sources clients acc :
  poll_errors (foldl (poll_client sources) acc clients) =
    poll_errors acc ++ omap error_line (List.filter (selected sources) clients).
Proof.
  revert acc. induction clients as [|c clients IH]; intros acc; simpl.
  { by rewrite app_nil_r. }
  rewrite IH. unfold poll_client, error_line.
  destruct (selected sources c); simpl; [|done].
  destruct (fetch_rates c); simpl; [done|by rewrite <- app_assoc..].
Qed.

Lemma dict_set_keys {A} k (v : A) d x :
  x ∈ (dict_set k v d).*1 ↔ x = k ∨ x ∈ d.*1.
Proof.
  induction d as [|[k' v'] d IH]; simpl.
  - rewrite list_elem_of_singleton, elem_of_nil. tauto.
  - destruct (String.eqb k' k) eqn:Hk; simpl.
    + apply String.eqb_eq in Hk as ->. rewrite elem_of_cons. tauto.
    + rewrite !elem_of_cons, IH. tauto.
Qed.

Lemma dict_set_NoDup {A} k (v : A) d : NoDup d.*1 → NoDup (dict_set k v d).*1.
Proof.
  induction d as [|[k' v'] d IH]; simpl.
  - intros _. apply NoDup_singleton.
  - intros [Hfirst Hrest]%NoDup_cons. destruct (String.eqb k' k) eqn:Hk; simpl.
    + by apply NoDup_cons.
    + apply NoDup_cons. split; [|by apply IH].
      rewrite dict_set_keys. intros [-> | Hin]; [|done].
      by rewrite String.eqb_refl in Hk.
Qed.

Lemma dict_update_NoDup {A} (d other : list (string * A)) :
  NoDup d.*1 → NoDup (dict_update d other).*1.
Proof.
  unfold dict_update. revert d.
  induction other as [|[k v] other IH]; intros d Hd; simpl; [done|].
  by apply IH, dict_set_NoDup.
Qed.

Lemma all_rates_NoDup sources clients :
  NoDup (all_rates (poll_clients sources clients)).*1.
Proof.
  unfold poll_clients.
  assert (∀ acc, NoDup (all_rates acc).*1 →
            NoDup (all_rates (foldl (poll_client sources) acc clients)).*1) as Hfold.
  { induction clients as [|c clients IH]; intros acc Hacc; simpl; [done|].
    apply IH. unfold poll_client. destruct (selected sources c); simpl; [|done].
    destruct (fetch_rates c); simpl; [|done..]. by apply dict_update_NoDup. }
  apply Hfold. simpl. constructor.
Qed.

Section cycle_more.
Context {lib : DatetimeLib}.




(** X26. The report of a cycle that returns lists one error line per selected
    client that raised, in client order, and [success] is [True] exactly when
    that list is empty. *)
Theorem run_update_errors st clk clients sources w res w' :
  run_update st clk clients sources w = (Ok res, w') →
  errors res = omap error_line (List.filter (selected sources) clients) ∧
  (success res = JBool true ↔ errors res = []).
Proof.
  intros ->%run_update_reports. split.
  - simpl. unfold poll_clients. by rewrite poll_fold_errors.
  - rewrite report_status. simpl.
    destruct (poll_clients_facts sources clients) as (_ & Hnil & _).
    unfold reported_status.
    destruct (any_failed sources clients), (any_rate sources clients); simpl in *;
      destruct (poll_errors (poll_clients sources clients)); simpl in *;
      split; intros; congruence.
Qed.

Lemma save_rates_cache_Ok st now rates source w w1 :
  save_rates_cache st now rates source w = (Ok (), w1) →
  is_nil rates = false →
  ∃ cache pairs,
    get_rates_cache st (files w) = JObj cache ∧
    default (JObj []) (dict_get "pairs" cache) = JObj pairs.
Proof.
  intros Hsave Hrates. unfold save_rates_cache, mbind, M_bind, read, lift in Hsave.
  simpl in Hsave.
  destruct (get_rates_cache st (files w)) as [| | | | |cache]; try discriminate.
  exists cache. simpl in Hsave.
  destruct (default (JObj []) (dict_get "pairs" cache)) as [| | | | |pairs];
    [destruct rates as [|[k r] rates]; discriminate..|].
  by exists pairs.
Qed.

(** X27. A cycle that returns has persisted every merged rate: with fresh
    temporary names and distinct cache and history files, after a returning
    cycle that obtained a rate the cache file holds a document whose pairs
    give each merged key the dict of its rate, the timestamp of the cache
    step and the source ["ParserService"], and whose [last_refresh] is that
    timestamp; the history step has not touched it. *)
Theorem run_update_persists st clk clients sources w res w' :
  run_update st clk clients sources w = (Ok res, w') →
  any_rate sources clients = true →
  fresh_temps [rates_file st; exchange_rates_file st] w →
  rates_file st ≠ exchange_rates_file st →
  ∃ cache' pairs',
    get_rates_cache st (files w') = JObj cache' ∧
    dict_get "pairs" cache' = Some (JObj pairs') ∧
    dict_get "last_refresh" cache' = Some (JStr (isoformat (cache_time clk))) ∧
    ∀ key rate,
      dict_get key (all_rates (poll_clients sources clients)) = Some rate →
      dict_get key pairs' =
        Some (JObj [("rate", JNum rate);
                    ("updated_at", JStr (isoformat (cache_time clk)));
                    ("source", JStr "ParserService")]).
Proof.
  intros Hrun Hany Hfresh Hdistinct.
  destruct (poll_clients_facts sources clients) as (Hnil & _).
  rewrite Hany in Hnil. simpl in Hnil.
  assert (rates_file st ∈ [rates_file st; exchange_rates_file st]) as Hin1
    by repeat constructor.
  assert (exchange_rates_file st ∈ [rates_file st; exchange_rates_file st]) as Hin2
    by repeat constructor.
  unfold run_update, mbind, M_bind, mret, M_ret in Hrun. rewrite Hnil in Hrun.
  simpl in Hrun.
  destruct (save_rates_cache st (cache_time clk) _ "ParserService" w)
    as [[[]|e1] w1] eqn:Hsave; [|done].
  destruct (save_rates_to_history st (history_utcnow clk) _ "ParserService" JNull w1)
    as [[[]|e2] w2] eqn:Hhistory; [|done].
  injection Hrun as _ <-.
  destruct (save_rates_cache_Ok _ _ _ _ _ _ Hsave Hnil) as (cache & pairs & Hcache & Hpairs).
  destruct (save_rates_cache_writes st (cache_time clk)
              (all_rates (poll_clients sources clients)) "ParserService" w cache pairs
              Hcache Hpairs) as (pairs' & Hstore & Hwrites).
  rewrite Hwrites in Hsave.
  destruct (_write_json_Ok _ _ _ _ Hsave) as [temp_path Hos].
  destruct (_write_json_cases _ (rates_file st)
              (JObj (dict_set "source" (JStr "ParserService")
                       (dict_set "last_refresh" (JStr (isoformat (cache_time clk)))
                          (dict_set "pairs" (JObj pairs') cache)))) w Hfresh Hin1)
    as (w1' & Hfresh1 & [[Hwrite Hfiles] | (e & Hwrite & _)]);
    rewrite Hsave in Hwrite; [|done].
  injection Hwrite as <-.
  unfold save_rates_to_history in Hhistory.
  destruct (append_rates_cases _ st (all_rates (poll_clients sources clients))
              (isoformat (history_utcnow clk) +:+ "Z") "ParserService" JNull w1
              Hfresh1 Hin2) as (_ & _ & Hother).
  rewrite Hhistory in Hother. simpl in Hother.
  destruct (saved_cache_fields "ParserService" (isoformat (cache_time clk)) pairs' cache)
    as (Hfield & Hrefresh & _).
  eexists _, pairs'. split; [|split; [exact Hfield|split; [exact Hrefresh|]]].
  - unfold get_rates_cache, _read_json.
    by rewrite (Hother _ Hdistinct), Hfiles, lookup_insert_eq.
  - destruct (store_rates_dict (all_rates (poll_clients sources clients))
                (isoformat (cache_time clk)) "ParserService" pairs)
      as (pairs'' & Hstore' & _ & Hnew).
    rewrite Hstore in Hstore'. injection Hstore' as <-.
    apply Hnew, all_rates_NoDup.
Qed.

(** ** What the command line says of a cycle *)

(** X28. [_cmd_update_rates] ends its output with the verdict, and for the
    result of a cycle the verdict is never the line for a partial update: a
    cycle with the status ["partial"] is announced as successful, and the
    failure line is printed exactly when a selected client failed and no
    rate was obtained. *)
Theorem _cmd_update_rates_verdict st clk clients sources w res w' :
  run_update st clk clients sources w = (Ok res, w') →
  last (_cmd_update_rates_lines res) = Some (verdict_line res) ∧
  verdict_line res ≠ "Update completed with errors. Check logs/parser.log for details." ∧
  (verdict_line res = "Update failed. Check logs/parser.log for details." ↔
   reported_status sources clients = CycleFailure) ∧
  (reported_status sources clients = CyclePartial →
   verdict_line res =
     "Update successful. Total rates updated: " +:+ pretty (total_rates res) +:+
     ". Last refresh: " +:+ String.substring 0 19 (completed_at res)).
Proof.
  intros Hrun. split.
  { unfold _cmd_update_rates_lines. by rewrite app_assoc, last_snoc. }
  pose proof (run_update_reports _ _ _ _ _ _ _ Hrun) as Hres.
  assert (success res = status_value (reported_status sources clients)) as Hstatus.
  { rewrite Hres. apply report_status. }
  unfold verdict_line. rewrite Hstatus.
  destruct (reported_status sources clients); simpl; repeat split; try done.
Qed.
End cycle_more.

(** ** The CoinGecko ids *)

Lemma dict_get_key {A} key (v : A) d : dict_get key d = Some v → key ∈ d.*1.
Proof.
  induction d as [|[k v'] d IH]; simpl; [done|].
  destruct (String.eqb k key) eqn:Hk.
  - apply String.eqb_eq in Hk as ->. intros _. by left.
  - intros Hrest. right. by apply IH.
Qed.

Lemma dict_get_value {A} key (v : A) d : dict_get key d = Some v → v ∈ d.*2.
Proof.
  induction d as [|[k v'] d IH]; simpl; [done|].
  destruct (String.eqb k key).
  - intros [= ->]. by left.
  - intros Hrest. right. by apply IH.
Qed.

(** X29. [get_crypto_code] and [get_crypto_id] invert each other on a map
    with distinct codes and distinct ids, as [CRYPTO_ID_MAP] is: the code
    found for an id maps back to that id, and the id of a code maps back to
    the code in upper case. *)
Theorem crypto_id_round_trip crypto_id_map :
  NoDup crypto_id_map.*1 → NoDup crypto_id_map.*2 →
  (∀ coingecko_id code,
     get_crypto_code crypto_id_map coingecko_id = Some code →
     dict_get code crypto_id_map = Some coingecko_id) ∧
  (∀ code coingecko_id,
     get_crypto_id crypto_id_map code = Some coingecko_id →
     get_crypto_code crypto_id_map coingecko_id = Some (upper code)).
Proof.
  intros Hcodes Hids. split.
  - intros coingecko_id code. clear Hids.
    induction crypto_id_map as [|[c i] m IH]; simpl; [done|].
    apply NoDup_cons in Hcodes as [Hfirst Hrest].
    destruct (String.eqb i coingecko_id) eqn:Hi.
    + apply String.eqb_eq in Hi as ->. intros [= ->]. by rewrite String.eqb_refl.
    + intros Hfound%(IH Hrest). rewrite Hfound.
      destruct (String.eqb c code) eqn:Hc; [|done].
      apply String.eqb_eq in Hc as ->. by apply dict_get_key in Hfound.
  - intros code coingecko_id. unfold get_crypto_id. clear Hcodes.
    induction crypto_id_map as [|[c i] m IH]; simpl; [done|].
    apply NoDup_cons in Hids as [Hfirst Hrest].
    destruct (String.eqb c (upper code)) eqn:Hc.
    + apply String.eqb_eq in Hc as ->. intros [= ->]. by rewrite String.eqb_refl.
    + intros Hfound. rewrite (IH Hrest Hfound).
      destruct (String.eqb i coingecko_id) eqn:Hi; [|done].
      apply String.eqb_eq in Hi as ->. by apply dict_get_value in Hfound.
Qed.

(** ** The further properties on the sample documents and worlds *)

Lemma get_rate_same_currency_witness :
  get_rate (lib := Iso.lib) _init_currency_registry st_default (t0 + seconds 60)
    (rates_fs (JStr "not a cache")) " usd" "USD" =
    Ok {| res_from_code := "USD"; res_to_code := "USD";
          res_rate := JNum 1; res_reverse_rate := JNum 1;
          res_updated_at := JStr (Iso.print (t0 + seconds 60)%Z);
          res_source := None; res_fresh := true |}.
Proof.
  apply (get_rate_same_currency (lib := Iso.lib) _init_currency_registry st_default
           (t0 + seconds 60) (rates_fs (JStr "not a cache")) " usd" "USD" "USD"
           eq_refl eq_refl).
  repeat constructor.
Defined.


(** The stored zero is served, without a reverse rate; the pair stamped in the
    [Z] notation raises. *)
Lemma get_rate_direct_witness :
  get_rate (lib := Iso.lib) _init_currency_registry st_default (t0 + seconds 60)
    (rates_fs zero_eur_usd) "EUR" "USD" =
    Ok {| res_from_code := "EUR"; res_to_code := "USD";
          res_rate := JNum 0;
          res_reverse_rate := JNull;
          res_updated_at := JStr "2024-01-01T00:00:00";
          res_source := Some (JStr "ParserService");
          res_fresh := true |} ∧
  get_rate (lib := Iso.lib) _init_currency_registry st_default (t0 + seconds 60)
    (rates_fs zulu_eur_usd) "EUR" "USD" = Raise TypeError.
Proof.
  split.
  - rewrite (proj1 (get_rate_direct (lib := Iso.lib) _init_currency_registry st_default
                      (t0 + seconds 60) (rates_fs zero_eur_usd) "EUR" "USD" "EUR" "USD"
                      [("EUR_USD", cache_entry 0 "2024-01-01T00:00:00" "ParserService")]
                      [("rate", JNum 0); ("updated_at", JStr "2024-01-01T00:00:00");
                       ("source", JStr "ParserService")] 0
                      eq_refl eq_refl ltac:(repeat constructor) ltac:(repeat constructor)
                      ltac:(discriminate) eq_refl eq_refl eq_refl)).
    reflexivity.
  - apply (proj2 (proj2
             (get_rate_direct (lib := Iso.lib) _init_currency_registry st_default
                (t0 + seconds 60) (rates_fs zulu_eur_usd) "EUR" "USD" "EUR" "USD"
                [("EUR_USD", cache_entry 1.08 "2024-01-01T00:00:00Z" "ParserService")]
                [("rate", JNum 1.08); ("updated_at", JStr "2024-01-01T00:00:00Z");
                 ("source", JStr "ParserService")] 1.08
                eq_refl eq_refl ltac:(repeat constructor) ltac:(repeat constructor)
                ltac:(discriminate) eq_refl eq_refl eq_refl))
             "2024-01-01T00:00:00Z" {| wall_us := t0; utcoffset := Some 0%Z |} 0%Z);
      reflexivity.
Defined.

Lemma get_rate_without_cache_witness :
  get_rate (lib := Iso.lib) _init_currency_registry st_default t0
    {[ "data/rates.json" := Garbage "{ pairs" ]} "EUR" "USD" =
    Raise (unavailable "EUR" "USD").
Proof.
  apply (get_rate_without_cache (lib := Iso.lib) _init_currency_registry st_default t0
           {[ "data/rates.json" := Garbage "{ pairs" ]} "EUR" "USD" "EUR" "USD"
           eq_refl eq_refl ltac:(repeat constructor) ltac:(repeat constructor)
           ltac:(discriminate) ltac:(right; left; eexists; reflexivity)).
Defined.

Lemma get_rate_flat_cache_witness :
  get_rate (lib := Iso.lib) _init_currency_registry st_default t0
    (rates_fs legacy_flat) "EUR" "USD" =
    Ok {| res_from_code := "EUR"; res_to_code := "USD";
          res_rate := JNum 1.08;
          res_reverse_rate := JNum (1 / 1.08);
          res_updated_at := JNull;
          res_source := Some (JStr "cache");
          res_fresh := false |}.
Proof.
  apply (get_rate_flat_cache (lib := Iso.lib) _init_currency_registry st_default t0
           (rates_fs legacy_flat) "EUR" "USD" "EUR" "USD" [("EUR_USD", JNum 1.08)] 1.08
           eq_refl eq_refl ltac:(repeat constructor) ltac:(repeat constructor)
           ltac:(discriminate) eq_refl eq_refl eq_refl eq_refl).
Defined.

Lemma get_rate_directions_agree_witness :
  ∃ forward backward,
    get_rate (lib := Iso.lib) _init_currency_registry st_default (t0 + seconds 60)
      (rates_fs only_eur_usd) "EUR" "USD" = Ok forward ∧
    get_rate (lib := Iso.lib) _init_currency_registry st_default (t0 + seconds 60)
      (rates_fs only_eur_usd) "USD" "EUR" = Ok backward ∧
    res_rate backward = res_reverse_rate forward ∧
    res_reverse_rate backward = res_rate forward ∧
    res_updated_at backward = res_updated_at forward ∧
    res_source backward = res_source forward ∧
    res_fresh backward = res_fresh forward.
Proof.
  eapply (get_rate_directions_agree (lib := Iso.lib) _init_currency_registry st_default
            (t0 + seconds 60) (rates_fs only_eur_usd) "EUR" "USD" "EUR" "USD" _
            (cache_entry 1.08 "2024-01-01T00:00:00" "ParserService") 1.08 true
            eq_refl eq_refl ltac:(repeat constructor) ltac:(repeat constructor)
            ltac:(discriminate));
    reflexivity.
Defined.

(** Stale 301 seconds after the timestamp, and so an hour after it. *)
Lemma is_rate_fresh_monotone_witness :
  is_rate_fresh (lib := Iso.lib) (t0 + seconds 3600) (JStr "2024-01-01T00:00:00") 300 =
    Ok false.
Proof.
  apply (proj1 (is_rate_fresh_monotone (lib := Iso.lib) (t0 + seconds 301)
                  (JStr "2024-01-01T00:00:00") 300) (t0 + seconds 3600)%Z).
  - unfold t0, seconds. lia.
  - reflexivity.
Defined.

Lemma _write_json_all_or_nothing_witness :
  (_write_json "data/rates.json" crypto_in_usd
     (world_of (rates_fs only_eur_usd) replace_refused)).1 =
    Raise (OSError "Permission denied") ∧
  files (_write_json "data/rates.json" crypto_in_usd
           (world_of (rates_fs only_eur_usd) replace_refused)).2 = rates_fs only_eur_usd.
Proof.
  destruct (_write_json_all_or_nothing "data/rates.json" crypto_in_usd
              (world_of (rates_fs only_eur_usd) replace_refused))
    as [[Hok _] | [_ Hfiles]].
  - intros temp_path [= <-]. reflexivity.
  - discriminate Hok.
  - split; [reflexivity|exact Hfiles].
Defined.

Lemma save_rates_to_history_appends_witness :
  [JObj eur_record] `prefix_of`
    get_history st_default
      (files (save_rates_to_history (lib := Iso.lib) st_default t0
                [("GBP_USD", 1.265%float)] "ParserService" JNull
                (world_of (history_fs [JObj eur_record]) disk_full)).2).
Proof.
  apply (proj1 (save_rates_to_history_appends (lib := Iso.lib) st_default t0
                  [("GBP_USD", 1.265%float)] "ParserService" JNull
                  (world_of (history_fs [JObj eur_record]) disk_full)
                  ltac:(intros n temp_path [= <-]; split; [reflexivity|];
                        intros Hin%list_elem_of_singleton; discriminate))).
Defined.

Lemma save_rates_to_history_idempotent_witness :
  save_rates_to_history (lib := Iso.lib) st_default t0
    [("GBP_USD", 1.265%float); ("EUR_USD", 1.0786%float)] "ParserService" JNull
    (save_rates_to_history (lib := Iso.lib) st_default t0
       [("GBP_USD", 1.265%float); ("EUR_USD", 1.0786%float)] "ParserService" JNull
       (world_of (history_fs []) all_written)).2 =
  (Ok (),
   (save_rates_to_history (lib := Iso.lib) st_default t0
      [("GBP_USD", 1.265%float); ("EUR_USD", 1.0786%float)] "ParserService" JNull
      (world_of (history_fs []) all_written)).2).
Proof.
  apply (save_rates_to_history_idempotent (lib := Iso.lib) st_default t0
           [("GBP_USD", 1.265%float); ("EUR_USD", 1.0786%float)] "ParserService" JNull
           (world_of (history_fs []) all_written)).
  reflexivity.
Defined.

Lemma save_rates_to_history_skips_witness :
  save_rates_to_history (lib := Iso.lib) st_default t0
    [("BTCUSD", 59337.21%float); ("BTC_USD_SPOT", 59337.21%float)] "ParserService" JNull
    (world_of (history_fs [JObj eur_record]) all_written) =
  (Ok (), world_of (history_fs [JObj eur_record]) all_written).
Proof.
  apply (save_rates_to_history_skips (lib := Iso.lib)).
  repeat (constructor; [by vm_compute|]). constructor.
Defined.

(** Thirty days before 2024-01-01: the record of November goes, and so does
    the record without a timestamp.  Eight hundred thousand days before it
    there is no date. *)
Lemma clear_old_history_filters_witness :
  get_history st_default
    (files (clear_old_history (lib := Iso.lib) st_default t0 30
              (world_of (history_fs aged_history) all_written)).2) = [JObj eur_record] ∧
  clear_old_history (lib := Iso.lib) st_default t0 800000
    (world_of (history_fs aged_history) all_written) =
    (Raise OverflowError, world_of (history_fs aged_history) all_written).
Proof.
  assert (well_stamped
            (get_history st_default
               (files (world_of (history_fs aged_history) all_written)))) as Hstamped.
  { repeat (constructor; [eexists _, _; split; reflexivity|]). constructor. }
  split.
  - destruct (clear_old_history_filters (lib := Iso.lib) st_default t0 30
                (world_of (history_fs aged_history) all_written) Hstamped)
      as [Hclear _].
    destruct Hclear as (_ & Hwritten & _).
    + unfold cutoff_in_range, datetime_min, datetime_max, t0. lia.
    + destruct (Hwritten "data/tmpk3v9x1.tmp" eq_refl) as [_ ->]. reflexivity.
  - apply (proj2 (clear_old_history_filters (lib := Iso.lib) st_default t0 800000
                    (world_of (history_fs aged_history) all_written) Hstamped)).
    unfold cutoff_in_range, datetime_min, datetime_max, t0. lia.
Defined.

Lemma save_rates_cache_all_or_nothing_witness :
  (∃ e, (save_rates_cache (lib := Iso.lib) st_default t0 [("BTC_USD", 59337.21%float)]
           "CoinGecko" (world_of (rates_fs only_eur_usd) disk_full)).1 = Raise e) ∧
  files (save_rates_cache (lib := Iso.lib) st_default t0 [("BTC_USD", 59337.21%float)]
           "CoinGecko" (world_of (rates_fs only_eur_usd) disk_full)).2 =
    rates_fs only_eur_usd.
Proof.
  destruct (save_rates_cache_all_or_nothing (lib := Iso.lib) st_default t0
              [("BTC_USD", 59337.21%float)] "CoinGecko"
              (world_of (rates_fs only_eur_usd) disk_full))
    as [[Hok _] | Hraised].
  - intros temp_path [= <-]. reflexivity.
  - discriminate Hok.
  - exact Hraised.
Defined.

Lemma update_single_rate_round_trip_witness :
  get_rate_from_cache st_default
    (files (update_single_rate (lib := Iso.lib) st_default (t0 + seconds 3600)
              "btc" "usd" 59337.21 "CoinGecko"
              (world_of (rates_fs only_eur_usd) all_written)).2) "BTC" "Usd" =
    Ok (JObj [("rate", JNum 59337.21); ("updated_at", JStr "2024-01-01T01:00:00");
              ("source", JStr "CoinGecko")]).
Proof.
  apply (proj2 (update_single_rate_round_trip (lib := Iso.lib) st_default
                  (t0 + seconds 3600) "btc" "usd" 59337.21 "CoinGecko"
                  (world_of (rates_fs only_eur_usd) all_written) _ _ "data/tmpk3v9x1.tmp"
                  eq_refl eq_refl eq_refl));
    reflexivity.
Defined.

(** Saved at 01:00:00 and asked for 299 seconds later. *)
Lemma save_rates_cache_serves_get_rate_witness :
  get_rate (lib := Iso.lib) _init_currency_registry st_default (t0 + seconds 3899)
    (files (save_rates_cache (lib := Iso.lib) st_default (t0 + seconds 3600)
              [("BTC_USD", 59337.21%float)] "CoinGecko"
              (world_of (rates_fs only_eur_usd) all_written)).2) "btc" "usd" =
    Ok {| res_from_code := "BTC"; res_to_code := "USD";
          res_rate := JNum 59337.21;
          res_reverse_rate := JNum (1 / 59337.21);
          res_updated_at := JStr (Iso.print (t0 + seconds 3600)%Z);
          res_source := Some (JStr "CoinGecko");
          res_fresh := true |}.
Proof.
  apply (save_rates_cache_serves_get_rate (lib := Iso.lib) _init_currency_registry
           st_default (t0 + seconds 3600) (t0 + seconds 3899)
           [("BTC_USD", 59337.21%float)] "CoinGecko"
           (world_of (rates_fs only_eur_usd) all_written) _ _ "data/tmpk3v9x1.tmp"
           "btc" "usd" "BTC" "USD" 59337.21
           eq_refl eq_refl ltac:(repeat constructor; by intros ?%elem_of_nil) eq_refl
           eq_refl eq_refl ltac:(repeat constructor) ltac:(repeat constructor)
           ltac:(discriminate) eq_refl eq_refl eq_refl ltac:(simpl; lia)).
Defined.

Lemma get_last_update_info_after_save_witness :
  ∃ count,
    get_last_update_info st_default
      (files (save_rates_cache (lib := Iso.lib) st_default (t0 + seconds 3600)
                [("BTC_USD", 59337.21%float)] "CoinGecko"
                (world_of (rates_fs only_eur_usd) all_written)).2) =
      Ok {| info_last_refresh := JStr (Iso.print (t0 + seconds 3600)%Z);
            info_source := JStr "CoinGecko";
            pairs_count := count |} ∧
    1 ≤ count ≤ 1 + 1.
Proof.
  apply (get_last_update_info_after_save (lib := Iso.lib) st_default (t0 + seconds 3600)
           [("BTC_USD", 59337.21%float)] "CoinGecko"
           (world_of (rates_fs only_eur_usd) all_written)
           _ [("EUR_USD", cache_entry 1.08 "2024-01-01T00:00:00" "ParserService")]
           "data/tmpk3v9x1.tmp" eq_refl eq_refl eq_refl).
Defined.

(** The flat cache is migrated by the first update. *)
Lemma update_rate_round_trip_witness :
  ∃ w' rates' pairs',
    update_rate (lib := Iso.lib) st_default t0 (t0 + 1) "btc" "usd" 59337.21 "CoinGecko"
      (world_of (rates_fs legacy_flat) all_written) = (Ok (), w') ∧
    get_rates st_default (files w') = JObj rates' ∧
    dict_get "pairs" rates' = Some (JObj pairs') ∧
    db_get_rate st_default (files w') "btc" "usd" =
      Ok (cache_entry 59337.21 (Iso.print t0) "CoinGecko") ∧
    dict_get "EUR_USD" pairs' = Some (JNum 1.08).
Proof.
  destruct (update_rate_round_trip (lib := Iso.lib) st_default t0 (t0 + 1) "btc" "usd"
              59337.21 "CoinGecko" (world_of (rates_fs legacy_flat) all_written)
              [("EUR_USD", JNum 1.08)] [("EUR_USD", JNum 1.08)] "data/tmpk3v9x1.tmp"
              eq_refl eq_refl eq_refl)
    as (w' & rates' & pairs' & Hupdate & Hread & Hpairs & _ & Hget & Hkept).
  exists w', rates', pairs'. repeat split; try assumption.
  rewrite (Hkept "EUR_USD"); [reflexivity|discriminate].
Defined.

Lemma bare_reverse_entry_witness :
  calculate_rate "usd" "eur" [("EUR_USD", JNum 1.08)] = Ok (JNum (1 / 1.08)) ∧
  db_get_rate st_default (rates_fs bare_eur_usd) "usd" "eur" = Ok JNull ∧
  get_rate_from_cache st_default (rates_fs bare_eur_usd) "usd" "eur" =
    Raise AttributeError.
Proof.
  eapply (bare_reverse_entry st_default (rates_fs bare_eur_usd) "usd" "eur" _
            [("EUR_USD", JNum 1.08)] 1.08 eq_refl eq_refl ltac:(discriminate)
            eq_refl eq_refl eq_refl).
Defined.

Lemma _ensure_files_keeps_existing_witness :
  files (_ensure_files "data/rates.json" "data/exchange_rates.json"
           (world_of (rates_fs only_eur_usd) all_written)).2 !! "data/rates.json" =
    Some (Json only_eur_usd) ∧
  is_Some (files (_ensure_files "data/rates.json" "data/exchange_rates.json"
                    (world_of (rates_fs only_eur_usd) all_written)).2
             !! "data/exchange_rates.json").
Proof.
  assert (fresh_temps ["data/rates.json"; "data/exchange_rates.json"]
            (world_of (rates_fs only_eur_usd) all_written)) as Hfresh.
  { intros n temp_path [= <-]. split; [reflexivity|].
    intros Hin. repeat (apply elem_of_cons in Hin as [Hin|Hin]; [discriminate|]).
    by apply elem_of_nil in Hin. }
  destruct (_ensure_files_keeps_existing "data/rates.json" "data/exchange_rates.json"
              (world_of (rates_fs only_eur_usd) all_written))
    as (_ & Hkept & Hcreated).
  split.
  - apply (Hkept Hfresh). reflexivity.
  - apply (Hcreated Hfresh). intros n. by exists "data/tmpk3v9x1.tmp".
Defined.

Lemma poll_clients_last_writer_wins_witness :
  dict_get "BTC_USD"
    (all_rates (poll_clients None [coingecko_mock; kraken_mock; exchangerate_mock])) =
    Some 59000%float.
Proof.
  apply (poll_clients_last_writer_wins None [coingecko_mock] kraken_mock
           [exchangerate_mock] [("BTC_USD", 59000%float)] "BTC_USD" 59000
           eq_refl eq_refl ltac:(repeat constructor; by intros ?%elem_of_nil) eq_refl).
  intros c' rates' Hin _ Hfetch.
  apply list_elem_of_singleton in Hin as ->. injection Hfetch as <-. reflexivity.
Defined.

Lemma run_update_errors_witness :
  ∃ res w',
    run_update (lib := Iso.lib) st_default sample_clock
      [coingecko_mock; exchangerate_down] None
      (world_of (both_fs only_eur_usd []) all_written) = (Ok res, w') ∧
    errors res =
      ["ExchangeRate-API: Ошибка при обращении к внешнему API: Таймаут при запросе к ExchangeRate-API"] ∧
    success res ≠ JBool true.
Proof.
  destruct (run_update_returns (lib := Iso.lib) st_default sample_clock
              [coingecko_mock; exchangerate_down] None
              (world_of (both_fs only_eur_usd []) all_written))
    as (res & w' & Hrun).
  { intros n. by exists "data/tmpk3v9x1.tmp". }
  { split; [|constructor]. eexists. split; reflexivity. }
  destruct (run_update_errors (lib := Iso.lib) _ _ _ _ _ _ _ Hrun) as [Herrors Hsuccess].
  exists res, w'. split; [exact Hrun|]. split; [rewrite Herrors; reflexivity|].
  intros Htrue%Hsuccess. rewrite Herrors in Htrue. discriminate Htrue.
Defined.

Lemma run_update_persists_witness :
  ∃ res w' cache' pairs',
    run_update (lib := Iso.lib) st_default sample_clock
      [coingecko_mock; exchangerate_down] None
      (world_of (both_fs only_eur_usd []) all_written) = (Ok res, w') ∧
    get_rates_cache st_default (files w') = JObj cache' ∧
    dict_get "pairs" cache' = Some (JObj pairs') ∧
    dict_get "BTC_USD" pairs' =
      Some (JObj [("rate", JNum 59337.21);
                  ("updated_at", JStr "2024-01-01T00:00:01.500000");
                  ("source", JStr "ParserService")]).
Proof.
  destruct (run_update_returns (lib := Iso.lib) st_default sample_clock
              [coingecko_mock; exchangerate_down] None
              (world_of (both_fs only_eur_usd []) all_written))
    as (res & w' & Hrun).
  { intros n. by exists "data/tmpk3v9x1.tmp". }
  { split; [|constructor]. eexists. split; reflexivity. }
  destruct (run_update_persists (lib := Iso.lib) _ _ _ _ _ _ _ Hrun eq_refl)
    as (cache' & pairs' & Hcache & Hpairs & _ & Hrates).
  { intros n temp_path [= <-]. split; [reflexivity|].
    intros Hin. repeat (apply elem_of_cons in Hin as [Hin|Hin]; [discriminate|]).
    by apply elem_of_nil in Hin. }
  { discriminate. }
  exists res, w', cache', pairs'. repeat split; try assumption.
  apply Hrates. reflexivity.
Defined.

(** The partial cycle of the samples is announced as successful. *)
Lemma _cmd_update_rates_verdict_witness :
  ∃ res w',
    run_update (lib := Iso.lib) st_default sample_clock
      [coingecko_mock; exchangerate_down] None
      (world_of (both_fs only_eur_usd []) all_written) = (Ok res, w') ∧
    success res = JStr "partial" ∧
    verdict_line res =
      "Update successful. Total rates updated: 5. Last refresh: 2024-01-01T00:00:02".
Proof.
  destruct (run_update_returns (lib := Iso.lib) st_default sample_clock
              [coingecko_mock; exchangerate_down] None
              (world_of (both_fs only_eur_usd []) all_written))
    as (res & w' & Hrun).
  { intros n. by exists "data/tmpk3v9x1.tmp". }
  { split; [|constructor]. eexists. split; reflexivity. }
  destruct (_cmd_update_rates_verdict (lib := Iso.lib) _ _ _ _ _ _ _ Hrun)
    as (_ & _ & _ & Hpartial).
  pose proof (run_update_reports _ _ _ _ _ _ _ Hrun) as Hres.
  exists res, w'. split; [exact Hrun|]. split.
  - rewrite Hres. reflexivity.
  - rewrite (Hpartial eq_refl), Hres. reflexivity.
Defined.

Lemma crypto_id_round_trip_witness :
  get_crypto_code CRYPTO_ID_MAP "dogecoin" = Some "DOGE" ∧
  dict_get "DOGE" CRYPTO_ID_MAP = Some "dogecoin" ∧
  get_crypto_id CRYPTO_ID_MAP "doge" = Some "dogecoin".
Proof.
  assert (NoDup CRYPTO_ID_MAP.*1 ∧ NoDup CRYPTO_ID_MAP.*2) as [Hcodes Hids].
  { split; apply (bool_decide_unpack _); by vm_compute. }
  destruct (crypto_id_round_trip CRYPTO_ID_MAP Hcodes Hids) as [Hcode Hid].
  split; [apply (Hid "doge"); reflexivity|].
  split; [apply Hcode; reflexivity|reflexivity].
Defined.

Lemma get_rate_agrees_with_calculate_rate_witness :
  calculate_rate "BTC" "ETH"
    [("BTC_USD", cache_entry 59337.21 "2024-01-01T00:00:00" "ParserService");
     ("ETH_USD", cache_entry 3720 "2024-01-01T00:00:00" "ParserService")] =
    Ok (JNum (59337.21 / 3720)).
Proof.
  apply (get_rate_agrees_with_calculate_rate (lib := Iso.lib) _init_currency_registry
           st_default (t0 + seconds 60) (rates_fs crypto_in_usd) "btc" "eth" "BTC" "ETH"
           _ {| res_from_code := "BTC"; res_to_code := "ETH";
                res_rate := JNum (59337.21 / 3720);
                res_reverse_rate := JNum (1 / (59337.21 / 3720));
                res_updated_at := JStr "2024-01-01T00:00:00";
                res_source := Some (JStr "calculated");
                res_fresh := true |}
           eq_refl eq_refl ltac:(discriminate) eq_refl eq_refl eq_refl).
Defined.

(** Where the direct entry is falsy the two part: [get_rate] passes on to the
    reverse pair, [calculate_rate] returns the stored zero. *)
Example get_rate_passes_a_zero_entry :
  (∃ res, get_rate (lib := Iso.lib) _init_currency_registry st_default (t0 + seconds 60)
            (rates_fs zero_beside_reverse) "EUR" "USD" = Ok res ∧
          res_rate res = JNum (1 / 0.9)) ∧
  calculate_rate "EUR" "USD"
    [("EUR_USD", JNum 0);
     ("USD_EUR", cache_entry 0.9 "2024-01-01T00:00:00" "ParserService")] = Ok (JNum 0).
Proof. split; [eexists; split|]; vm_compute; reflexivity. Qed.
